(** * dataCAT: the record-indexed append/overwrite engine

    A shallow embedding of the update path of [dataCAT.database.Database]
    and of the helpers of [dataCAT.functions], with the properties the
    specification states about them.

    Layout:
    - [Probe]        [functions.hdf5_availability], the file-availability probe;
    - [PdbShape]     [functions.update_pdb_shape] and [functions.append_pdb_values];
    - [Mongo]        [Database.update_mongodb], the document mirror;
    - [PropDset]     the property dataset engine ([dataCAT.property_dset]);
    - [Orchestrator] [Database.from_df] and the methods it drives;
    - [Slicing]      [functions.int_to_slice];
    - [Mirror]       the whole of [Database.update_mongodb];
    - [ReadBack]     [Database.to_df];
    - [PdbArray]     [functions.as_pdb_array] and [functions.from_pdb_array];
    - [PdbValues]    [functions.update_pdb_values]. *)

From Stdlib Require Import ZArith Lia.
From stdpp Require Import gmap strings pretty list fin_maps.

Local Open Scope Z_scope.

(** ** Python exceptions raised on the modelled paths *)

Inductive PyErr : Type :=
| ValueError (msg : string)
| OSError (errno : Z)
| KeyError (key : string)
| TypeError (msg : string)
| IndexError (msg : string)
| AssertionError (msg : string)
| UnboundLocalError (name : string)
| InvalidOperation (msg : string)
| ConversionError (msg : string)
| DuplicateKeyError
| BulkWriteError
| AttributeError (object attribute : string).

(** A call either returns a value or raises. *)
Inductive Exc (A : Type) : Type :=
| Ret (a : A)
| Raise (e : PyErr).
Arguments Ret {A} a.
Arguments Raise {A} e.

#[global] Instance Exc_ret : MRet Exc := @Ret.

#[global] Instance Exc_bind : MBind Exc := fun A B k m =>
  match m with
  | Ret a => k a
  | Raise e => Raise e
  end.

(** Code that works on a store of type [S] in place: it returns or raises,
    and either way leaves the store in some state. *)
Definition St (S A : Type) : Type := S -> Exc A * S.

#[global] Instance St_ret {S : Type} : MRet (St S) := fun A a s => (Ret a, s).

#[global] Instance St_bind {S : Type} : MBind (St S) := fun A B k m s =>
  match m s with
  | (Ret a, s') => k a s'
  | (Raise e, s') => (Raise e, s')
  end.

Definition get {S : Type} : St S S := fun s => (Ret s, s).
Definition put {S : Type} (s : S) : St S unit := fun _ => (Ret tt, s).

(** The outcome of a computation that touches no store. *)
Definition lift {S A : Type} (m : Exc A) : St S A := fun s => (m, s).

(** [for x in l: body(x)] *)
Fixpoint for_each {S A : Type} (body : A -> St S unit) (l : list A) : St S unit :=
  match l with
  | [] => mret tt
  | x :: l' => body x ≫= fun _ => for_each body l'
  end.

(** [[f(x) for x in l]] for an [f] that may raise. *)
Fixpoint map_exc {A B : Type} (f : A -> Exc B) (l : list A) : Exc (list B) :=
  match l with
  | [] => Ret []
  | x :: l' => f x ≫= fun y => map_exc f l' ≫= fun ys => Ret (y :: ys)
  end.

(** * The availability probe: [dataCAT.functions.hdf5_availability] *)

Module Probe.

(** [i = max_attempts if max_attempts is not None else np.inf]: the loop
    counter is a Python integer or the float infinity. *)
Inductive Counter : Type :=
| Fin (z : Z)
| Inf.

Definition counter_of (max_attempts : option Z) : Counter :=
  match max_attempts with
  | Some m => Fin m
  | None => Inf
  end.

(** [i <= 0] *)
Definition le_zero (i : Counter) : bool :=
  match i with
  | Fin z => z <=? 0
  | Inf => false
  end.

(** Truth value of [i] in [while i]. *)
Definition truthy (i : Counter) : bool :=
  match i with
  | Fin z => negb (z =? 0)
  | Inf => true
  end.

(** [repr(i)] *)
Definition repr_counter (i : Counter) : string :=
  match i with
  | Fin z => pretty z
  | Inf => "inf"
  end.

(** [i -= 1]; [np.inf - 1] is [np.inf]. *)
Definition decr (i : Counter) : Counter :=
  match i with
  | Fin z => Fin (z - 1)
  | Inf => Inf
  end.

(** What one [h5py.File(filename, 'r+', **kwargs)] does. *)
Inductive OpenResult : Type :=
| Opened
| Unavailable (errno : Z).

Section WithTimeout.

(** The type of [timeout] (a Python float, in seconds). *)
Variable seconds : Type.

(** What the probe does to the outside world, in order. *)
Inductive Event : Type :=
| EvOpen (attempt : nat)
| EvWarn (errno : Z)
| EvSleep (t : seconds).

(** The file system as the probe sees it: the outcome of the [k]-th open
    (counted from 0) of [filename]. *)
Variable file : nat -> OpenResult.
Variable timeout : seconds.

(** The events of one failed pass through the loop body. *)
Definition failed_pass (k : nat) (errno : Z) : list Event :=
  [EvOpen k; EvWarn errno; EvSleep timeout].

(** The [while i] loop. [k] counts the opens made so far, [exception] is the
    variable the [except] clause binds, [tr] the events so far. [None] means
    the loop is still running when [fuel] passes are used up. *)
Fixpoint retry (fuel : nat) (i : Counter) (k : nat) (exception : option Z)
    (tr : list Event) : option (Exc unit * list Event) :=
  if truthy i then
    match fuel with
    | O => None
    | S fuel' =>
        match file k with
        | Opened => Some (Ret tt, tr ++ [EvOpen k])
        | Unavailable errno =>
            retry fuel' (decr i) (S k) (Some errno) (tr ++ failed_pass k errno)
        end
    end
  else
    match exception with
    | Some errno => Some (Raise (OSError errno), tr)
    | None => Some (Raise (UnboundLocalError "exception"), tr)
    end.

Definition hdf5_availability (fuel : nat) (max_attempts : option Z)
    : option (Exc unit * list Event) :=
  let i := counter_of max_attempts in
  if le_zero i then
    Some (Raise (ValueError ("'max_attempts' must be larger than 0; observed value: "
                               +:+ repr_counter i)), [])
  else retry fuel i O None [].

(** The [errno] of a failed open. *)
Definition errno_of (r : OpenResult) : Z :=
  match r with
  | Unavailable errno => errno
  | Opened => 0
  end.

(** The events of [n] failed passes starting at open number [k]: each one
    opens, warns and sleeps [timeout]. *)
Definition failed_passes (k n : nat) : list Event :=
  flat_map (fun j => failed_pass j (errno_of (file j))) (seq k n).

(** The [n] opens from number [k] on all fail. *)
Definition all_fail (k n : nat) : Prop :=
  forall j : nat, (k <= j < k + n)%nat -> file j <> Opened.

(** The counter [i] stays non-zero for [n] more decrements. *)
Definition allows (i : Counter) (n : nat) : Prop :=
  match i with
  | Fin m => Z.of_nat n < m
  | Inf => True
  end.

End WithTimeout.

Arguments EvOpen {seconds} attempt.
Arguments EvWarn {seconds} errno.
Arguments EvSleep {seconds} t.

(** A file that is busy for the first two opens. *)
Definition busy_twice (k : nat) : OpenResult :=
  if (k <? 2)%nat then Unavailable 11 else Opened.

(** A file that never becomes available. *)
Definition always_busy (k : nat) : OpenResult := Unavailable 11.

End Probe.

(** * Shape management of the structural datasets:
      [dataCAT.functions.update_pdb_shape] and [append_pdb_values] *)

Module PdbShape.

Section WithCell.

(** The type of one array element, and the fill value HDF5 gives to the
    cells a resize exposes. *)
Variable V : Type.
Variable fillvalue : V.

(** A NumPy array, or the content of an h5py dataset, of rank 1 or 2. A
    rank-2 array records its number of columns, which it has even with no
    row. The datasets of a group are created chunked and without a maximum
    shape, so that every resize below is allowed. *)
Inductive Array : Type :=
| Ar1 (vals : list V)
| Ar2 (ncols : nat) (rows : list (list V)).

Definition ndim (a : Array) : nat :=
  match a with
  | Ar1 _ => 1
  | Ar2 _ _ => 2
  end.

(** [len(a)] *)
Definition len (a : Array) : nat :=
  match a with
  | Ar1 vals => length vals
  | Ar2 _ rows => length rows
  end.

(** [a.shape] *)
Definition shape (a : Array) : list nat :=
  match a with
  | Ar1 vals => [length vals]
  | Ar2 ncols rows => [length rows; ncols]
  end.

(** Every row of a rank-2 array has [ncols] cells. *)
Definition wf_array (a : Array) : Prop :=
  match a with
  | Ar1 _ => True
  | Ar2 ncols rows => Forall (fun row => length row = ncols) rows
  end.

(** The cell at row [r], column [c] (column 0 for rank 1). *)
Definition cell (a : Array) (r c : nat) : option V :=
  match a with
  | Ar1 vals => if decide (c = 0%nat) then vals !! r else None
  | Ar2 _ rows => rows !! r ≫= (.!! c)
  end.

(** [dataset.shape = shape], which h5py turns into [dataset.resize(shape)]:
    every axis is cut or padded with the fill value. *)
Definition set_shape (dataset : Array) (new_shape : list nat) : Exc Array :=
  match dataset, new_shape with
  | Ar1 vals, [n] => Ret (Ar1 (resize n fillvalue vals))
  | Ar2 _ rows, [n; w] =>
      Ret (Ar2 w (resize n (replicate w fillvalue)
                    (resize w fillvalue <$> rows)))
  | _, _ => Raise (TypeError "New shape length must match old shape")
  end.

(** The body of the loop of [update_pdb_shape], up to the assignment:
    [shape[0] += len(ar)], and [shape[1] = max(shape[1], ar.shape[1])] when
    [ar] has rank 2. *)
Definition grown_shape (dataset ar : Array) : Exc (list nat) :=
  let shape0 := alter (fun n => n + len ar)%nat 0%nat (shape dataset) in
  if decide (ndim ar = 2%nat) then
    match shape0 !! 1%nat, shape ar !! 1%nat with
    | Some w, Some j => Ret (<[1%nat := Nat.max w j]> shape0)
    | _, _ => Raise (IndexError "index 1 is out of bounds for axis 0")
    end
  else Ret shape0.

(** One pass of the loop of [update_pdb_shape] on the dataset it looked up. *)
Definition reshape_one (dataset ar : Array) : Exc unit * Array :=
  match grown_shape dataset ar with
  | Raise e => (Raise e, dataset)
  | Ret new_shape =>
      match set_shape dataset new_shape with
      | Raise e => (Raise e, dataset)
      | Ret dataset' => (Ret tt, dataset')
      end
  end.

(** Where the selection [-i:] starts on an axis of length [n]: [-0] is [0]. *)
Definition tail_start (n i : nat) : nat :=
  if decide (i = 0%nat) then 0%nat else (n - i)%nat.

(** One pass of the second loop of [append_pdb_values]:
    [dataset[-i:] = ar] for rank 1 and [dataset[-i:, :j] = ar] for rank 2.
    h5py returns at once on an empty selection and raises [TypeError] when
    the array cannot be broadcast to the selection. An array and a dataset
    of different ranks, which a container never pairs, count as such. *)
Definition append_one (dataset ar : Array) : Exc unit * Array :=
  match dataset, ar with
  | Ar1 vals, Ar1 new =>
      let i := length new in
      let start := tail_start (length vals) i in
      let nsel := (length vals - start)%nat in
      if decide (nsel = 0%nat) then (Ret tt, dataset)
      else if decide (nsel = i) then (Ret tt, Ar1 (list_inserts start new vals))
      else (Raise (TypeError "Can't broadcast"), dataset)
  | Ar2 w rows, Ar2 j new =>
      let i := length new in
      let start := tail_start (length rows) i in
      let nrows := (length rows - start)%nat in
      let nsel_cols := Nat.min j w in
      if decide ((nrows * nsel_cols)%nat = 0%nat) then (Ret tt, dataset)
      else if decide (nrows = i /\ nsel_cols = j) then
        (Ret tt,
         Ar2 w (list_inserts start
                  (zip_with (fun new_row old_row => list_inserts 0 new_row old_row)
                     new (drop start rows))
                  rows))
      else (Raise (TypeError "Can't broadcast"), dataset)
  | _, _ => (Raise (TypeError "Can't broadcast"), dataset)
  end.

(** [dataset = group[name]] followed by a loop body that changes that
    dataset in place: a missing name raises [KeyError]. *)
Definition on_dataset (body : Array -> Array -> Exc unit * Array)
    (item : string * Array) (group : gmap string Array)
    : Exc unit * gmap string Array :=
  match group !! item.1 with
  | None => (Raise (KeyError item.1), group)
  | Some dataset =>
      let '(r, dataset') := body dataset item.2 in
      (r, <[item.1 := dataset']> group)
  end.

(** [for name, ar in pdb.items(): ...]: the passes run in order on the
    group, and the first one that raises ends the loop, leaving the group
    as it is by then. *)
Fixpoint for_items (body : string * Array -> gmap string Array ->
                            Exc unit * gmap string Array)
    (items : list (string * Array)) (group : gmap string Array)
    : Exc unit * gmap string Array :=
  match items with
  | [] => (Ret tt, group)
  | item :: items' =>
      match body item group with
      | (Ret _, group') => for_items body items' group'
      | (Raise e, group') => (Raise e, group')
      end
  end.

Definition update_pdb_shape (group : gmap string Array)
    (pdb : list (string * Array)) : Exc unit * gmap string Array :=
  for_items (on_dataset reshape_one) pdb group.

Definition append_pdb_values (group : gmap string Array)
    (pdb : list (string * Array)) : Exc unit * gmap string Array :=
  match update_pdb_shape group pdb with
  | (Ret _, group') => for_items (on_dataset append_one) pdb group'
  | (Raise e, group') => (Raise e, group')
  end.

(** The shape [append_pdb_values] is to give a dataset of shape [shape d]
    that takes in [ar]. *)
Definition appended_shape (d ar : Array) : list nat :=
  match d, ar with
  | Ar2 w rows, Ar2 j new => [(length rows + length new)%nat; Nat.max w j]
  | _, _ => [(len d + len ar)%nat]
  end.

(** The container fits the group: every array has a dataset of its name
    and rank. *)
Definition fits (group : gmap string Array) (pdb : list (string * Array))
    : Prop :=
  Forall (fun item : string * Array =>
            exists d, group !! item.1 = Some d /\ ndim d = ndim item.2 /\
                      wf_array d /\ wf_array item.2) pdb.

End WithCell.

Arguments Ar1 {V} vals.
Arguments Ar2 {V} ncols rows.
Arguments ndim {V} a.
Arguments len {V} a.
Arguments shape {V} a.
Arguments wf_array {V} a.
Arguments cell {V} a r c.

(** A group with a rank-2 dataset of two rows and a rank-1 dataset, and a
    container of one wider record for it. *)
Definition demo_group : gmap string (Array nat) :=
  <["atoms" := Ar2 2 [[1; 2]; [3; 4]]%nat]> (<["atom_count" := Ar1 [2; 2]%nat]> ∅).

Definition demo_pdb : list (string * Array nat) :=
  [("atoms", Ar2 3 [[7; 8; 9]]%nat); ("atom_count", Ar1 [3]%nat)].

End PdbShape.

(** * The document mirror: [Database.update_mongodb] *)

Module Mongo.

Section WithDocuments.

(** A document is a row dictionary: the values under the index keys
    ([idx_keys]), which the collection keeps unique, and the rest. *)
Variable Key : Type.
Context `{EqDecision Key}.
Variable Body : Type.

Definition Doc : Type := Key * Body.

(** A collection holds its documents in insertion order. *)
Definition Collection : Type := list Doc.

Definition has_key (c : Collection) (k : Key) : bool :=
  bool_decide (k ∈ c.*1).

(** [collection.insert_one(item)] *)
Definition insert_one (c : Collection) (item : Doc) : Exc unit * Collection :=
  if has_key c item.1 then (Raise DuplicateKeyError, c)
  else (Ret tt, c ++ [item]).

(** [collection.replace_one(filter_, item)]: the first document that
    matches the filter is replaced. *)
Fixpoint replace_one (c : Collection) (filter_ : Key) (item : Doc) : Collection :=
  match c with
  | [] => []
  | doc :: c' =>
      if decide (doc.1 = filter_) then item :: c'
      else doc :: replace_one c' filter_ item
  end.

(** The ordered bulk write that [insert_many] executes: documents go in one
    by one, and the first one that the server refuses ends the write. *)
Fixpoint bulk_insert (c : Collection) (ops : list Doc) : Exc unit * Collection :=
  match ops with
  | [] => (Ret tt, c)
  | item :: ops' =>
      match insert_one c item with
      | (Ret _, c') => bulk_insert c' ops'
      | (Raise e, c') => (Raise e, c')
      end
  end.

(** A Python generator is an object with a state: the items it has not
    yielded yet. Whoever iterates over it takes them away for everybody
    who holds the same object. *)
Definition Generator : Type := list Doc.

(** [df_to_mongo_dict(db)] with the default [as_gen=True]: a generator over
    one dictionary per row. *)
Definition df_to_mongo_dict (rows : list Doc) : Generator := rows.

(** [collection.insert_many(documents)]: pymongo first draws every document
    from the iterable it is given to build the operations of the bulk
    write, and executes them afterwards. A write that the server refuses,
    a duplicate key among them, is reported as [BulkWriteError], which is
    not a [DuplicateKeyError]. The third component is the state in which
    the generator is left. *)
Definition insert_many (c : Collection) (documents : Generator)
    : Exc unit * Collection * Generator :=
  let ops := documents in
  match ops with
  | [] => (Raise (InvalidOperation "No operations to execute"), c, [])
  | _ =>
      match bulk_insert c ops with
      | (Ret _, c') => (Ret tt, c', [])
      | (Raise _, c') => (Raise BulkWriteError, c', [])
      end
  end.

(** The loop of plan B over what the generator still yields. *)
Fixpoint plan_b (overwrite : bool) (c : Collection) (dict_gen : Generator)
    : Collection :=
  match dict_gen with
  | [] => c
  | item :: dict_gen' =>
      match insert_one c item with
      | (Ret _, c') => plan_b overwrite c' dict_gen'
      | (Raise _, _) =>
          if overwrite then plan_b overwrite (replace_one c item.1 item) dict_gen'
          else plan_b overwrite c dict_gen'
      end
  end.

(** [update_mongodb] from the point where the collection is known, called
    with a mapping from the database name to a dataframe of [rows]: the
    [try] of plan A, whose [except DuplicateKeyError: pass] lets every
    other exception through, and the [else] branch that returns before
    plan B. *)
Definition update_mongodb (c : Collection) (rows : list Doc) (overwrite : bool)
    : Exc unit * Collection :=
  let dict_gen := df_to_mongo_dict rows in
  match insert_many c dict_gen with
  | (Ret _, c', _) => (Ret tt, c')
  | (Raise DuplicateKeyError, c', dict_gen') =>
      (Ret tt, plan_b overwrite c' dict_gen')
  | (Raise e, c', _) => (Raise e, c')
  end.

End WithDocuments.

(** A collection that holds the key "C[O-]", and a batch of that key and a
    new one. *)
Definition stored : Collection string Z := [("C[O-]", 1)].
Definition batch : list (Doc string Z) := [("C[O-]", 10); ("CC[O-]", 20)].

End Mongo.

(** * The property dataset engine: [dataCAT.property_dset] *)

Module PropDset.

(** The element types of the datasets. *)
Inductive dtype : Type :=
| DInt
| DFloat
| DBool
| DText.

(** One array element. A finite float is [mantissa * 2 ^ exponent]. *)
Inductive value : Type :=
| VInt (z : Z)
| VFloat (mantissa exponent : Z)
| VNaN
| VBool (b : bool)
| VText (s : string).

(** The value that stands for "nothing written here" in a dataset of the
    given element type. *)
Definition sentinel (dt : dtype) : value :=
  match dt with
  | DInt => VInt (-1)
  | DFloat => VNaN
  | DBool => VBool false
  | DText => VText EmptyString
  end.

(** What a dataset holds for one record: one value when it is 1-D, one
    value per sub-column when it is 2-D. *)
Inductive Row : Type :=
| Scalar (v : value)
| Vector (vs : list value).

(** A growable dataset. [dset_name] is its path in the file, which is also
    what tells one dataset object from another; [dset_sub] lists the
    sub-column names of a 2-D dataset; [dset_scale] is the path of the
    dimension scale attached to axis 0, if one is. *)
Record Dataset : Type := mkDataset {
  dset_name : string;
  dset_dtype : dtype;
  dset_sub : option (list string);
  dset_rows : list Row;
  dset_scale : option string
}.

Definition with_rows (dset : Dataset) (rows : list Row) : Dataset :=
  {| dset_name := dset_name dset; dset_dtype := dset_dtype dset;
     dset_sub := dset_sub dset; dset_rows := rows;
     dset_scale := dset_scale dset |}.

(** The row a resize exposes. *)
Definition fill_row (dset : Dataset) : Row :=
  match dset_sub dset with
  | None => Scalar (sentinel (dset_dtype dset))
  | Some names => Vector (replicate (length names) (sentinel (dset_dtype dset)))
  end.

(** The [index] argument of an update as Python gives it: an integer, a
    sequence of integers or a slice without a step. An integer may be
    negative, and a bound of a slice may be negative or left out
    ([None]). *)
Inductive PyIndex : Type :=
| AtInt (i : Z)
| AtSeq (l : list Z)
| AtSlice (start stop : option Z).

(** An index whose integers and bounds are row positions. *)
Inductive IndexLike : Type :=
| IdxInt (i : nat)
| IdxSeq (l : list nat)
| IdxSlice (start stop : nat).

(** The index that Python code writes for row positions: [i], a sequence
    of positions, [slice(start, stop)]. *)
Definition py_index (index : IndexLike) : PyIndex :=
  match index with
  | IdxInt i => AtInt (Z.of_nat i)
  | IdxSeq l => AtSeq (Z.of_nat <$> l)
  | IdxSlice start stop => AtSlice (Some (Z.of_nat start)) (Some (Z.of_nat stop))
  end.

(** The row position that an integer stands for on an axis of [n] rows: a
    negative integer counts from the end of the axis, and one that lies
    before its start addresses no row. An integer from 0 on is the position
    itself, be it on the axis or beyond its end. *)
Definition position (n : nat) (i : Z) : Exc nat :=
  if i <? 0 then
    if i + Z.of_nat n <? 0 then Raise (IndexError "Index out of range")
    else Ret (Z.to_nat (i + Z.of_nat n))
  else Ret (Z.to_nat i).

(** The row position of a bound of a slice on an axis of [n] rows: a
    negative bound counts from the end of the axis and stops at its
    start. *)
Definition slice_bound (n : nat) (bound : Z) : nat :=
  if bound <? 0 then Z.to_nat (Z.max 0 (bound + Z.of_nat n))
  else Z.to_nat bound.

(** Modelled from the spec: the rows that the index of an update addresses
    on an axis of [n] rows. A slice starts at row 0 and ends with the axis
    when the bound is left out; a bound or an integer from 0 on is not cut
    at the end of the axis, so that an index can address rows that are
    still to be made. *)
Definition resolve (n : nat) (index : PyIndex) : Exc IndexLike :=
  match index with
  | AtInt i => position n i ≫= fun i' => Ret (IdxInt i')
  | AtSeq l => map_exc (position n) l ≫= fun l' => Ret (IdxSeq l')
  | AtSlice start stop =>
      Ret (IdxSlice (from_option (slice_bound n) 0%nat start)
                    (from_option (slice_bound n) n stop))
  end.

(** The row positions an index addresses, in order. *)
Definition positions (index : IndexLike) : list nat :=
  match index with
  | IdxInt i => [i]
  | IdxSeq l => l
  | IdxSlice start stop => seq start (stop - start)
  end.

Fixpoint strictly_ascending (l : list nat) : bool :=
  match l with
  | [] => true
  | i :: l' =>
      match l' with
      | [] => true
      | j :: _ => (i <? j)%nat && strictly_ascending l'
      end
  end.

(** [max(index) + 1], and 0 for an index that addresses no row. *)
Definition needed_length (rows : list nat) : nat :=
  foldr Nat.max 0%nat (S <$> rows).

(** Write [data] row by row at the given positions. *)
Fixpoint write_rows (rows : list nat) (data : list Row) (content : list Row)
    : list Row :=
  match rows, data with
  | i :: rows', x :: data' => write_rows rows' data' (<[i := x]> content)
  | _, _ => content
  end.

(** Modelled from the spec: the write of [update_prop_dset] at row
    positions. A sequence has to be strictly ascending and to have one row
    of data per position. When the index addresses rows beyond the current
    length the dataset is first resized to [max(current, max(index) + 1)],
    which keeps what is stored and fills the new rows with the sentinel of
    the element type. *)
Definition write_index (dset : Dataset) (data : list Row)
    (index : IndexLike) : Exc Dataset :=
  let rows := positions index in
  if negb (strictly_ascending rows) then
    Raise (TypeError "Indexing elements must be in increasing order")
  else if negb (length data =? length rows)%nat then
    Raise (TypeError "Can't broadcast")
  else
    let n := Nat.max (length (dset_rows dset)) (needed_length rows) in
    let resized := resize n (fill_row dset) (dset_rows dset) in
    Ret (with_rows dset (write_rows rows data resized)).

(** Modelled from the spec: the rows of the axis on which an update of
    [dset] reads its index: one per record of the index scale attached to
    the dataset, when one is ([scale] is the dataset that [dset.dims[0]]
    gives), and never fewer than the dataset has. *)
Definition axis_length (scale : option Dataset) (dset : Dataset) : nat :=
  Nat.max (length (dset_rows dset))
          (from_option (fun s => length (dset_rows s)) 0%nat scale).

(** Modelled from the spec: [property_dset.update_prop_dset], whose source
    is not part of the repository files at hand. It writes [data] at the row
    positions that [index] addresses. Dataset row [i] belongs to entry [i]
    of the index scale, so that the index is read on the axis of the scale:
    in the test of the repository, a write at [slice(-3, None)] after the
    scale has grown by three entries addresses the three rows that the
    dataset does not have yet. When the index addresses rows beyond the
    current length the dataset is first resized to
    [max(current, max(index) + 1)]. *)
Definition update_prop_dset (scale : option Dataset) (dset : Dataset)
    (data : list Row) (index : PyIndex) : Exc Dataset :=
  resolve (axis_length scale dset) index ≫= fun rows =>
  write_index dset data rows.

(** A group of property datasets with the index scale its datasets share. *)
Record PropGroup : Type := mkPropGroup {
  pg_name : string;
  pg_index : Dataset;
  pg_dsets : gmap string Dataset
}.

(** Which invariant of a property group a dataset breaks. *)
Inductive Violation : Type :=
| MissingScale
| InvalidScale
| InvalidLength.

Definition phrase (v : Violation) : string :=
  match v with
  | MissingScale => "missing dataset scale"
  | InvalidScale => "invalid dataset scale"
  | InvalidLength => "invalid dataset length"
  end.

(** The message of the error raised for the dataset called [name]. *)
Definition violation_message (name : string) (v : Violation) : string :=
  ("'" +:+ name +:+ "': ") +:+ phrase v.

(** The check of one dataset against the shared scale: (a) a scale is
    attached to axis 0, (b) it is the group's index scale, (c) the lengths
    agree. *)
Definition check_dset (scale : Dataset) (dset : Dataset) : option Violation :=
  match dset_scale dset with
  | None => Some MissingScale
  | Some attached =>
      if negb (String.eqb attached (dset_name scale)) then Some InvalidScale
      else if negb (length (dset_rows dset) =? length (dset_rows scale))%nat
      then Some InvalidLength
      else None
  end.

Fixpoint validate_dsets (scale : Dataset) (items : list (string * Dataset))
    : Exc unit :=
  match items with
  | [] => Ret tt
  | (name, dset) :: items' =>
      match check_dset scale dset with
      | Some v => Raise (AssertionError (violation_message name v))
      | None => validate_dsets scale items'
      end
  end.

(** Modelled from the spec: [property_dset.validate_prop_group], whose
    source is not part of the repository files at hand: every dataset of
    the group is checked in turn and the first one that breaks an invariant
    raises an [AssertionError] that names it and the invariant. *)
Definition validate_prop_group (group : PropGroup) : Exc unit :=
  validate_dsets (pg_index group) (map_to_list (pg_dsets group)).

(** Modelled from the spec: [property_dset.create_prop_dset], whose source
    is not part of the repository files at hand: a new dataset bound to the
    index scale of the group, 2-D when sub-column names are given, with one
    sentinel row per record of the scale. *)
Definition create_prop_dset (group : PropGroup) (name : string) (dt : dtype)
    (sub_columns : option (list string)) : Dataset * PropGroup :=
  let empty := {| dset_name := pg_name group +:+ "/" +:+ name;
                  dset_dtype := dt; dset_sub := sub_columns;
                  dset_rows := []; dset_scale := Some (dset_name (pg_index group)) |} in
  let dset := with_rows empty
                (replicate (length (dset_rows (pg_index group))) (fill_row empty)) in
  (dset, {| pg_name := pg_name group; pg_index := pg_index group;
            pg_dsets := <[name := dset]> (pg_dsets group) |}).

(** A dataset is bound to the scale: the scale attached to its axis 0 is
    this scale, and it has as many rows as the scale. *)
Definition bound_to (scale dset : Dataset) : Prop :=
  dset_scale dset = Some (dset_name scale) /\
  length (dset_rows dset) = length (dset_rows scale).

(** The dataset breaks the invariant that [v] names. *)
Definition breaks (scale : Dataset) (v : Violation) (dset : Dataset) : Prop :=
  match v with
  | MissingScale => dset_scale dset = None
  | InvalidScale =>
      exists attached, dset_scale dset = Some attached /\
                       attached <> dset_name scale
  | InvalidLength => length (dset_rows dset) <> length (dset_rows scale)
  end.

(** [sub] occurs in [s]. *)
Fixpoint contains (sub s : string) : bool :=
  String.prefix sub s ||
  match s with
  | EmptyString => false
  | String _ s' => contains sub s'
  end.

(** A 1-D text dataset with three rows. *)
Definition formula : Dataset :=
  {| dset_name := "/ligand/properties/formula"; dset_dtype := DText;
     dset_sub := None;
     dset_rows := [Scalar (VText "a"); Scalar (VText "b"); Scalar (VText "c")];
     dset_scale := Some "/ligand/index" |}.

(** The scenario of the test of the repository: a scale of 100 records,
    and in turn a dataset with no scale, a dataset of 200 rows on the
    scale, a dataset on another scale of the same length, and a dataset
    that [create_prop_dset] made. *)
Definition scale_of (path : string) (n : nat) : Dataset :=
  {| dset_name := path; dset_dtype := DInt; dset_sub := None;
     dset_rows := replicate n (Scalar (VInt 0)); dset_scale := None |}.

Definition int_dset (path : string) (n : nat) (scale : option string) : Dataset :=
  {| dset_name := path; dset_dtype := DInt; dset_sub := None;
     dset_rows := replicate n (Scalar (VInt 0)); dset_scale := scale |}.

Definition test_group (dsets : gmap string Dataset) : PropGroup :=
  {| pg_name := "/properties"; pg_index := scale_of "/index1" 100;
     pg_dsets := dsets |}.

End PropDset.

(** * The update orchestrator: [Database.from_df] and what it drives *)

Module Orchestrator.
Import PropDset.

(** ** pandas objects *)

(** The labels of an axis: a flat index, or a [MultiIndex] whose labels are
    tuples of [nlevels] strings. *)
Inductive ColumnIndex : Type :=
| FlatIndex (labels : list string)
| MultiIndex (nlevels : nat) (tuples : list (list string)).

(** [getattr(columns, 'levels', ())]: a flat index has no levels. *)
Definition index_levels (columns : ColumnIndex) : list (list string) :=
  match columns with
  | FlatIndex _ => []
  | MultiIndex n tuples =>
      (fun i => remove_dups (omap (fun t : list string => t !! i) tuples))
        <$> seq 0 n
  end.

(** The labels of the first level. *)
Definition first_level (columns : ColumnIndex) : list string :=
  default [] (index_levels columns !! 0%nat).

(** [name in columns]: the label is one of a flat index, or a first-level
    label of a [MultiIndex]. *)
Definition holds_name (columns : ColumnIndex) (name : string) : bool :=
  match columns with
  | FlatIndex labels => bool_decide (name ∈ labels)
  | MultiIndex _ tuples => bool_decide (Some name ∈ head <$> tuples)
  end.

(** [columns.get_loc_level(k)[1]]: the second-level labels under the
    first-level label [k]. *)
Definition get_loc_level (columns : ColumnIndex) (k : string)
    : Exc (list string) :=
  match columns with
  | FlatIndex _ => Raise (KeyError k)
  | MultiIndex _ tuples =>
      let under := omap (fun t : list string =>
                           match t with
                           | k0 :: k1 :: _ => if decide (k0 = k) then Some k1 else None
                           | _ => None
                           end) tuples in
      match under with
      | [] => Raise (KeyError k)
      | _ => Ret under
      end
  end.

(** The content of a frame under one first-level label: the second-level
    labels, the element type and one row per record ([Scalar] when the
    selection is a Series, [Vector] when it has several sub-columns). *)
Record Column : Type := mkColumn {
  col_name : string;
  col_sub : list string;
  col_dtype : dtype;
  col_cells : list Row
}.

(** The parallel boolean frame: under each first-level label one bit per
    record, the boolean Series that [df.loc] takes as a row indexer. *)
Definition MaskFrame : Type := list (string * list bool).

(** How [df.loc[index, ...]] picks rows: by a boolean Series, by
    [slice(None)], or by the labels of a [pandas.Index]. The row labels of a
    batch are unique, so that a label stands for one row, given here by its
    number. *)
Inductive Selector : Type :=
| SelMask (bits : list bool)
| SelAll
| SelRows (rows : list nat).

(** The cells of the rows whose bit is set. *)
Fixpoint by_mask {A : Type} (bits : list bool) (cells : list A) : list A :=
  match bits, cells with
  | b :: bits', x :: cells' =>
      if b then x :: by_mask bits' cells' else by_mask bits' cells'
  | _, _ => []
  end.

Definition select {A : Type} (index : Selector) (cells : list A) : list A :=
  match index with
  | SelMask bits => by_mask bits cells
  | SelAll => cells
  | SelRows rows => omap (fun i => cells !! i) rows
  end.

(** [series.index] of a selection by a boolean Series: the rows picked. *)
Definition where_true (bits : list bool) : list nat :=
  by_mask bits (seq 0 (length bits)).

(** [~index] *)
Definition invert (bits : list bool) : list bool := negb <$> bits.

(** [series.any()] on integers: some value is not 0. *)
Definition any (values : list Z) : bool :=
  existsb (fun z => negb (z =? 0)) values.

(** The integer in a cell of an integer column. *)
Definition as_int (cell : Row) : Exc Z :=
  match cell with
  | Scalar (VInt z) => Ret z
  | _ => Raise (TypeError "not an integer")
  end.

(** The row position an integer stands for; h5py is not asked to resolve a
    negative one. *)
Definition as_position (z : Z) : Exc nat :=
  if z <? 0 then Raise (IndexError "Index out of range")
  else Ret (Z.to_nat z).

(** ** Python formatting *)

Definition single_quote : Ascii.ascii := Ascii.ascii_of_nat 39.
Definition double_quote : Ascii.ascii := Ascii.ascii_of_nat 34.
Definition backslash : Ascii.ascii := Ascii.ascii_of_nat 92.

Fixpoint has_char (c : Ascii.ascii) (s : string) : bool :=
  match s with
  | EmptyString => false
  | String c' s' => Ascii.eqb c c' || has_char c s'
  end.

(** The digit of [n] below 16 in lower-case hexadecimal. *)
Definition hex_digit (n : nat) : Ascii.ascii :=
  if (n <? 10)%nat then Ascii.ascii_of_nat (48 + n)
  else Ascii.ascii_of_nat (87 + n).

(** How [repr] writes one character inside the quote [quote]: a backslash
    and the quote are escaped; line feed, carriage return and tab have
    their letters; any other control character is given by its code. The
    bytes of a character beyond ASCII are taken to be those of a printable
    one, which is written as it is. *)
Definition escape_char (quote c : Ascii.ascii) : string :=
  let code := Ascii.nat_of_ascii c in
  if Ascii.eqb c backslash || Ascii.eqb c quote then
    String backslash (String c EmptyString)
  else if (code =? 10)%nat then String backslash "n"
  else if (code =? 13)%nat then String backslash "r"
  else if (code =? 9)%nat then String backslash "t"
  else if (code <? 32)%nat || (code =? 127)%nat then
    String backslash
      ("x" +:+ String (hex_digit (code / 16))
                 (String (hex_digit (code mod 16)) EmptyString))
  else String c EmptyString.

Fixpoint escape (quote : Ascii.ascii) (s : string) : string :=
  match s with
  | EmptyString => EmptyString
  | String c s' => escape_char quote c +:+ escape quote s'
  end.

(** [repr(s)] of a string: in single quotes, and in double quotes when the
    string holds a single quote and no double one. *)
Definition repr_str (s : string) : string :=
  let quote := if has_char single_quote s && negb (has_char double_quote s)
               then double_quote else single_quote in
  String quote (escape quote s +:+ String quote EmptyString).

Definition repr_list (l : list string) : string :=
  "[" +:+ String.concat ", " (repr_str <$> l) +:+ "]".

Definition repr_bool (b : bool) : string := if b then "True" else "False".

(** ** The hdf5 group of one category *)

(** A change-log entry: the row indices and the message. The time at which
    it is written is left out. *)
Record LogEntry : Type := mkLogEntry {
  log_index : list Z;
  log_message : string
}.

(** Modelled from the spec: [hdf5_log.update_hdf5_log], whose source is not
    part of the repository files at hand: every call appends one entry with
    the indices and the message to the log, and changes nothing else. *)
Definition update_hdf5_log (logger : list LogEntry) (index : list Z)
    (message : string) : list LogEntry :=
  logger ++ [{| log_index := index; log_message := message |}].

(** A group such as [f['ligand']]: the index scale [group['index']], the
    structural datasets ([group['atoms']], ...), the sub-group
    [group['properties']] and the change log [group['logger']]. *)
Record Group : Type := mkGroup {
  grp_name : string;
  grp_index : Dataset;
  grp_structs : gmap string Dataset;
  grp_props : gmap string Dataset;
  grp_logger : list LogEntry
}.

Definition with_index (g : Group) (scale : Dataset) : Group :=
  {| grp_name := grp_name g; grp_index := scale; grp_structs := grp_structs g;
     grp_props := grp_props g; grp_logger := grp_logger g |}.

Definition with_structs (g : Group) (structs : gmap string Dataset) : Group :=
  {| grp_name := grp_name g; grp_index := grp_index g; grp_structs := structs;
     grp_props := grp_props g; grp_logger := grp_logger g |}.

Definition with_props (g : Group) (props : gmap string Dataset) : Group :=
  {| grp_name := grp_name g; grp_index := grp_index g;
     grp_structs := grp_structs g; grp_props := props;
     grp_logger := grp_logger g |}.

Definition with_logger (g : Group) (logger : list LogEntry) : Group :=
  {| grp_name := grp_name g; grp_index := grp_index g;
     grp_structs := grp_structs g; grp_props := grp_props g;
     grp_logger := logger |}.

(** [group[name]] for a structural dataset. *)
Definition lookup_struct (g : Group) (name : string) : Exc Dataset :=
  match grp_structs g !! name with
  | Some dset => Ret dset
  | None => Raise (KeyError name)
  end.

(** [group['properties']] as the property dataset engine sees it. *)
Definition prop_group (g : Group) : PropGroup :=
  {| pg_name := grp_name g +:+ "/properties"; pg_index := grp_index g;
     pg_dsets := grp_props g |}.

(** The file: its groups by name. *)
Definition File : Type := gmap string Group.

(** The keys [MOL[0]], [OPT[0]] and [HDF5_INDEX[0]] of [CAT.workflows] (the
    second level of each is the empty string) and the names
    [PDBContainer.DSET_NAMES.values()]. *)
Record Keys : Type := mkKeys {
  MOL : string;
  OPT : string;
  HDF5_INDEX : string;
  DSET_NAMES : list string
}.

Section WithMolecules.

(** The molecules of the [mol] column. *)
Variable Mol : Type.
Variable keys : Keys.

(** What serializing one molecule gives: the row of each structural
    dataset, or a [ConversionError]. *)
Variable to_rows : Mol -> Exc (string -> Row).

(** A batch: the row labels, the column labels, the molecules of the [mol]
    column and the content of the other columns by first-level label. *)
Record DataFrame : Type := mkDataFrame {
  df_index : list Row;
  df_columns : ColumnIndex;
  df_mol : list Mol;
  df_data : list Column
}.

(** [_parse_settings._update_hdf5_settings(f, df, name)], which belongs to
    the settings logic. *)
Variable _update_hdf5_settings : DataFrame -> string -> St File unit.

(** What [set(df.levels[0])] gives for a batch that has a column labelled
    [levels], a case that belongs to the indexing of pandas. *)
Variable levels_of_column : DataFrame -> Exc (list string).

(** [set(df.levels[0])]. A [DataFrame] has no attribute [levels] (the
    levels are those of [df.columns]), and pandas resolves an attribute it
    does not know to the column of that name when the column labels hold
    it: without a column labelled [levels] the lookup raises
    [AttributeError]. *)
Definition levels_0 (df : DataFrame) : Exc (list string) :=
  if holds_name (df_columns df) "levels" then levels_of_column df
  else Raise (AttributeError "DataFrame" "levels").

Fixpoint find_column (n : string) (data : list Column) : Exc Column :=
  match data with
  | [] => Raise (KeyError n)
  | col :: data' =>
      if decide (col_name col = n) then Ret col else find_column n data'
  end.

(** [df[n]] *)
Definition column (df : DataFrame) (n : string) : Exc Column :=
  find_column n (df_data df).

(** [df_bool[n]] *)
Fixpoint mask_column (df_bool : MaskFrame) (n : string) : Exc (list bool) :=
  match df_bool with
  | [] => Raise (KeyError n)
  | (k, bits) :: df_bool' =>
      if decide (k = n) then Ret bits else mask_column df_bool' n
  end.

(** [df_bool[n] if not overwrite else slice(None)] *)
Definition row_index (df_bool : MaskFrame) (overwrite : bool) (n : string)
    : Exc Selector :=
  if negb overwrite then mask_column df_bool n ≫= fun bits => Ret (SelMask bits)
  else Ret SelAll.

(** Every column of the frame has one cell per row label. *)
Definition wf_frame (df : DataFrame) : Prop :=
  length (df_mol df) = length (df_index df) /\
  Forall (fun col => length (col_cells col) = length (df_index df)) (df_data df).

(** [df[n].values] of an integer column. *)
Definition int_column (df : DataFrame) (n : string) : Exc (list Z) :=
  col ← column df n; map_exc as_int (col_cells col).

Definition with_data (df : DataFrame) (columns : ColumnIndex)
    (data : list Column) : DataFrame :=
  {| df_index := df_index df; df_columns := columns; df_mol := df_mol df;
     df_data := data |}.

(** [df.loc[index, n] = values] for an index of row labels. *)
Definition set_cells (df : DataFrame) (n : string) (index : list nat)
    (values : list Row) : Exc DataFrame :=
  col ← column df n;
  let col' := {| col_name := col_name col; col_sub := col_sub col;
                 col_dtype := col_dtype col;
                 col_cells := write_rows index values (col_cells col) |} in
  Ret (with_data df (df_columns df)
         ((fun c => if decide (col_name c = n) then col' else c) <$> df_data df)).

(** [del df[n]] *)
Definition del_column (df : DataFrame) (n : string) : Exc DataFrame :=
  _ ← column df n;
  let columns :=
    match df_columns df with
    | FlatIndex labels => FlatIndex (filter (fun l => l <> n) labels)
    | MultiIndex k tuples =>
        MultiIndex k (filter (fun t : list string => head t <> Some n) tuples)
    end in
  Ret (with_data df columns (filter (fun c => col_name c <> n) (df_data df))).

(** [df.copy()] with [df_bool[:] = True]. *)
Definition all_true (df : DataFrame) : MaskFrame :=
  (fun n => (n, replicate (length (df_index df)) true))
    <$> first_level (df_columns df).

(** ** The structural record container *)

Record PDBContainer : Type := mkPDBContainer {
  pdb_scale : list Row;
  pdb_arrays : list (string * list Row)
}.

(** Modelled from the spec: [PDBContainer.from_molecules], whose source is
    not part of the repository files at hand: every molecule is serialized
    into its row of each structural dataset, and [scale] becomes the index
    coordinates of the batch. It fails when a molecule cannot be
    serialized. *)
Definition from_molecules (mol_series : list Mol) (scale : list Row)
    : Exc PDBContainer :=
  map_exc to_rows mol_series ≫= fun rows : list (string -> Row) =>
  Ret {| pdb_scale := scale;
         pdb_arrays := (fun name => (name, (fun f : string -> Row => f name) <$> rows))
                         <$> DSET_NAMES keys |}.

(** One array of the container goes to its dataset of the group. *)
Definition store_array (index : IndexLike) (item : string * list Row)
    : St Group unit :=
  group ← get;
  dataset ← lift (lookup_struct group item.1);
  dataset' ← lift (update_prop_dset (Some (grp_index group)) dataset item.2
                     (py_index index));
  put (with_structs group (<[item.1 := dataset']> (grp_structs group))).

(** Modelled from the spec: [PDBContainer.to_hdf5], whose source is not part
    of the repository files at hand: the arrays of the container are
    written to the datasets of the group at the row positions [index]
    through the update path of the property dataset engine, and with
    [update_scale] the scale values of the container are written to the
    shared index scale in the same way, which extends it. *)
Definition to_hdf5 (pdb : PDBContainer) (index : IndexLike)
    (update_scale : bool) : St Group unit :=
  (if update_scale then
     group ← get;
     scale ← lift (update_prop_dset None (grp_index group) (pdb_scale pdb)
                     (py_index index));
     put (with_index group scale)
   else mret tt);;
  for_each (store_array index) (pdb_arrays pdb).

(** ** The methods of [Database] *)

(** What an update works on in place: the batch and the group. *)
Record Store : Type := mkStore {
  st_df : DataFrame;
  st_grp : Group
}.

(** Run code that works on the group. *)
Definition on_group {A : Type} (m : St Group A) : St Store A := fun st =>
  let '(r, g) := m (st_grp st) in (r, {| st_df := st_df st; st_grp := g |}).

(** Run code that replaces the batch. *)
Definition on_df (f : DataFrame -> Exc DataFrame) : St Store unit := fun st =>
  match f (st_df st) with
  | Ret df' => (Ret tt, {| st_df := df'; st_grp := st_grp st |})
  | Raise e => (Raise e, st)
  end.

(** The message of the entry for the structural datasets. *)
Definition struct_message (group : Group) (overwrite : bool) : Exc string :=
  dsets ← map_exc (lookup_struct group) (DSET_NAMES keys);
  Ret ("datasets=" +:+ repr_list (dset_name <$> dsets) +:+ "; overwrite="
         +:+ repr_bool overwrite).

Definition _write_hdf5 (index : list nat) (opt : bool) : St Store unit :=
  st ← get;
  let mol_series := select (SelRows index) (df_mol (st_df st)) in
  (* Update the HDF5_INDEX *)
  atoms ← lift (lookup_struct (st_grp st) "atoms");
  let i := length (dset_rows atoms) in
  let j := (i + length mol_series)%nat in
  let hdf5_index := Z.of_nat <$> seq i (j - i) in
  on_df (fun df => set_cells df (HDF5_INDEX keys) index
                     (Scalar ∘ VInt <$> hdf5_index));;
  (* Export the molecules to the .hdf5 file *)
  let scale := select (SelRows index) (df_index (st_df st)) in
  pdb_new ← lift (from_molecules mol_series scale);
  on_group (to_hdf5 pdb_new (IdxSlice i j) (negb opt));;
  (* Post a message in the logger *)
  st ← get;
  message ← lift (struct_message (st_grp st) false);
  on_group (group ← get;
            put (with_logger group
                   (update_hdf5_log (grp_logger group) hdf5_index message)));;
  if opt then
    on_df (fun df => set_cells df (OPT keys) index
                       (replicate (length index) (Scalar (VBool true))))
  else mret tt.

(** [hdf5_series] is given by its index and its values; [to_hdf5] is called
    without [update_scale], whose default is [True]. *)
Definition _overwrite_hdf5 (index : list nat) (hdf5_index : list Z)
    (opt : bool) : St Store unit :=
  st ← get;
  let mol_series := select (SelRows index) (df_mol (st_df st)) in
  let scale := select (SelRows index) (df_index (st_df st)) in
  pdb_old ← lift (from_molecules mol_series scale);
  rows ← lift (map_exc as_position hdf5_index);
  on_group (to_hdf5 pdb_old (IdxSeq rows) true);;
  (* Update the logger *)
  st ← get;
  message ← lift (struct_message (st_grp st) true);
  on_group (group ← get;
            put (with_logger group
                   (update_hdf5_log (grp_logger group) hdf5_index message)));;
  if opt then
    on_df (fun df => set_cells df (OPT keys) index
                       (replicate (length index) (Scalar (VBool true))))
  else mret tt.

Definition update_hdf5 (df_bool : MaskFrame) (overwrite : bool)
    (status : option string) : St Store unit :=
  (* Identify new and preexisting entries *)
  let is_opt := bool_decide (status = Some "optimized") in
  index ← lift (mask_column df_bool
                  (if is_opt then HDF5_INDEX keys else OPT keys));
  st ← get;
  positions ← lift (int_column (st_df st) (HDF5_INDEX keys));
  let new := select (SelMask index) positions in
  let old := select (SelMask (invert index)) positions in
  (if any new then _write_hdf5 (where_true index) is_opt else mret tt);;
  (* If overwrite is True *)
  if overwrite && any old then
    _overwrite_hdf5 (where_true (invert index)) old is_opt
  else mret tt.

Definition PORPERTY_BLACKLIST : list string :=
  [MOL keys; OPT keys; HDF5_INDEX keys; "settings"].

(** [try: dset = group[n]], and on [KeyError] the dataset is created, 1-D
    when there is one sub-column. *)
Definition get_or_create (n : string) (dt : dtype) (name_seq : list string)
    : St Group Dataset := fun group =>
  match grp_props group !! n with
  | Some dset => (Ret dset, group)
  | None =>
      let name_seq' := if decide (length name_seq = 1%nat)
                       then None else Some name_seq in
      let '(dset, pg) := create_prop_dset (prop_group group) n dt name_seq' in
      (Ret dset, with_props group (pg_dsets pg))
  end.

(** One pass of the loop of [_update_properties], for the first-level
    label [n]; [name_seq] is drawn from the column iterator at its start. *)
Definition update_property (df_bool : MaskFrame) (columns : ColumnIndex)
    (overwrite : bool) (n : string) : St Store unit :=
  name_seq ← lift (get_loc_level columns n);
  st ← get;
  (* Define slices *)
  index ← lift (row_index df_bool overwrite n);
  col ← lift (column (st_df st) n);
  let data := select index (col_cells col) in
  positions ← lift (int_column (st_df st) (HDF5_INDEX keys));
  let hdf5_index := select index positions in
  (* Get (or set) the dataset *)
  dset ← on_group (get_or_create n (col_dtype col) name_seq);
  (* Update the dataset *)
  st' ← get;
  dset' ← lift (update_prop_dset (Some (grp_index (st_grp st'))) dset data
                  (AtSeq hdf5_index));
  on_group (group ← get;
            put (with_props group (<[n := dset']> (grp_props group))));;
  on_df (fun df => del_column df n);;
  (* Add an entry to the logger *)
  let message := "datasets=" +:+ repr_list [dset_name dset] +:+ "; overwrite="
                   +:+ repr_bool overwrite in
  on_group (group ← get;
            put (with_logger group
                   (update_hdf5_log (grp_logger group) hdf5_index message))).

(** The first statement looks the levels up on the frame ([df.levels[0]])
    and not on its columns, which ends the call before the loop for every
    batch without a column labelled [levels]. The loop runs over a set; it
    is taken in the order in which the labels are given. *)
Definition _update_properties (df_bool : MaskFrame) (columns : ColumnIndex)
    (overwrite : bool) : St Store unit :=
  st ← get;
  (* Identify the property-containing columns *)
  labels ← lift (levels_0 (st_df st));
  let lvl0 := filter (fun k => k ∉ PORPERTY_BLACKLIST) labels in
  for_each (update_property df_bool columns overwrite) lvl0.

(** Run code on the batch and the group [f[name]] of the file. *)
Definition on_file_group {A : Type} (name : string) (m : St Store A)
    : St (DataFrame * File) A := fun w =>
  match w.2 !! name with
  | None => (Raise (KeyError name), w)
  | Some grp =>
      let '(r, st) := m {| st_df := w.1; st_grp := grp |} in
      (r, (st_df st, <[name := st_grp st]> w.2))
  end.

(** The pass of [_update_job_settings] for one name of the column set. *)
Definition update_job_setting (name : string) : St (DataFrame * File) unit :=
  fun w =>
  match _update_hdf5_settings w.1 name w.2 with
  | (Raise e, f') => (Raise e, (w.1, f'))
  | (Ret _, f') =>
      match del_column w.1 name with
      | Ret df' => (Ret tt, (df', f'))
      | Raise e => (Raise e, (w.1, f'))
      end
  end.

Definition _update_job_settings (columns : list string)
    : St (DataFrame * File) unit :=
  let column_set := remove_dups columns in
  for_each update_job_setting column_set.

(** [(i for i, _ in df_columns if 'settings' == i)] *)
Definition settings_labels (df_columns : ColumnIndex) : list string :=
  match df_columns with
  | FlatIndex _ => []
  | MultiIndex _ tuples =>
      omap (fun t : list string =>
              match t with
              | i :: _ => if decide ("settings" = i) then Some i else None
              | [] => None
              end) tuples
  end.

(** The number of opens among the events of the probe. *)
Fixpoint count_opens (events : list (Probe.Event Z)) : nat :=
  match events with
  | [] => 0%nat
  | Probe.EvOpen _ :: events' => S (count_opens events')
  | _ :: events' => count_opens events'
  end.

(** [from_df]. [columns], when given, stands for the index that
    [pd.Index(columns)] builds. [file_status] tells how each open of the
    hdf5 file ends, those of the probe (default arguments: 5.0 seconds, 10
    attempts) as well as the one of [self.hdf5('r+')]; the outcome names the
    batch and the file as the call leaves them and the opens, warnings and
    sleeps it made. *)
Definition from_df (file_status : nat -> Probe.OpenResult) (fuel : nat)
    (df : DataFrame) (df_bool : option MaskFrame) (name : string)
    (columns : option ColumnIndex) (overwrite : bool) (status : option string)
    (f : File)
    : option (Exc unit * DataFrame * File * list (Probe.Event Z)) :=
  let df_columns := default (df_columns df) columns in
  if negb (length (index_levels df_columns) =? 2)%nat then
    Some (Raise (ValueError "Expected a 2-level MultiIndex"), df, f, [])
  else
    let df_bool := default (all_true df) df_bool in
    match Probe.hdf5_availability Z file_status 5 fuel (Some 10) with
    | None => None
    | Some (Raise e, events) => Some (Raise e, df, f, events)
    | Some (Ret _, events) =>
        let k := count_opens events in
        match file_status k with
        | Probe.Unavailable errno =>
            Some (Raise (OSError errno), df, f, events ++ [Probe.EvOpen k])
        | Probe.Opened =>
            let body :=
              (* Update molecules, then properties *)
              on_file_group name
                (update_hdf5 df_bool overwrite status;;
                 _update_properties df_bool df_columns overwrite);;
              (* Update the job settings *)
              _update_job_settings (settings_labels df_columns) in
            let '(r, w) := body (df, f) in
            Some (r, w.1, w.2, events ++ [Probe.EvOpen k])
        end
    end.

End WithMolecules.

Arguments mkDataFrame {Mol} df_index df_columns df_mol df_data.
Arguments df_index {Mol} d.
Arguments df_columns {Mol} d.
Arguments df_mol {Mol} d.
Arguments df_data {Mol} d.
Arguments mkStore {Mol} st_df st_grp.
Arguments st_df {Mol} s.
Arguments st_grp {Mol} s.

(** ** A batch of three new records for an empty group *)

(** The keys of CAT and the dataset names of the container. *)
Definition cat_keys : Keys :=
  {| MOL := "mol"; OPT := "opt"; HDF5_INDEX := "hdf5 index";
     DSET_NAMES := ["atoms"; "bonds"; "atom_count"; "bond_count"] |}.

(** Molecules are given by a name, and the row of a molecule in a dataset
    tells both. *)
Definition row_of (mol : string) : Exc (string -> Row) :=
  Ret (fun name => Scalar (VText (name +:+ ":" +:+ mol))).

Definition no_settings : DataFrame string -> string -> St File unit :=
  fun _ _ => mret tt.

(** No batch below has a column labelled [levels]. *)
Definition no_levels : DataFrame string -> Exc (list string) :=
  fun _ => Ret [].

Definition empty_dset (path : string) (dt : dtype) (scale : option string)
    : Dataset :=
  {| dset_name := path; dset_dtype := dt; dset_sub := None; dset_rows := [];
     dset_scale := scale |}.

Definition ligand : Group :=
  {| grp_name := "/ligand";
     grp_index := empty_dset "/ligand/index" DText None;
     grp_structs :=
       list_to_map
         ((fun n => (n, empty_dset ("/ligand/" +:+ n) DText (Some "/ligand/index")))
            <$> DSET_NAMES cat_keys);
     grp_props := ∅;
     grp_logger := [] |}.

Definition hdf5_file : File := {[ "ligand" := ligand ]}.

(** Three records that have no position yet, with one property column. *)
Definition new_batch : DataFrame string :=
  {| df_index := [Scalar (VText "C[O-]"); Scalar (VText "CC[O-]");
                  Scalar (VText "CCC[O-]")];
     df_columns :=
       MultiIndex 2 [["mol"; ""]; ["opt"; ""]; ["hdf5 index"; ""]; ["formula"; ""]];
     df_mol := ["m1"; "m2"; "m3"];
     df_data :=
       [ mkColumn "opt" [""] DBool (replicate 3 (Scalar (VBool false)));
         mkColumn "hdf5 index" [""] DInt (replicate 3 (Scalar (VInt (-1))));
         mkColumn "formula" [""] DText
           [Scalar (VText "CH3O"); Scalar (VText "C2H5O"); Scalar (VText "C3H7O")] ] |}.

(** Two cells of the property column are authoritative, the third is not. *)
Definition batch_mask : MaskFrame :=
  [ ("mol", [true; true; true]); ("opt", [true; true; true]);
    ("hdf5 index", [true; true; true]); ("formula", [true; true; false]) ].

Definition available (k : nat) : Probe.OpenResult := Probe.Opened.

Definition demo_from_df (overwrite : bool) (status : option string) :=
  Orchestrator.from_df string cat_keys row_of no_settings no_levels
    available 10 new_batch (Some batch_mask) "ligand" None overwrite status
    hdf5_file.

(** The batch and the group before the structural write and after it. *)
Definition before_write : Store string :=
  {| st_df := new_batch; st_grp := ligand |}.

Definition after_write : Store string :=
  (Orchestrator._write_hdf5 string cat_keys row_of [0; 1; 2]%nat false
     before_write).2.

End Orchestrator.

(** ** More calls on the batch of three records *)

Module Scenarios.
Import PropDset Orchestrator.

(** A mask that marks no cell of the batch. *)
Definition nothing_marked : MaskFrame :=
  [ ("mol", [false; false; false]); ("opt", [false; false; false]);
    ("hdf5 index", [false; false; false]); ("formula", [false; false; false]) ].


(** The batch and the group after the first and the third row have been
    written as optimized structures. *)
Definition after_optimized : Store string :=
  (Orchestrator._write_hdf5 string cat_keys row_of [0; 2]%nat true
     before_write).2.

End Scenarios.

(** * Integer-like indices as slices: [dataCAT.functions.int_to_slice] *)

Module Slicing.

(** A [slice(start, stop)] object with no step; a bound that is [None] is
    left open. *)
Record slice : Type := mkSlice {
  slice_start : option Z;
  slice_stop : option Z
}.

Definition int_to_slice (int_like : Z) (seq_len : Z) : slice :=
  let integer := int_like in
  if 0 <? integer then
    if negb (integer =? seq_len) then mkSlice None (Some (integer + 1))
    else mkSlice (Some (integer - 1)) None
  else
    if integer =? -1 then mkSlice (Some integer) None
    else mkSlice (Some integer) (Some (integer + 1)).

(** ** What Python does with an index *)

(** [sequence[i]]: a negative integer counts from the end, and an integer
    out of range raises [IndexError]. *)
Definition getitem {A : Type} (l : list A) (i : Z) : Exc A :=
  let n := Z.of_nat (length l) in
  let k := if i <? 0 then i + n else i in
  if (k <? 0) || (n <=? k) then Raise (IndexError "index out of range")
  else
    match l !! Z.to_nat k with
    | Some x => Ret x
    | None => Raise (IndexError "index out of range")
    end.

(** Where a bound of a slice comes to lie on a sequence of length [n]
    ([slice.indices]): a negative bound counts from the end, and every
    bound is clipped to the sequence. *)
Definition clip (n bound : Z) : Z :=
  if bound <? 0 then Z.max (bound + n) 0 else Z.min bound n.

(** [sequence[start:stop]]; it never raises. *)
Definition getslice {A : Type} (l : list A) (s : slice) : list A :=
  let n := Z.of_nat (length l) in
  let lo := from_option (clip n) 0 (slice_start s) in
  let hi := from_option (clip n) n (slice_stop s) in
  take (Z.to_nat (hi - lo)) (drop (Z.to_nat lo) l).

End Slicing.

(** * Calls that end in other exceptions *)

(** What a call can raise on the paths below: the exceptions met so far,
    and those that the update path does not meet. *)
Inductive Raised : Type :=
| Builtin (e : PyErr)
| NameError (name : string)
| StopIteration
| UnicodeEncodeError (codec : string).

Inductive Outcome (A : Type) : Type :=
| Returns (a : A)
| Raises (e : Raised).
Arguments Returns {A} a.
Arguments Raises {A} e.

Definition of_exc {A : Type} (r : Exc A) : Outcome A :=
  match r with
  | Ret a => Returns a
  | Raise e => Raises (Builtin e)
  end.

(** * The whole of [Database.update_mongodb] *)

Module Mirror.

Section WithDocuments.

Variable Key : Type.
Context `{EqDecision Key}.
Variable Body : Type.

(** [self.mongodb]: the keyword arguments for [MongoClient], when the
    database could be reached at initialization. *)
Variable Config : Type.

(** What [update_mongodb] reads of a dataframe: whether its index and its
    columns are instances of [pandas.MultiIndex], and its row
    dictionaries. *)
Record Frame : Type := mkFrame {
  index_is_multi : bool;
  columns_is_multi : bool;
  frame_rows : list (Mongo.Doc Key Body)
}.

(** The [database] argument: a name, or a mapping given by its items. *)
Inductive DatabaseArg : Type :=
| ByName (database : string)
| ByMapping (items : list (string * Frame)).

(** [client.cat_database] with its two collections. *)
Record CatDatabase : Type := mkCatDatabase {
  ligand_database : Mongo.Collection Key Body;
  qd_database : Mongo.Collection Key Body
}.

(** The check that [df_to_mongo_dict] makes before it builds its
    generator. *)
Definition check_frame (df : Frame) : Outcome unit :=
  if negb (index_is_multi df && columns_is_multi df) then
    Raises (Builtin (TypeError
      "DataFrame.index and DataFrame.columns should be instances of pandas.MultiIndex"))
  else Returns tt.

(** [update_mongodb]. A name makes the method look up [self.csv_lig], an
    attribute that [Database] (a class with [__slots__]) does not have, or
    leaves [manager] unbound; a mapping gives its first item. *)
Definition update_mongodb (mongodb : option Config) (database : DatabaseArg)
    (overwrite : bool) (mongo_db : CatDatabase) : Outcome unit * CatDatabase :=
  match mongodb with
  | None => (Raises (Builtin (ValueError "Database.Mongodb is None")), mongo_db)
  | Some _ =>
      match database with
      | ByMapping items =>
          match items with
          | [] => (Raises StopIteration, mongo_db)
          | (database, db) :: _ =>
              match check_frame db with
              | Raises e => (Raises e, mongo_db)
              | Returns _ =>
                  if decide (database = "ligand") then
                    let '(r, c) := Mongo.update_mongodb Key Body
                                     (ligand_database mongo_db) (frame_rows db)
                                     overwrite in
                    (of_exc r, {| ligand_database := c;
                                  qd_database := qd_database mongo_db |})
                  else
                    let '(r, c) := Mongo.update_mongodb Key Body
                                     (qd_database mongo_db) (frame_rows db)
                                     overwrite in
                    (of_exc r, {| ligand_database := ligand_database mongo_db;
                                  qd_database := c |})
              end
          end
      | ByName database =>
          (* Operate on either the ligand or quantum dot database *)
          if decide (database = "ligand") then
            (Raises (Builtin (AttributeError "Database" "csv_lig")), mongo_db)
          else if decide (database = "qd") then
            (Raises (Builtin (AttributeError "Database" "csv_lig")), mongo_db)
          else (Raises (Builtin (UnboundLocalError "manager")), mongo_db)
      end
  end.

End WithDocuments.

Arguments mkFrame {Key Body} index_is_multi columns_is_multi frame_rows.
Arguments ByName {Key Body} database.
Arguments ByMapping {Key Body} items.
Arguments mkCatDatabase {Key Body} ligand_database qd_database.
Arguments ligand_database {Key Body} c.
Arguments qd_database {Key Body} c.

End Mirror.

(** * Reading back: [Database.to_df] *)

Module ReadBack.
Import Orchestrator.

Section WithArguments.

(** The first argument (an index or a dataframe) and what the method is to
    return (a dataframe and its mask). *)
Variable Arg : Type.
Variable Frames : Type.

(** [to_df(arg, name, *args, read_mol=True)]. The body reads [prop_names],
    a name that is neither a parameter (the signature collects the property
    names in [args]) nor a global of the module: evaluating the list of
    datasets raises [NameError], which the [except KeyError] clause around
    it does not catch. [open_result] tells how [self.hdf5('r')] ends. *)
Definition to_df (open_result : Probe.OpenResult) (f : File) (arg : Arg)
    (name : string) (args : list string) (read_mol : bool) : Outcome Frames :=
  match open_result with
  | Probe.Unavailable errno => Raises (Builtin (OSError errno))
  | Probe.Opened =>
      (* Prepare the group and datasets *)
      match f !! name with
      | None => Raises (Builtin (KeyError name))
      | Some mol_group => Raises (NameError "prop_names")
      end
  end.

End WithArguments.

End ReadBack.

(** * Arrays of .pdb lines: [dataCAT.functions.as_pdb_array] and
      [from_pdb_array] *)

Module PdbArray.

(** A warning that a call emits. *)
Inductive Warning : Type :=
| DeprecationWarning (msg : string).

(** The line feed. *)
Definition newline : string := String (Ascii.ascii_of_nat 10) EmptyString.

(** [[f(x) for x in l]] for an [f] that may raise. *)
Fixpoint map_out {A B : Type} (f : A -> Outcome B) (l : list A)
    : Outcome (list B) :=
  match l with
  | [] => Returns []
  | x :: l' =>
      match f x with
      | Raises e => Raises e
      | Returns y =>
          match map_out f l' with
          | Raises e => Raises e
          | Returns ys => Returns (y :: ys)
          end
      end
  end.

Section WithMolecules.

(** PLAMS and RDKit molecules. *)
Variable Mol : Type.
Variable RdMol : Type.

(** [Chem.MolToPDBBlock(molkit.to_rdmol(mol)).splitlines()] *)
Variable pdb_lines : Mol -> list string.

(** What NumPy stores when a [str] is assigned to an element of dtype
    [S80], and [item.decode()] of such an element. An element that holds
    nothing is the empty byte string. *)
Variable to_S80 : string -> Outcome string.
Variable decode : string -> Outcome string.

(** [Chem.MolFromPDBBlock(pdb_str, removeHs=False, proximityBonding=False)]
    and [molkit.from_rdmol]. *)
Variable MolFromPDBBlock : string -> RdMol.
Variable from_rdmol : RdMol -> Mol.

(** [ret[i][:len(item)] = item] on a row of [width] empty elements. *)
Definition fill_row (width : nat) (item : list string)
    : Outcome (list string) :=
  match map_out to_S80 item with
  | Raises e => Raises e
  | Returns stored => Returns (list_inserts 0 stored (replicate width EmptyString))
  end.

Definition as_pdb_array (mol_list : list Mol) (min_size : Z) (warn : bool)
    : list Warning * Outcome (list (list string)) :=
  let warnings :=
    if warn then [DeprecationWarning "'as_pdb_array()' is deprecated"] else [] in
  let values := (fun mol => let ret := pdb_lines mol in (ret, length ret))
                  <$> mol_list in
  match values with
  | [] =>
      (warnings,
       Raises (Builtin (ValueError "not enough values to unpack (expected 2, got 0)")))
  | _ :: _ =>
      let pdb_list := values.*1 in
      let shape_list := values.*2 in
      (* Construct, fill and return the pdb array *)
      let width := Z.to_nat (Z.max min_size (Z.of_nat (max_list shape_list))) in
      (warnings, map_out (fill_row width) pdb_list)
  end.

(** The number of columns of the array for the molecules:
    [max(min_size, max(shape_list))]. *)
Definition width_of (mol_list : list Mol) (min_size : Z) : nat :=
  Z.to_nat (Z.max min_size
              (Z.of_nat (max_list ((fun mol => length (pdb_lines mol)) <$> mol_list)))).

(** [''.join([item.decode() + '\n' for item in array if item])] *)
Definition pdb_str (array : list string) : Outcome string :=
  match map_out decode (filter (fun item => item <> EmptyString) array) with
  | Raises e => Raises e
  | Returns lines =>
      Returns (String.concat EmptyString ((fun line => line +:+ newline) <$> lines))
  end.

Definition from_pdb_array (array : list string) (rdmol : bool) (warn : bool)
    : list Warning * Outcome (RdMol + Mol) :=
  let warnings :=
    if warn then [DeprecationWarning "'from_pdb_array()' is deprecated"] else [] in
  match pdb_str array with
  | Raises e => (warnings, Raises e)
  | Returns s =>
      let ret := MolFromPDBBlock s in
      (warnings, Returns (if negb rdmol then inr (from_rdmol ret) else inl ret))
  end.

End WithMolecules.

(** Molecules given by their lines, elements that keep the first 80
    characters of what is stored and give them back as they are, and two
    molecules. *)
Definition lines_of (mol : list string) : list string := mol.

Definition keep_80 (s : string) : Outcome string :=
  Returns (String.substring 0 80 s).

Definition read_bytes (s : string) : Outcome string := Returns s.

(** RDKit molecules given by the text they are read from. *)
Definition read_block (pdb_str : string) : string := pdb_str.
Definition mol_of (rdmol : string) : list string := [rdmol].

Definition water : list string := ["HETATM O"; "HETATM H"; "HETATM H"; "END"].
Definition helium : list string := ["HETATM He"; "END"].

End PdbArray.

(** * Writing at given positions: [dataCAT.functions.update_pdb_values] *)

Module PdbValues.
Import PdbShape.

Section WithCell.

Variable V : Type.

(** The [idx] argument (an integer, a sequence of integers or a slice) and
    [slice(None)]. *)
Variable Index : Type.
Variable slice_None : Index.

(** What h5py does for [dataset[index] = ar] and for
    [dataset[index, :j] = ar]: the dataset after the write, or the
    exception of a selection or an array that does not fit. *)
Variable setitem : Array V -> Index -> Array V -> Exc (Array V).
Variable setitem_cols : Array V -> Index -> nat -> Array V -> Exc (Array V).

(** One pass of the loop on the dataset it looked up. *)
Definition update_one (index : Index) (dataset ar : Array V)
    : Exc unit * Array V :=
  if decide (ndim ar = 1%nat) then
    match setitem dataset index ar with
    | Ret dataset' => (Ret tt, dataset')
    | Raise e => (Raise e, dataset)
    end
  else
    match shape ar with
    | [_; j] =>
        match setitem_cols dataset index j ar with
        | Ret dataset' => (Ret tt, dataset')
        | Raise e => (Raise e, dataset)
        end
    | _ => (Raise (ValueError "not enough values to unpack"), dataset)
    end.

Definition update_pdb_values (group : gmap string (Array V))
    (pdb : list (string * Array V)) (idx : option Index)
    : Exc unit * gmap string (Array V) :=
  let index := default slice_None idx in
  for_items V (on_dataset V (update_one index)) pdb group.

End WithCell.

(** Writes that replace the whole dataset by the array, whatever the
    index. *)
Definition replace_all (dataset : Array nat) (index : unit) (ar : Array nat)
    : Exc (Array nat) := Ret ar.

Definition replace_all_cols (dataset : Array nat) (index : unit) (j : nat)
    (ar : Array nat) : Exc (Array nat) := Ret ar.

End PdbValues.

(** * Properties *)

(** ** The availability probe *)

Module ProbeFacts.
Import Probe.

Section WithTimeout.

Variable seconds : Type.
Variable file : nat -> OpenResult.
Variable timeout : seconds.

Local Abbreviation retry := (retry seconds file timeout).
Local Abbreviation failed_passes := (failed_passes seconds file timeout).
Local Abbreviation all_fail := (all_fail file).

Lemma failed_passes_S (k n : nat) :
  failed_passes k (S n) =
  failed_pass seconds timeout k (errno_of (file k)) ++ failed_passes (S k) n.
Proof. reflexivity. Qed.

Lemma all_fail_S (k n : nat) :
  all_fail k (S n) -> file k <> Opened /\ all_fail (S k) n.
Proof.
  intros H; split.
  - apply H; lia.
  - intros j Hj; apply H; lia.
Qed.

(** As long as the counter allows, [n] failed opens are followed by a
    successful one, after which the loop returns. *)
Lemma retry_returns (n : nat) : forall fuel i k exception tr,
  all_fail k n -> file (k + n)%nat = Opened -> allows i n -> (n < fuel)%nat ->
  retry fuel i k exception tr =
  Some (Ret tt, tr ++ failed_passes k n ++ [EvOpen (k + n)%nat]).
Proof.
  induction n as [|n IH]; intros fuel i k exception tr Hfail Hok Hi Hfuel.
  - destruct fuel as [|fuel]; [lia|].
    replace (k + 0)%nat with k in * by lia.
    assert (Ht : truthy i = true).
    { destruct i as [m|]; simpl in *; [|reflexivity].
      apply negb_true_iff, Z.eqb_neq; lia. }
    simpl. rewrite Ht, Hok. reflexivity.
  - destruct fuel as [|fuel]; [lia|].
    apply all_fail_S in Hfail as [Hk Hrest].
    assert (Ht : truthy i = true).
    { destruct i as [m|]; simpl in *; [|reflexivity].
      apply negb_true_iff, Z.eqb_neq; lia. }
    simpl retry. rewrite Ht.
    destruct (file k) as [|errno] eqn:Hfk; [congruence|].
    rewrite (IH fuel (decr i) (S k) (Some errno) _ Hrest).
    + rewrite failed_passes_S, Hfk. simpl errno_of.
      replace (S k + n)%nat with (k + S n)%nat by lia.
      rewrite <- !app_assoc. reflexivity.
    + replace (S k + n)%nat with (k + S n)%nat by lia. exact Hok.
    + destruct i as [m|]; simpl in *; [lia|exact I].
    + lia.
Qed.

(** A counter that starts at [n] is used up by [n] failed opens, and the
    loop raises what the [except] clause bound last. *)
Lemma retry_exhausted (n : nat) : forall fuel k exception tr,
  all_fail k n -> (n <= fuel)%nat ->
  retry fuel (Fin (Z.of_nat n)) k exception tr =
  Some (Raise (match n with
               | O => match exception with
                      | Some errno => OSError errno
                      | None => UnboundLocalError "exception"
                      end
               | S n' => OSError (errno_of (file (k + n')%nat))
               end),
        tr ++ failed_passes k n).
Proof.
  induction n as [|n IH]; intros fuel k exception tr Hfail Hfuel.
  - destruct fuel; simpl; destruct exception; rewrite app_nil_r; reflexivity.
  - destruct fuel as [|fuel]; [lia|].
    apply all_fail_S in Hfail as [Hk Hrest].
    cbn [retry]. change (truthy (Fin (Z.of_nat (S n)))) with true. cbv iota.
    destruct (file k) as [|errno] eqn:Hfk; [congruence|].
    replace (decr (Fin (Z.of_nat (S n)))) with (Fin (Z.of_nat n))
      by (unfold decr; f_equal; lia).
    rewrite (IH fuel (S k) (Some errno) _ Hrest) by lia.
    rewrite failed_passes_S, Hfk, <- app_assoc. simpl errno_of.
    destruct n as [|n'].
    + replace (k + 0)%nat with k by lia. rewrite Hfk. reflexivity.
    + replace (k + S n')%nat with (S k + n')%nat by lia. reflexivity.
Qed.

(** With the infinite counter the loop never leaves through [raise]. *)
Lemma retry_inf_no_raise : forall fuel k exception tr out tr',
  retry fuel Inf k exception tr = Some (out, tr') -> out = Ret tt.
Proof.
  induction fuel as [|fuel IH]; intros k exception tr out tr' H; simpl in H.
  - discriminate.
  - destruct (file k) as [|errno].
    + congruence.
    + eapply IH; exact H.
Qed.

(** With the infinite counter and a file that never opens the loop runs on. *)
Lemma retry_inf_runs_on : forall fuel k exception tr,
  (forall j, file j <> Opened) -> retry fuel Inf k exception tr = None.
Proof.
  induction fuel as [|fuel IH]; intros k exception tr H; simpl.
  - reflexivity.
  - destruct (file k) as [|errno] eqn:Hfk; [destruct (H k Hfk)|].
    apply IH, H.
Qed.

Local Abbreviation hdf5_availability := (hdf5_availability seconds file timeout).

(** C5. The probe returns as soon as one open of the file succeeds, having
    slept [timeout] after every failed open before it; after [max_attempts]
    failed opens in a row it raises the [OSError] of the last one; and with
    [max_attempts = None] it never raises, retrying for as long as the file
    stays unavailable. *)
Theorem hdf5_availability_retry_contract
    (fuel n : nat) (max_attempts : option Z) :
  all_fail 0 n -> (n < fuel)%nat ->
  (file n = Opened -> allows (counter_of max_attempts) n ->
   hdf5_availability fuel max_attempts =
   Some (Ret tt, failed_passes 0 n ++ [EvOpen n]))
  /\ (max_attempts = Some (Z.of_nat n) -> (0 < n)%nat ->
      hdf5_availability fuel max_attempts =
      Some (Raise (OSError (errno_of (file (n - 1)%nat))), failed_passes 0 n))
  /\ (max_attempts = None ->
      forall fuel' out tr,
        hdf5_availability fuel' max_attempts = Some (out, tr) -> out = Ret tt)
  /\ (max_attempts = None -> (forall j, file j <> Opened) ->
      forall fuel', hdf5_availability fuel' max_attempts = None).
Proof.
  intros Hfail Hfuel. repeat split.
  - intros Hok Hallow. unfold Probe.hdf5_availability.
    assert (Hz : le_zero (counter_of max_attempts) = false).
    { destruct max_attempts as [m|]; simpl in *; [|reflexivity].
      apply Z.leb_gt; lia. }
    rewrite Hz.
    rewrite (retry_returns n fuel _ 0%nat None [] Hfail Hok Hallow Hfuel).
    reflexivity.
  - intros -> Hn. unfold Probe.hdf5_availability. simpl counter_of.
    assert (Hz : le_zero (Fin (Z.of_nat n)) = false).
    { simpl. apply Z.leb_gt; lia. }
    rewrite Hz.
    rewrite (retry_exhausted n fuel 0%nat None [] Hfail) by lia.
    destruct n as [|n']; [lia|].
    replace (S n' - 1)%nat with n' by lia. reflexivity.
  - intros -> fuel' out tr H. unfold Probe.hdf5_availability in H.
    simpl in H. eapply retry_inf_no_raise; exact H.
  - intros -> Hnever fuel'. unfold Probe.hdf5_availability. simpl.
    apply retry_inf_runs_on, Hnever.
Qed.

(** C10. An integer [max_attempts] that is zero or negative makes the probe
    raise [ValueError] at once: no open of the file is attempted, whatever
    the state of the file. *)
Theorem hdf5_availability_rejects_nonpositive (fuel : nat) (m : Z) :
  m <= 0 ->
  hdf5_availability fuel (Some m) =
  Some (Raise (ValueError ("'max_attempts' must be larger than 0; observed value: "
                             +:+ pretty m)), []).
Proof.
  intros Hm. unfold Probe.hdf5_availability. simpl.
  apply Z.leb_le in Hm. rewrite Hm. reflexivity.
Qed.

End WithTimeout.

Lemma hdf5_availability_retry_contract_witness :
  Probe.all_fail busy_twice 0 2 /\ (2 < 3)%nat /\
  Probe.hdf5_availability nat busy_twice 5%nat 3 (Some 10) =
  Some (Ret tt, [EvOpen 0; EvWarn 11; EvSleep 5%nat;
                 EvOpen 1; EvWarn 11; EvSleep 5%nat; EvOpen 2]).
Proof.
  assert (Hfail : Probe.all_fail busy_twice 0 2).
  { intros j Hj. destruct j as [|[|j]]; simpl; [discriminate|discriminate|lia]. }
  assert (Hfuel : (2 < 3)%nat) by lia.
  split; [exact Hfail|]. split; [exact Hfuel|].
  refine (proj1 (hdf5_availability_retry_contract nat busy_twice 5%nat 3 2
                   (Some 10) Hfail Hfuel) _ _).
  - reflexivity.
  - simpl. lia.
Defined.

(** Two attempts at a file that stays busy: both fail, each is followed by a
    sleep, and the second [OSError] reaches the caller. *)
Example hdf5_availability_gives_up :
  Probe.hdf5_availability nat always_busy 5%nat 2 (Some 2) =
  Some (Raise (OSError 11), [EvOpen 0; EvWarn 11; EvSleep 5%nat;
                             EvOpen 1; EvWarn 11; EvSleep 5%nat]).
Proof. reflexivity. Qed.

Lemma hdf5_availability_rejects_nonpositive_witness :
  -3 <= 0 /\
  Probe.hdf5_availability nat (fun _ => Opened) 5%nat 7 (Some (-3)) =
  Some (Raise (ValueError "'max_attempts' must be larger than 0; observed value: -3"),
        []).
Proof.
  split; [lia|].
  apply (hdf5_availability_rejects_nonpositive nat (fun _ => Opened) 5%nat 7 (-3)).
  lia.
Defined.

End ProbeFacts.

(** ** Shape management of the structural datasets *)

Module PdbShapeFacts.
Import PdbShape.

Section WithCell.

Variable V : Type.
Variable fillvalue : V.

Local Abbreviation Array := (Array V).
Local Abbreviation on_dataset := (on_dataset V).
Local Abbreviation for_items := (for_items V).

Implicit Types (group : gmap string Array) (items pdb : list (string * Array)).
Implicit Types (body : Array -> Array -> Exc unit * Array).

Lemma on_dataset_other body item group name :
  name <> item.1 -> (on_dataset body item group).2 !! name = group !! name.
Proof.
  intros Hne. unfold PdbShape.on_dataset.
  destruct (group !! item.1) as [d|]; [|reflexivity].
  destruct (body d item.2) as [r d']. simpl.
  rewrite lookup_insert_ne; [reflexivity|congruence].
Qed.

Lemma on_dataset_same body item group d :
  group !! item.1 = Some d ->
  on_dataset body item group =
  ((body d item.2).1, <[item.1 := (body d item.2).2]> group).
Proof.
  intros Hd. unfold PdbShape.on_dataset. rewrite Hd.
  destruct (body d item.2); reflexivity.
Qed.

(** A loop over the items leaves the datasets it does not name alone. *)
Lemma for_items_other body items : forall group name,
  name ∉ items.*1 ->
  (for_items (on_dataset body) items group).2 !! name = group !! name.
Proof.
  induction items as [|item items IH]; intros group name Hnot; [reflexivity|].
  rewrite fmap_cons, not_elem_of_cons in Hnot. destruct Hnot as [Hne Hnot].
  simpl. pose proof (on_dataset_other body item group name Hne) as Hstep.
  destruct (on_dataset body item group) as [[[]|e] group']; simpl in *.
  - rewrite IH by exact Hnot. exact Hstep.
  - exact Hstep.
Qed.

(** A loop over distinct names leaves a dataset it names either as the
    loop body makes it or, when an earlier pass raised, as it was. *)
Lemma for_items_member body items : forall group name ar d,
  NoDup items.*1 -> (name, ar) ∈ items -> group !! name = Some d ->
  let out := for_items (on_dataset body) items group in
  out.2 !! name = Some (body d ar).2 \/
  (out.2 !! name = Some d /\ exists e, out.1 = Raise e).
Proof.
  induction items as [|item items IH]; intros group name ar d Hnd Hin Hd out.
  - inversion Hin.
  - rewrite fmap_cons in Hnd. apply NoDup_cons in Hnd as [Hfresh Hnd].
    apply elem_of_cons in Hin as [Heq|Hin].
    + subst item. simpl in Hfresh. subst out. simpl.
      rewrite (on_dataset_same body (name, ar) group d Hd). simpl.
      destruct (body d ar) as [[[]|e] d'] eqn:Hb; simpl.
      * left. rewrite for_items_other by exact Hfresh.
        apply lookup_insert_eq.
      * left. apply lookup_insert_eq.
    + assert (Hne : name <> item.1).
      { intros ->. apply Hfresh. apply (list_elem_of_fmap_2 fst) in Hin. exact Hin. }
      subst out. simpl.
      pose proof (on_dataset_other body item group name Hne) as Hstep.
      destruct (on_dataset body item group) as [[[]|e] group']; simpl in *.
      * apply (IH group' name ar d Hnd Hin). congruence.
      * right. split; [congruence|]. exists e. reflexivity.
Qed.

(** When every pass returns on the dataset the group holds at the start,
    the whole loop returns. *)
Lemma for_items_returns body items : forall group,
  NoDup items.*1 ->
  Forall (fun item : string * Array =>
            exists d, group !! item.1 = Some d /\ (body d item.2).1 = Ret tt)
         items ->
  (for_items (on_dataset body) items group).1 = Ret tt.
Proof.
  induction items as [|item items IH]; intros group Hnd Hall; [reflexivity|].
  rewrite fmap_cons in Hnd. apply NoDup_cons in Hnd as [Hfresh Hnd].
  apply Forall_cons in Hall as [(d & Hd & Hret) Hall].
  simpl. rewrite (on_dataset_same body item group d Hd), Hret.
  apply IH; [exact Hnd|].
  rewrite Forall_forall in Hall |- *. intros item' Hin'.
  destruct (Hall item' Hin') as (d' & Hd' & Hret').
  exists d'. split; [|exact Hret'].
  rewrite lookup_insert_ne; [exact Hd'|].
  intros Heq. apply Hfresh. rewrite Heq.
  apply (list_elem_of_fmap_2 fst) in Hin'. exact Hin'.
Qed.

Local Abbreviation reshape_one := (reshape_one V fillvalue).
Local Abbreviation append_one := (append_one V).
Local Abbreviation appended_shape := (appended_shape V).

(** The first loop on a dataset of the rank of its array: the shape grows
    as [appended_shape] says and every cell stays where it was. *)
Lemma reshape_one_spec (d ar : Array) :
  ndim d = ndim ar -> wf_array d ->
  exists d', reshape_one d ar = (Ret tt, d') /\
    shape d' = appended_shape d ar /\ wf_array d' /\ ndim d' = ndim ar /\
    forall r c v, cell d r c = Some v -> cell d' r c = Some v.
Proof.
  intros Hrank Hwf.
  destruct d as [vals|w rows], ar as [new|j new]; try discriminate Hrank.
  - eexists. split; [reflexivity|]. simpl. rewrite length_resize.
    repeat split; try reflexivity.
    intros r c v Hc. case_decide; [|discriminate].
    rewrite lookup_resize; [exact Hc| |]; apply lookup_lt_Some in Hc; lia.
  - eexists. split; [reflexivity|]. simpl. rewrite length_resize.
    repeat split; try reflexivity.
    + apply Forall_resize; [apply length_replicate|].
      apply Forall_fmap, Forall_true. intros row. apply length_resize.
    + intros r c v Hc.
      destruct (rows !! r) as [row|] eqn:Hrow; [|discriminate]. simpl in Hc.
      pose proof (lookup_lt_Some _ _ _ Hrow) as Hr.
      pose proof (lookup_lt_Some _ _ _ Hc) as Hcw.
      simpl in Hwf. rewrite Forall_forall in Hwf.
      pose proof (Hwf row (list_elem_of_lookup_2 _ _ _ Hrow)) as Hlen.
      rewrite lookup_resize; [| lia | rewrite length_fmap; lia].
      rewrite list_lookup_fmap, Hrow. simpl.
      rewrite lookup_resize; [exact Hc| lia | lia].
Qed.

Lemma tail_start_pos (n i : nat) : (0 < i)%nat -> tail_start n i = (n - i)%nat.
Proof. intros Hi. unfold tail_start. case_decide; [lia|reflexivity]. Qed.

(** The second loop on a dataset that the first loop has grown by the rows
    of [ar]: the shape stays, the first [L] rows stay, and the rows of [ar]
    come to stand behind them. With at least one row to write the pass
    returns. *)
Lemma append_one_spec (d1 ar : Array) (L : nat) :
  ndim d1 = ndim ar -> wf_array d1 -> wf_array ar ->
  len d1 = (L + len ar)%nat ->
  (forall w j, shape d1 !! 1%nat = Some w -> shape ar !! 1%nat = Some j ->
               (j <= w)%nat) ->
  shape (append_one d1 ar).2 = shape d1 /\
  (forall r c, (r < L)%nat -> cell (append_one d1 ar).2 r c = cell d1 r c) /\
  (forall r c v, cell ar r c = Some v ->
                 cell (append_one d1 ar).2 (L + r)%nat c = Some v) /\
  ((0 < len ar)%nat -> (append_one d1 ar).1 = Ret tt).
Proof.
  intros Hrank Hwf1 Hwfa Hlen Hwide.
  destruct d1 as [vals|w rows], ar as [new|j new]; try discriminate Hrank;
    simpl in Hlen.
  - (* rank 1 *)
    destruct (decide (length new = 0%nat)) as [Hi|Hi].
    + assert (Hsame : (append_one (Ar1 vals) (Ar1 new)).2 = Ar1 vals).
      { unfold PdbShape.append_one.
        repeat case_decide; first [reflexivity | exfalso; lia]. }
      rewrite Hsame. repeat split; try reflexivity.
      * intros r c v Hc. simpl in Hc. case_decide; [|discriminate].
        apply lookup_lt_Some in Hc. lia.
      * simpl. lia.
    + unfold PdbShape.append_one.
      rewrite tail_start_pos by lia.
      replace (length vals - length new)%nat with L by lia.
      replace (length vals - L)%nat with (length new) by lia.
      case_decide; [lia|]. case_decide; [|lia]. simpl.
      rewrite length_inserts. repeat split; try reflexivity.
      * intros r c Hr. case_decide; [|reflexivity].
        apply list_lookup_inserts_lt. exact Hr.
      * intros r c v Hc. case_decide; [|discriminate].
        pose proof (lookup_lt_Some _ _ _ Hc) as Hr.
        rewrite list_lookup_inserts by lia.
        replace (L + r - L)%nat with r by lia. exact Hc.
  - (* rank 2 *)
    assert (Hjw : (j <= w)%nat) by (apply Hwide; reflexivity).
    simpl in Hwf1, Hwfa. rewrite Forall_forall in Hwf1, Hwfa.
    destruct (decide (length new = 0%nat \/ j = 0%nat)) as [Hi|Hi].
    + assert (Hsame : (append_one (Ar2 w rows) (Ar2 j new)).2 = Ar2 w rows).
      { unfold PdbShape.append_one. case_decide; [reflexivity|].
        case_decide; [|reflexivity]. exfalso.
        destruct Hi as [Hi|Hi]; [|lia].
        unfold tail_start in *. case_decide; [|lia]. lia. }
      assert (Hret : (0 < length new)%nat ->
                     (append_one (Ar2 w rows) (Ar2 j new)).1 = Ret tt).
      { intros Hpos. destruct Hi as [Hi|Hi]; [lia|]. subst j.
        unfold PdbShape.append_one. case_decide; [reflexivity|lia]. }
      rewrite Hsame. repeat split; try reflexivity; [|exact Hret].
      intros r c v Hc. simpl in Hc.
      destruct (new !! r) as [row|] eqn:Hrow; [|discriminate]. simpl in Hc.
      pose proof (lookup_lt_Some _ _ _ Hrow) as Hr.
      pose proof (lookup_lt_Some _ _ _ Hc) as Hcw.
      pose proof (Hwfa row (list_elem_of_lookup_2 _ _ _ Hrow)) as Hl.
      destruct Hi; lia.
    + unfold PdbShape.append_one.
      rewrite tail_start_pos by lia.
      replace (length rows - length new)%nat with L by lia.
      replace (length rows - L)%nat with (length new) by lia.
      rewrite Nat.min_l by exact Hjw.
      case_decide; [nia|]. case_decide; [|lia]. simpl.
      rewrite length_inserts.
      assert (Hzl : length (zip_with (fun new_row old_row : list V =>
                                        list_inserts 0 new_row old_row)
                              new (drop L rows)) = length new).
      { rewrite length_zip_with, length_drop. lia. }
      repeat split; try reflexivity.
      * intros r c Hr. rewrite list_lookup_inserts_lt by exact Hr. reflexivity.
      * intros r c v Hc.
        destruct (new !! r) as [row|] eqn:Hrow; [|discriminate]. simpl in Hc.
        pose proof (lookup_lt_Some _ _ _ Hrow) as Hr.
        pose proof (lookup_lt_Some _ _ _ Hc) as Hcw.
        pose proof (Hwfa row (list_elem_of_lookup_2 _ _ _ Hrow)) as Hl.
        rewrite list_lookup_inserts by (rewrite ?Hzl; lia).
        replace (L + r - L)%nat with r by lia.
        rewrite lookup_zip_with, Hrow. simpl.
        rewrite lookup_drop.
        destruct (rows !! (L + r)%nat) as [old|] eqn:Hold.
        -- simpl.
           pose proof (Hwf1 old (list_elem_of_lookup_2 _ _ _ Hold)) as Hlo.
           rewrite list_lookup_inserts by lia.
           replace (c - 0)%nat with c by lia. exact Hc.
        -- apply lookup_ge_None in Hold. lia.
Qed.

Local Abbreviation update_pdb_shape := (update_pdb_shape V fillvalue).
Local Abbreviation append_pdb_values := (append_pdb_values V fillvalue).
Local Abbreviation fits := (fits V).

Lemma appended_shape_len (d ar d1 : Array) :
  ndim d = ndim ar -> shape d1 = appended_shape d ar ->
  len d1 = (len d + len ar)%nat /\
  (forall w j, shape d1 !! 1%nat = Some w -> shape ar !! 1%nat = Some j ->
               (j <= w)%nat).
Proof.
  intros Hrank Hshape.
  destruct d as [vals|w rows], ar as [new|j new]; try discriminate Hrank;
    destruct d1 as [vals1|w1 rows1]; simpl in *; try discriminate Hshape;
    injection Hshape as Hl; subst; split; try reflexivity; try exact Hl.
  - intros w' j' Hw' Hj'. discriminate Hw'.
  - intros w' j' Hw' Hj'. simpl in *. simplify_eq. lia.
Qed.

(** On a container that fits the group, [update_pdb_shape] returns, having
    run its loop body once on each dataset the container names. *)
Lemma update_pdb_shape_spec group pdb :
  NoDup pdb.*1 -> fits group pdb ->
  (update_pdb_shape group pdb).1 = Ret tt /\
  forall name ar d, (name, ar) ∈ pdb -> group !! name = Some d ->
    (update_pdb_shape group pdb).2 !! name = Some (reshape_one d ar).2.
Proof.
  intros Hnd Hfits.
  assert (Hret : (update_pdb_shape group pdb).1 = Ret tt).
  { apply for_items_returns; [exact Hnd|].
    unfold PdbShape.fits in Hfits. rewrite Forall_forall in Hfits |- *.
    intros item Hin. destruct (Hfits item Hin) as (d & Hd & Hrank & Hwf & _).
    exists d. split; [exact Hd|].
    destruct (reshape_one_spec d item.2 Hrank Hwf) as (d' & Heq & _).
    rewrite Heq. reflexivity. }
  split; [exact Hret|].
  intros name ar d Hin Hd.
  destruct (for_items_member (PdbShape.reshape_one V fillvalue) pdb group
              name ar d Hnd Hin Hd) as [Hdone|[_ [e He]]].
  - exact Hdone.
  - unfold PdbShape.update_pdb_shape in Hret. congruence.
Qed.

(** C7. Appending a container to the group it fits gives every dataset it
    names the wider of the two widths and as many rows more as the array
    has, and leaves every cell stored before where it was. When the call
    returns the rows of the array stand behind the old ones, and it returns
    whenever no array of the container is empty. *)
Theorem append_pdb_values_grows group pdb name (ar d : Array) :
  NoDup pdb.*1 -> fits group pdb ->
  (name, ar) ∈ pdb -> group !! name = Some d ->
  let out := append_pdb_values group pdb in
  exists d', out.2 !! name = Some d' /\
    shape d' = appended_shape d ar /\
    (forall r c v, cell d r c = Some v -> cell d' r c = Some v) /\
    (out.1 = Ret tt ->
     forall r c v, cell ar r c = Some v ->
                   cell d' (len d + r)%nat c = Some v) /\
    (Forall (fun item : string * Array => (0 < len item.2)%nat) pdb ->
     out.1 = Ret tt).
Proof.
  intros Hnd Hfits Hin Hd out.
  destruct (update_pdb_shape_spec group pdb Hnd Hfits) as [Hret Hg1].
  assert (Hfits' := Hfits). unfold PdbShape.fits in Hfits'.
  rewrite Forall_forall in Hfits'.
  destruct (Hfits' (name, ar) Hin) as (d0 & Hd0 & Hrank & Hwf & Hwfa).
  simpl in Hd0, Hrank, Hwfa. assert (d0 = d) by congruence. subst d0.
  destruct (reshape_one_spec d ar Hrank Hwf)
    as (d1 & Hd1 & Hshape1 & Hwf1 & Hrank1 & Hkeep1).
  destruct (appended_shape_len d ar d1 Hrank Hshape1) as [Hlen1 Hwide1].
  pose proof (Hg1 name ar d Hin Hd) as Hname1. rewrite Hd1 in Hname1.
  simpl in Hname1.
  destruct (append_one_spec d1 ar (len d) Hrank1 Hwf1 Hwfa Hlen1 Hwide1)
    as (Hshape2 & Hkeep2 & Hstored2 & Hret2).
  subst out. unfold PdbShape.append_pdb_values.
  destruct (PdbShape.update_pdb_shape V fillvalue group pdb)
    as [[[]|e] g1] eqn:Hups; simpl in Hret, Hname1, Hg1; [|discriminate].
  pose proof (for_items_member (PdbShape.append_one V) pdb g1 name ar d1
                Hnd Hin Hname1) as Hcases.
  assert (Hsuccess :
            Forall (fun item : string * Array => (0 < len item.2)%nat) pdb ->
            (for_items (on_dataset append_one) pdb g1).1 = Ret tt).
  { intros Hpos. apply for_items_returns; [exact Hnd|].
    rewrite Forall_forall in Hpos |- *. intros item Hitem.
    destruct (Hfits' item Hitem) as (di & Hdi & Hranki & Hwfi & Hwfai).
    destruct (reshape_one_spec di item.2 Hranki Hwfi)
      as (di1 & Hdi1 & Hshapei & Hwfi1 & Hranki1 & _).
    destruct (appended_shape_len di item.2 di1 Hranki Hshapei) as [Hleni Hwidei].
    exists di1. split.
    - destruct item as [ni ai]. simpl in *.
      rewrite (Hg1 ni ai di Hitem Hdi), Hdi1. reflexivity.
    - apply (append_one_spec di1 item.2 (len di) Hranki1 Hwfi1 Hwfai Hleni Hwidei).
      apply Hpos, Hitem. }
  destruct Hcases as [Hdone|[Hskip [e He]]].
  - exists (append_one d1 ar).2. split; [exact Hdone|].
    split; [congruence|]. split.
    + intros r c v Hc. rewrite Hkeep2.
      * apply Hkeep1, Hc.
      * destruct d as [vals|w rows]; simpl in Hc |- *.
        -- case_decide; [|discriminate]. apply lookup_lt_Some in Hc. exact Hc.
        -- destruct (rows !! r) eqn:Hrow; [|discriminate].
           apply lookup_lt_Some in Hrow. exact Hrow.
    + split; [intros _; exact Hstored2|exact Hsuccess].
  - exists d1. split; [exact Hskip|]. split; [exact Hshape1|].
    split; [exact Hkeep1|]. split; [|exact Hsuccess].
    intros Hok. congruence.
Qed.

End WithCell.

Example append_pdb_values_demo :
  let out := PdbShape.append_pdb_values nat 0%nat demo_group demo_pdb in
  out.1 = Ret tt /\
  out.2 !! "atoms" = Some (Ar2 3 [[1; 2; 0]; [3; 4; 0]; [7; 8; 9]]%nat) /\
  out.2 !! "atom_count" = Some (Ar1 [2; 2; 3]%nat).
Proof. vm_compute. repeat split. Qed.

Lemma append_pdb_values_grows_witness :
  let out := PdbShape.append_pdb_values nat 0%nat demo_group demo_pdb in
  exists d', out.2 !! "atoms" = Some d' /\
    shape d' = [3; 3]%nat /\
    (forall r c v, cell (Ar2 2 [[1; 2]; [3; 4]]%nat) r c = Some v ->
                   cell d' r c = Some v) /\
    (out.1 = Ret tt ->
     forall r c v, cell (Ar2 3 [[7; 8; 9]]%nat) r c = Some v ->
                   cell d' (2 + r)%nat c = Some v) /\
    (Forall (fun item : string * Array nat => (0 < len item.2)%nat) demo_pdb ->
     out.1 = Ret tt).
Proof.
  apply (append_pdb_values_grows nat 0%nat demo_group demo_pdb "atoms"
           (Ar2 3 [[7; 8; 9]]%nat) (Ar2 2 [[1; 2]; [3; 4]]%nat)).
  - apply (bool_decide_unpack _). vm_compute. exact I.
  - repeat constructor.
    + exists (Ar2 2 [[1; 2]; [3; 4]]%nat). repeat split; repeat constructor.
    + exists (Ar1 [2; 2]%nat). repeat split; repeat constructor.
  - constructor.
  - reflexivity.
Defined.

End PdbShapeFacts.
(** ** The property dataset engine *)

Module PropDsetFacts.
Import PropDset.

Lemma length_write_rows (rows : list nat) : forall (data content : list Row),
  length (write_rows rows data content) = length content.
Proof.
  induction rows as [|i rows IH]; intros [|x data] content; simpl; try reflexivity.
  rewrite IH. apply length_insert.
Qed.

(** A position that is not addressed keeps its row. *)
Lemma write_rows_other (rows : list nat) : forall (data content : list Row) p,
  p ∉ rows -> write_rows rows data content !! p = content !! p.
Proof.
  induction rows as [|i rows IH]; intros [|x data] content p Hp; simpl;
    try reflexivity.
  apply not_elem_of_cons in Hp as [Hne Hp].
  rewrite IH by exact Hp. apply list_lookup_insert_ne. congruence.
Qed.

(** An addressed position inside the dataset gets its row of the data. *)
Lemma write_rows_written (rows : list nat) :
  forall (data content : list Row) k p x,
  NoDup rows -> rows !! k = Some p -> data !! k = Some x ->
  (p < length content)%nat ->
  write_rows rows data content !! p = Some x.
Proof.
  induction rows as [|i rows IH]; intros [|y data] content k p x Hnd Hk Hx Hp;
    try discriminate.
  apply NoDup_cons in Hnd as [Hfresh Hnd].
  destruct k as [|k]; simpl in Hk, Hx; simplify_eq; simpl.
  - rewrite write_rows_other by exact Hfresh.
    apply list_lookup_insert_eq. exact Hp.
  - apply (IH data _ k p x Hnd Hk Hx). rewrite length_insert. exact Hp.
Qed.

Lemma strictly_ascending_cons (i : nat) (l : list nat) :
  strictly_ascending (i :: l) = true ->
  strictly_ascending l = true /\ forall j, j ∈ l -> (i < j)%nat.
Proof.
  revert i. induction l as [|j l IH]; intros i H.
  - split; [reflexivity|]. intros j Hj. inversion Hj.
  - change (((i <? j)%nat && strictly_ascending (j :: l)) = true) in H.
    apply andb_true_iff in H as [Hij Hl]. apply Nat.ltb_lt in Hij.
    split; [exact Hl|]. intros j' Hj'.
    apply elem_of_cons in Hj' as [->|Hj']; [exact Hij|].
    destruct (IH j Hl) as [_ Hlt]. specialize (Hlt j' Hj'). lia.
Qed.

Lemma strictly_ascending_NoDup (l : list nat) :
  strictly_ascending l = true -> NoDup l.
Proof.
  induction l as [|i l IH]; intros H; [constructor|].
  apply strictly_ascending_cons in H as [Hl Hlt].
  constructor; [|apply IH, Hl].
  intros Hin. specialize (Hlt i Hin). lia.
Qed.

Lemma strictly_ascending_seq (i n : nat) : strictly_ascending (seq i n) = true.
Proof.
  revert i. induction n as [|n IH]; intros i; [reflexivity|].
  destruct n as [|n]; [reflexivity|].
  change (((i <? S i)%nat && strictly_ascending (seq (S i) (S n))) = true).
  rewrite IH, andb_true_r. apply Nat.ltb_lt. lia.
Qed.

Lemma needed_length_max (rows : list nat) :
  rows <> [] -> needed_length rows = S (max_list rows).
Proof.
  unfold needed_length. induction rows as [|i rows IH]; intros Hne; [congruence|].
  destruct rows as [|j rows].
  - simpl. lia.
  - specialize (IH ltac:(discriminate)).
    change (Nat.max (S i) (foldr Nat.max 0%nat (S <$> j :: rows)) =
            S (Nat.max i (max_list (j :: rows)))).
    rewrite IH. lia.
Qed.

Lemma needed_length_bound (rows : list nat) (p : nat) :
  p ∈ rows -> (p < needed_length rows)%nat.
Proof.
  unfold needed_length. induction rows as [|i rows IH]; intros Hp.
  - inversion Hp.
  - rewrite fmap_cons. simpl. apply elem_of_cons in Hp as [->|Hp].
    + lia.
    + specialize (IH Hp). lia.
Qed.

(** What a write that returns has done, whatever rows its index addresses. *)
Lemma write_index_spec (dset dset' : Dataset) (data : list Row)
    (index : IndexLike) :
  write_index dset data index = Ret dset' ->
  let n := Nat.max (length (dset_rows dset)) (needed_length (positions index)) in
  dset' = with_rows dset (dset_rows dset') /\
  length (dset_rows dset') = n /\
  (forall p, p ∉ positions index ->
     dset_rows dset' !! p = resize n (fill_row dset) (dset_rows dset) !! p) /\
  (forall k p x, positions index !! k = Some p -> data !! k = Some x ->
     dset_rows dset' !! p = Some x).
Proof.
  intros H n. unfold write_index in H.
  destruct (strictly_ascending (positions index)) eqn:Hasc; simpl in H;
    [|discriminate].
  destruct (length data =? length (positions index))%nat eqn:Hlen; simpl in H;
    [|discriminate].
  injection H as <-. simpl. fold n.
  split; [reflexivity|]. split.
  { rewrite length_write_rows. apply length_resize. }
  split.
  - intros p Hp. apply write_rows_other, Hp.
  - intros k p x Hk Hx.
    apply (write_rows_written _ _ _ k p x);
      [apply strictly_ascending_NoDup, Hasc|exact Hk|exact Hx|].
    rewrite length_resize. subst n.
    pose proof (needed_length_bound _ p (list_elem_of_lookup_2 _ _ _ Hk)). lia.
Qed.

(** A write with an ascending index and one row of data per position
    returns. *)
Lemma write_index_returns (dset : Dataset) (data : list Row)
    (index : IndexLike) :
  strictly_ascending (positions index) = true ->
  length data = length (positions index) ->
  exists dset', write_index dset data index = Ret dset'.
Proof.
  intros Hasc Hlen. unfold write_index. rewrite Hasc, Hlen.
  rewrite Nat.eqb_refl. simpl. eexists. reflexivity.
Qed.

(** An index of row positions is read as it stands on every axis. *)
Lemma position_of_nat (n i : nat) : position n (Z.of_nat i) = Ret i.
Proof.
  unfold position. destruct (Z.of_nat i <? 0) eqn:Hneg.
  - apply Z.ltb_lt in Hneg. lia.
  - rewrite Nat2Z.id. reflexivity.
Qed.

Lemma map_position_of_nat (n : nat) (l : list nat) :
  map_exc (position n) (Z.of_nat <$> l) = Ret l.
Proof.
  induction l as [|i l IH]; [reflexivity|].
  rewrite fmap_cons. cbn [map_exc]. rewrite position_of_nat, IH. reflexivity.
Qed.

Lemma resolve_py_index (n : nat) (index : IndexLike) :
  resolve n (py_index index) = Ret index.
Proof.
  destruct index as [i|l|start stop]; unfold resolve, py_index.
  - rewrite position_of_nat. reflexivity.
  - rewrite map_position_of_nat. reflexivity.
  - cbn [from_option]. unfold slice_bound.
    destruct (Z.of_nat start <? 0) eqn:H1; [apply Z.ltb_lt in H1; lia|].
    destruct (Z.of_nat stop <? 0) eqn:H2; [apply Z.ltb_lt in H2; lia|].
    rewrite !Nat2Z.id. reflexivity.
Qed.

(** An update at row positions is the write at these positions, whatever
    the scale. *)
Lemma update_prop_dset_py_index (scale : option Dataset) (dset : Dataset)
    (data : list Row) (index : IndexLike) :
  update_prop_dset scale dset data (py_index index) =
  write_index dset data index.
Proof. unfold update_prop_dset. rewrite resolve_py_index. reflexivity. Qed.

(** A position that some element of the list reaches is below
    [max(index) + 1]. *)
Lemma needed_length_reached (rows : list nat) (n : nat) :
  (exists p, p ∈ rows /\ (n <= p)%nat) -> rows <> [] /\ (n < needed_length rows)%nat.
Proof.
  intros (p & Hp & Hle). split.
  - intros ->. inversion Hp.
  - pose proof (needed_length_bound rows p Hp). lia.
Qed.

(** C2. A call whose index addresses a row at or beyond the current length
    of the dataset, alone or together with rows that the dataset has,
    returns with the dataset [max(previous length, max(index) + 1)] rows
    long. Every row stored before is as it was, but for those that the
    index addresses, which hold their row of the data as every addressed
    row does; and every new row that the call does not write holds the
    sentinel of the element type: -1 for integers, NaN for floats, False
    for booleans, the empty text for text. [rows] is what the index
    addresses on the axis of the scale. *)
Theorem update_prop_dset_grows (scale : option Dataset) (dset : Dataset)
    (data : list Row) (index : PyIndex) (rows : IndexLike) :
  resolve (axis_length scale dset) index = Ret rows ->
  strictly_ascending (positions rows) = true ->
  length data = length (positions rows) ->
  (exists p, p ∈ positions rows /\ (length (dset_rows dset) <= p)%nat) ->
  exists dset', update_prop_dset scale dset data index = Ret dset' /\
    dset' = with_rows dset (dset_rows dset') /\
    length (dset_rows dset') = S (max_list (positions rows)) /\
    length (dset_rows dset') =
      Nat.max (length (dset_rows dset)) (S (max_list (positions rows))) /\
    (forall p, (p < length (dset_rows dset))%nat -> p ∉ positions rows ->
       dset_rows dset' !! p = dset_rows dset !! p) /\
    (forall k p x, positions rows !! k = Some p -> data !! k = Some x ->
       dset_rows dset' !! p = Some x) /\
    (forall p, (length (dset_rows dset) <= p < length (dset_rows dset'))%nat ->
       p ∉ positions rows ->
       dset_rows dset' !! p = Some (fill_row dset)) /\
    fill_row dset =
      (let blank := match dset_dtype dset with
                    | DInt => VInt (-1)
                    | DFloat => VNaN
                    | DBool => VBool false
                    | DText => VText EmptyString
                    end in
       match dset_sub dset with
       | None => Scalar blank
       | Some names => Vector (replicate (length names) blank)
       end).
Proof.
  intros Hres Hasc Hlen Hbeyond.
  apply needed_length_reached in Hbeyond as [Hne Hgrow].
  destruct (write_index_returns dset data rows Hasc Hlen) as [dset' Hret].
  exists dset'. split.
  { unfold update_prop_dset. rewrite Hres. exact Hret. }
  destruct (write_index_spec dset dset' data rows Hret)
    as (Hwith & Hlen' & Hother & Hwritten).
  rewrite needed_length_max in Hgrow, Hlen', Hother by exact Hne.
  split; [exact Hwith|]. split; [lia|]. split; [exact Hlen'|].
  split; [|split; [exact Hwritten|split]].
  - intros p Hp Hnot. rewrite (Hother p Hnot). apply lookup_resize; lia.
  - intros p Hp Hnot. rewrite (Hother p Hnot).
    apply lookup_resize_new; lia.
  - unfold fill_row, sentinel. destruct (dset_dtype dset); reflexivity.
Qed.

(** The call of the test of the repository: the scale has grown to six
    entries, and the write at [slice(-3, None)] makes the dataset follow
    it. *)
Lemma update_prop_dset_grows_witness :
  exists dset',
    update_prop_dset (Some (scale_of "/ligand/index" 6)) formula
      [Scalar (VText "d"); Scalar (VText "e"); Scalar (VText "f")]
      (AtSlice (Some (-3)) None) = Ret dset' /\
    dset_rows dset' =
      [Scalar (VText "a"); Scalar (VText "b"); Scalar (VText "c");
       Scalar (VText "d"); Scalar (VText "e"); Scalar (VText "f")].
Proof.
  destruct (update_prop_dset_grows (Some (scale_of "/ligand/index" 6)) formula
              [Scalar (VText "d"); Scalar (VText "e"); Scalar (VText "f")]
              (AtSlice (Some (-3)) None) (IdxSlice 3 6))
    as (dset' & Hret & _).
  - reflexivity.
  - reflexivity.
  - reflexivity.
  - exists 3%nat. split; [|simpl; lia].
    apply elem_of_cons. left. reflexivity.
  - exists dset'. split; [exact Hret|].
    vm_compute in Hret. injection Hret as <-. reflexivity.
Defined.

(** The test of the repository on a dataset of four rows whose scale has
    four entries: the write at [slice(None, 3)], the resize of the scale by
    three entries and the write at [slice(-3, None)], after which the last
    three rows hold the data and the dataset is as long as the scale. *)
Example test_update_prop_dset :
  let dset := with_rows formula (replicate 4 (Scalar (VText "x"))) in
  let data1 := [Scalar (VText "a"); Scalar (VText "b"); Scalar (VText "c")] in
  let data2 := [Scalar (VText "d"); Scalar (VText "e"); Scalar (VText "f")] in
  exists dset1 dset2,
    update_prop_dset (Some (scale_of "/ligand/index" 4)) dset data1
      (AtSlice None (Some 3)) = Ret dset1 /\
    take 3 (dset_rows dset1) = data1 /\
    update_prop_dset (Some (scale_of "/ligand/index" (4 + 3))) dset1 data2
      (AtSlice (Some (-3)) None) = Ret dset2 /\
    drop (length (dset_rows dset2) - 3) (dset_rows dset2) = data2 /\
    length (dset_rows dset2) = (4 + 3)%nat.
Proof. simpl. eexists _, _. repeat split. Qed.

(** A growing write that also addresses a stored row: row 1 takes its row
    of the data, rows 0 and 2 stay, rows 3 and 4 hold the sentinel. *)
Example update_prop_dset_overlap :
  update_prop_dset (Some (scale_of "/ligand/index" 3)) formula
    [Scalar (VText "x"); Scalar (VText "y")] (AtSeq [1; 5]) =
  Ret (with_rows formula
         [Scalar (VText "a"); Scalar (VText "x"); Scalar (VText "c");
          Scalar (VText EmptyString); Scalar (VText EmptyString);
          Scalar (VText "y")]).
Proof. reflexivity. Qed.

Lemma check_dset_None (scale dset : Dataset) :
  check_dset scale dset = None <-> bound_to scale dset.
Proof.
  unfold check_dset, bound_to.
  destruct (dset_scale dset) as [attached|].
  - destruct (String.eqb attached (dset_name scale)) eqn:Heq; simpl.
    + apply String.eqb_eq in Heq. subst attached.
      destruct (length (dset_rows dset) =? length (dset_rows scale))%nat eqn:Hl;
        simpl.
      * apply Nat.eqb_eq in Hl. split; [split; [reflexivity|exact Hl]|reflexivity].
      * apply Nat.eqb_neq in Hl. split; [discriminate|]. intros [_ H]. contradiction.
    + apply String.eqb_neq in Heq. split; [discriminate|].
      intros [H _]. congruence.
  - split; [discriminate|]. intros [H _]. discriminate.
Qed.

Lemma check_dset_Some (scale dset : Dataset) (v : Violation) :
  check_dset scale dset = Some v -> breaks scale v dset.
Proof.
  unfold check_dset, breaks.
  destruct (dset_scale dset) as [attached|]; [|intros [= <-]; reflexivity].
  destruct (String.eqb attached (dset_name scale)) eqn:Heq; simpl.
  - destruct (length (dset_rows dset) =? length (dset_rows scale))%nat eqn:Hl;
      simpl; [discriminate|].
    intros [= <-]. apply Nat.eqb_neq, Hl.
  - intros [= <-]. exists attached. split; [reflexivity|].
    apply String.eqb_neq, Heq.
Qed.

Lemma validate_dsets_Ret (scale : Dataset) (items : list (string * Dataset)) :
  validate_dsets scale items = Ret tt <->
  Forall (fun item => bound_to scale item.2) items.
Proof.
  induction items as [|[name dset] items IH]; simpl.
  - split; [constructor|reflexivity].
  - destruct (check_dset scale dset) as [v|] eqn:Hc.
    + split; [discriminate|]. intros H. apply Forall_cons in H as [H _].
      apply check_dset_None in H. simpl in H. congruence.
    + rewrite IH, Forall_cons. apply check_dset_None in Hc. simpl. tauto.
Qed.

Lemma validate_dsets_Raise (scale : Dataset) (items : list (string * Dataset))
    (e : PyErr) :
  validate_dsets scale items = Raise e ->
  exists name dset v, (name, dset) ∈ items /\ breaks scale v dset /\
    e = AssertionError (violation_message name v).
Proof.
  induction items as [|[name dset] items IH]; simpl; [discriminate|].
  destruct (check_dset scale dset) as [v|] eqn:Hc.
  - intros [= <-]. exists name, dset, v.
    split; [apply elem_of_cons; left; reflexivity|].
    split; [apply check_dset_Some, Hc|reflexivity].
  - intros H. destruct (IH H) as (name' & dset' & v & Hin & Hb & He).
    exists name', dset', v. split; [apply elem_of_cons; right; exact Hin|].
    split; [exact Hb|exact He].
Qed.

Lemma prefix_refl (s : string) : String.prefix s s = true.
Proof.
  induction s as [|a s IH]; [reflexivity|]. simpl.
  destruct (Ascii.ascii_dec a a) as [_|Hne]; [exact IH|congruence].
Qed.

Lemma contains_unfold (sub s : string) :
  contains sub s =
  String.prefix sub s ||
  match s with
  | EmptyString => false
  | String _ s' => contains sub s'
  end.
Proof. destruct s; reflexivity. Qed.

Lemma contains_app_r (prefix sub : string) :
  contains sub (prefix +:+ sub) = true.
Proof.
  induction prefix as [|a prefix IH].
  - change (EmptyString +:+ sub) with sub.
    rewrite contains_unfold, prefix_refl. reflexivity.
  - change (String a prefix +:+ sub) with (String a (prefix +:+ sub)).
    rewrite contains_unfold, IH. apply orb_true_r.
Qed.

(** C3. [validate_prop_group] returns exactly when every dataset of the
    group has the group's index scale attached to its axis 0 and is as long
    as that scale. Otherwise it raises an [AssertionError] for a dataset of
    the group that breaks one of the three invariants, and the message holds
    the phrase of that invariant: "missing dataset scale", "invalid dataset
    scale" or "invalid dataset length". *)
Theorem validate_prop_group_iff (group : PropGroup) :
  (validate_prop_group group = Ret tt <->
   map_Forall (fun _ dset => bound_to (pg_index group) dset) (pg_dsets group)) /\
  (forall e, validate_prop_group group = Raise e ->
     exists name dset v,
       pg_dsets group !! name = Some dset /\
       breaks (pg_index group) v dset /\
       e = AssertionError (violation_message name v) /\
       contains (phrase v) (violation_message name v) = true /\
       phrase v = match v with
                  | MissingScale => "missing dataset scale"
                  | InvalidScale => "invalid dataset scale"
                  | InvalidLength => "invalid dataset length"
                  end).
Proof.
  unfold validate_prop_group. split.
  - rewrite validate_dsets_Ret, map_Forall_to_list. unfold uncurry.
    split; intros H; eapply Forall_impl; try exact H;
      intros [name dset] Hb; exact Hb.
  - intros e He.
    destruct (validate_dsets_Raise _ _ _ He) as (name & dset & v & Hin & Hb & ->).
    exists name, dset, v. apply elem_of_map_to_list in Hin.
    split; [exact Hin|]. split; [exact Hb|]. split; [reflexivity|].
    split; [apply contains_app_r|reflexivity].
Qed.

Example validate_missing_scale :
  validate_prop_group
    (test_group {[ "test1" := int_dset "/properties/test1" 100 None ]}) =
  Raise (AssertionError "'test1': missing dataset scale").
Proof. vm_compute. reflexivity. Qed.

Example validate_invalid_length :
  validate_prop_group
    (test_group {[ "test2" := int_dset "/properties/test2" 200 (Some "/index1") ]}) =
  Raise (AssertionError "'test2': invalid dataset length").
Proof. vm_compute. reflexivity. Qed.

Example validate_invalid_scale :
  validate_prop_group
    (test_group {[ "test3" := int_dset "/properties/test3" 100 (Some "/index2") ]}) =
  Raise (AssertionError "'test3': invalid dataset scale").
Proof. vm_compute. reflexivity. Qed.

Example validate_created :
  validate_prop_group (create_prop_dset (test_group ∅) "test4" DInt None).2 =
  Ret tt.
Proof. vm_compute. reflexivity. Qed.

End PropDsetFacts.
(** ** The document mirror *)

Module MongoFacts.
Import Mongo.

Section WithDocuments.

Variable Key : Type.
Context `{EqDecision Key}.
Variable Body : Type.

Local Abbreviation Doc := (Doc Key Body).
Local Abbreviation Collection := (Collection Key Body).

Implicit Types (c : Collection) (rows : list Doc) (item : Doc).

(** Whatever [insert_many] does to the collection, it leaves the generator
    it was given with nothing more to yield. *)
Lemma insert_many_exhausts c rows :
  (insert_many Key Body c (df_to_mongo_dict Key Body rows)).2 = [].
Proof.
  unfold insert_many, df_to_mongo_dict. destruct rows as [|item rows];
    [reflexivity|].
  destruct (bulk_insert Key Body c (item :: rows)) as [[[]|e] c']; reflexivity.
Qed.

(** [insert_many] never raises [DuplicateKeyError]. *)
Lemma insert_many_not_duplicate c rows :
  (insert_many Key Body c rows).1.1 <> Raise DuplicateKeyError.
Proof.
  unfold insert_many. destruct rows as [|item rows]; [discriminate|].
  destruct (bulk_insert Key Body c (item :: rows)) as [[[]|e] c'];
    discriminate.
Qed.

(** When the bulk write fails, the [BulkWriteError] leaves [update_mongodb]
    with the collection as the failed write left it, whatever [overwrite]
    is: plan B is not reached. *)
Lemma update_mongodb_after_duplicate c rows overwrite e :
  (bulk_insert Key Body c rows).1 = Raise e ->
  update_mongodb Key Body c rows overwrite =
  (Raise BulkWriteError, (bulk_insert Key Body c rows).2).
Proof.
  intros Hdup. unfold update_mongodb, insert_many, df_to_mongo_dict.
  destruct rows as [|item rows]; [discriminate Hdup|].
  destruct (bulk_insert Key Body c (item :: rows)) as [[[]|e'] c'];
    simpl in Hdup; [discriminate|]. reflexivity.
Qed.

Lemma replace_one_keys c item :
  (replace_one Key Body c item.1 item).*1 = c.*1.
Proof.
  induction c as [|doc c IH]; [reflexivity|]. cbn [replace_one].
  case_decide as Hk; rewrite !fmap_cons.
  - rewrite Hk. reflexivity.
  - rewrite IH. reflexivity.
Qed.

Lemma plan_b_keeps_keys overwrite rows : forall c (k : Key),
  k ∈ c.*1 -> k ∈ (plan_b Key Body overwrite c rows).*1.
Proof.
  induction rows as [|item rows IH]; intros c k Hk; [exact Hk|]. simpl.
  unfold insert_one. destruct (has_key Key Body c item.1).
  - destruct overwrite; apply IH; [rewrite replace_one_keys|]; exact Hk.
  - apply IH. rewrite fmap_app. apply elem_of_app. left. exact Hk.
Qed.

(** Run on the rows themselves, the loop of plan B leaves the key of every
    row in the collection. *)
Lemma plan_b_covers overwrite rows : forall c item,
  item ∈ rows -> item.1 ∈ (plan_b Key Body overwrite c rows).*1.
Proof.
  induction rows as [|row rows IH]; intros c item Hin; [inversion Hin|].
  apply elem_of_cons in Hin as [->|Hin]; [|simpl; unfold insert_one;
    destruct (has_key Key Body c row.1); [destruct overwrite|]; apply IH, Hin].
  simpl. unfold insert_one.
  destruct (has_key Key Body c row.1) eqn:Hhas.
  - apply bool_decide_eq_true in Hhas.
    destruct overwrite; apply plan_b_keeps_keys;
      [rewrite replace_one_keys|]; exact Hhas.
  - apply plan_b_keeps_keys. rewrite fmap_app. apply elem_of_app. right.
    simpl. apply list_elem_of_singleton. reflexivity.
Qed.

End WithDocuments.

(** C8, on a collection that holds the key of the first of two rows: the
    bulk insert fails on the first row with [BulkWriteError], which the
    clause [except DuplicateKeyError] does not catch. The call raises it,
    with [overwrite] set or not, and leaves the collection as it was: the
    row with the new key is not inserted and the stored document is not
    replaced. Plan B is not reached, and the generator it would loop over
    has nothing left to yield by then. Run on the rows themselves, the
    loop of plan B does both the insertion and the replacement. *)
Theorem update_mongodb_skips_plan_b :
  (bulk_insert string Z stored batch).1 = Raise DuplicateKeyError /\
  insert_many string Z stored (df_to_mongo_dict string Z batch) =
    (Raise BulkWriteError, stored, []) /\
  (forall overwrite : bool,
     update_mongodb string Z stored batch overwrite =
     (Raise BulkWriteError, [("C[O-]", 1)])) /\
  plan_b string Z true stored [] = [("C[O-]", 1)] /\
  plan_b string Z true stored batch = [("C[O-]", 10); ("CC[O-]", 20)].
Proof.
  split; [vm_compute; reflexivity|]. split; [vm_compute; reflexivity|].
  split; [intros overwrite; vm_compute; reflexivity|].
  split; vm_compute; reflexivity.
Qed.

End MongoFacts.

(** ** Code that works on a store *)

Section StFacts.

Context {S A B : Type}.

Lemma St_bind_Ret (m : St S A) (k : A -> St S B) (s s' : S) (b : B) :
  (m ≫= k) s = (Ret b, s') ->
  exists a s1, m s = (Ret a, s1) /\ k a s1 = (Ret b, s').
Proof.
  unfold mbind, St_bind. destruct (m s) as [[a|e] s1]; intros H.
  - exists a, s1. split; [reflexivity|exact H].
  - discriminate H.
Qed.

Lemma Exc_bind_Ret (m : Exc A) (k : A -> Exc B) (b : B) :
  m ≫= k = Ret b -> exists a, m = Ret a /\ k a = Ret b.
Proof.
  unfold mbind, Exc_bind. destruct m as [a|e]; intros H.
  - exists a. split; [reflexivity|exact H].
  - discriminate H.
Qed.

Lemma lift_Ret (m : Exc A) (s s' : S) (a : A) :
  lift m s = (Ret a, s') -> m = Ret a /\ s' = s.
Proof. unfold lift. intros [= -> ->]. split; reflexivity. Qed.

End StFacts.

Lemma St_bind_intro {S A B : Type} (m : St S A) (k : A -> St S B)
    (s s1 : S) (a : A) :
  m s = (Ret a, s1) -> (m ≫= k) s = k a s1.
Proof. intros H. unfold mbind, St_bind. rewrite H. reflexivity. Qed.

Lemma map_exc_returns {A B : Type} (f : A -> Exc B) (l : list A) :
  Forall (fun x => exists y, f x = Ret y) l -> exists ys, map_exc f l = Ret ys.
Proof.
  induction l as [|x l IH]; intros H; [exists []; reflexivity|].
  apply Forall_cons in H as [[y Hy] Hl]. destruct (IH Hl) as [ys Hys].
  exists (y :: ys). simpl. rewrite Hy. simpl. rewrite Hys. reflexivity.
Qed.

Lemma length_map_exc {A B : Type} (f : A -> Exc B) (l : list A) (ys : list B) :
  map_exc f l = Ret ys -> length ys = length l.
Proof.
  revert ys. induction l as [|x l IH]; intros ys H; simpl in H.
  - injection H as <-. reflexivity.
  - apply Exc_bind_Ret in H as (y & _ & H).
    apply Exc_bind_Ret in H as (ys' & Hys & H). injection H as <-.
    simpl. rewrite (IH ys' Hys). reflexivity.
Qed.

Lemma get_Ret {S : Type} (s s' a : S) :
  get s = (Ret a, s') -> a = s /\ s' = s.
Proof. unfold get. intros [= -> ->]. split; reflexivity. Qed.

Lemma put_Ret {S : Type} (s0 s s' : S) (u : unit) :
  put s0 s = (Ret u, s') -> s' = s0.
Proof. unfold put. intros H. injection H as _ H. symmetry. exact H. Qed.

Lemma mret_Ret {S A : Type} (a a' : A) (s s' : S) :
  mret (M := St S) a s = (Ret a', s') -> a' = a /\ s' = s.
Proof. unfold mret, St_ret. intros [= -> ->]. split; reflexivity. Qed.

(** Take apart a hypothesis that says that a sequence of steps returned. *)
Ltac st_inv H :=
  lazymatch type of H with
  | (_ ≫= _) _ = (Ret _, _) =>
      let a := fresh "a" in let s := fresh "s" in
      let H1 := fresh "Hstep" in
      apply St_bind_Ret in H as (a & s & H1 & H);
      st_inv H1; cbv beta in H; st_inv H
  | lift _ _ = (Ret _, _) =>
      let E := fresh "Hval" in
      apply lift_Ret in H as [E ->]
  | get _ = (Ret _, _) => apply get_Ret in H as [-> ->]
  | put _ _ = (Ret _, _) => apply put_Ret in H as ->
  | mret _ _ = (Ret _, _) =>
      let E := fresh "Hret" in
      apply mret_Ret in H as [E ->]; try subst
  | _ => idtac
  end.

(** ** The update orchestrator *)

Module OrchestratorFacts.
Import PropDset PropDsetFacts Orchestrator.

Lemma needed_length_seq (i n : nat) :
  needed_length (seq i n) = match n with O => 0%nat | S _ => (i + n)%nat end.
Proof.
  unfold needed_length. revert i. induction n as [|n IH]; intros i; [reflexivity|].
  simpl. rewrite IH. destruct n; lia.
Qed.

(** The length a dataset has after a write that returned. *)
Lemma write_index_length (dset dset' : Dataset) (data : list Row)
    (index : IndexLike) :
  write_index dset data index = Ret dset' ->
  dset_name dset' = dset_name dset /\
  length (dset_rows dset') =
    Nat.max (length (dset_rows dset)) (needed_length (positions index)).
Proof.
  intros H. destruct (write_index_spec _ _ _ _ H) as (Hd & Hlen & _).
  split; [rewrite Hd; reflexivity|exact Hlen].
Qed.

Lemma store_array_Ret (index : IndexLike) (item : string * list Row)
    (g g' : Group) :
  store_array index item g = (Ret tt, g') ->
  exists d d', grp_structs g !! item.1 = Some d /\
    write_index d item.2 index = Ret d' /\
    g' = with_structs g (<[item.1 := d']> (grp_structs g)).
Proof.
  unfold store_array. intros H. st_inv H.
  rename a into d, a0 into d'. unfold lookup_struct in Hval.
  destruct (grp_structs g !! item.1) as [d0|] eqn:Hd; [|discriminate].
  injection Hval as ->. exists d, d'. split; [reflexivity|].
  rewrite update_prop_dset_py_index in Hval0.
  split; [exact Hval0|reflexivity].
Qed.

(** What the loop of [to_hdf5] over the arrays does to the group: the
    datasets it names are as long as the index asks for, under the names
    they had, and nothing else changes. *)
Lemma store_arrays_spec (index : IndexLike) (arrays : list (string * list Row)) :
  forall g g',
  for_each (store_array index) arrays g = (Ret tt, g') ->
  grp_name g' = grp_name g /\ grp_index g' = grp_index g /\
  grp_props g' = grp_props g /\ grp_logger g' = grp_logger g /\
  forall name d, grp_structs g !! name = Some d ->
    exists d', grp_structs g' !! name = Some d' /\
      dset_name d' = dset_name d /\
      length (dset_rows d') =
        if bool_decide (name ∈ arrays.*1)
        then Nat.max (length (dset_rows d)) (needed_length (positions index))
        else length (dset_rows d).
Proof.
  induction arrays as [|item arrays IH]; intros g g' H.
  - simpl in H. st_inv H. repeat split; try reflexivity.
    intros name d Hd. exists d. split; [exact Hd|]. split; reflexivity.
  - simpl in H. st_inv H. destruct a.
    apply store_array_Ret in Hstep as (d0 & d0' & Hd0 & Hupd & ->).
    destruct (IH _ _ H) as (Hname & Hidx & Hprops & Hlog & Hstructs).
    repeat split; try assumption.
    intros name d Hd.
    destruct (write_index_length _ _ _ _ Hupd) as [Hn0 Hl0].
    destruct (decide (name = item.1)) as [->|Hne].
    + assert (d0 = d) by congruence. subst d0.
      destruct (Hstructs item.1 d0') as (d' & Hd' & Hn' & Hl');
        [simpl; apply lookup_insert_eq|].
      exists d'. split; [exact Hd'|]. split; [congruence|].
      rewrite Hl', Hl0. rewrite (bool_decide_eq_true_2 (item.1 ∈ (item :: arrays).*1))
        by (rewrite fmap_cons; apply elem_of_cons; left; reflexivity).
      case_bool_decide; lia.
    + destruct (Hstructs name d) as (d' & Hd' & Hn' & Hl');
        [simpl; rewrite lookup_insert_ne by congruence; exact Hd|].
      exists d'. split; [exact Hd'|]. split; [exact Hn'|].
      rewrite Hl'. rewrite fmap_cons.
      destruct (bool_decide (name ∈ arrays.*1)) eqn:Hin.
      * apply bool_decide_eq_true in Hin.
        rewrite bool_decide_eq_true_2; [reflexivity|].
        apply elem_of_cons. right. exact Hin.
      * apply bool_decide_eq_false in Hin.
        rewrite bool_decide_eq_false_2; [reflexivity|].
        intros H'. apply elem_of_cons in H' as [H'|H']; [congruence|contradiction].
Qed.

(** What [to_hdf5] does to a group when it returns: the index scale is as
    long as the index asks for when [update_scale] is set and is left alone
    when it is not; the datasets of the container's arrays are as long as
    the index asks for; the properties and the log are untouched. *)
Lemma to_hdf5_spec (pdb : PDBContainer) (index : IndexLike)
    (update_scale : bool) (g g' : Group) :
  to_hdf5 pdb index update_scale g = (Ret tt, g') ->
  grp_name g' = grp_name g /\ grp_props g' = grp_props g /\
  grp_logger g' = grp_logger g /\
  length (dset_rows (grp_index g')) =
    (if update_scale
     then Nat.max (length (dset_rows (grp_index g)))
            (needed_length (positions index))
     else length (dset_rows (grp_index g))) /\
  forall name d, grp_structs g !! name = Some d ->
    exists d', grp_structs g' !! name = Some d' /\
      dset_name d' = dset_name d /\
      length (dset_rows d') =
        if bool_decide (name ∈ (pdb_arrays pdb).*1)
        then Nat.max (length (dset_rows d)) (needed_length (positions index))
        else length (dset_rows d).
Proof.
  unfold to_hdf5. intros H. st_inv H. destruct update_scale.
  - st_inv Hstep. rewrite update_prop_dset_py_index in Hval.
    destruct (store_arrays_spec _ _ _ _ H) as (Hn & Hi & Hp & Hl & Hs).
    destruct (write_index_length _ _ _ _ Hval) as [_ Hlen].
    simpl in *. rewrite Hi. simpl.
    repeat split; try assumption.
  - st_inv Hstep.
    destruct (store_arrays_spec _ _ _ _ H) as (Hn & Hi & Hp & Hl & Hs).
    rewrite Hi. repeat split; try assumption.
Qed.

(** The loop of [to_hdf5] returns when every array has its dataset and one
    row for every position of an ascending index. *)
Lemma store_arrays_returns (index : IndexLike)
    (arrays : list (string * list Row)) : forall g,
  strictly_ascending (positions index) = true ->
  Forall (fun item : string * list Row =>
            is_Some (grp_structs g !! item.1) /\
            length item.2 = length (positions index)) arrays ->
  exists g', for_each (store_array index) arrays g = (Ret tt, g').
Proof.
  induction arrays as [|item arrays IH]; intros g Hasc Hall.
  - exists g. reflexivity.
  - apply Forall_cons in Hall as [[[d Hd] Hlen] Hall].
    destruct (write_index_returns d item.2 index Hasc Hlen) as [d' Hd'].
    destruct (IH (with_structs g (<[item.1 := d']> (grp_structs g))) Hasc)
      as [g' Hg'].
    { eapply Forall_impl; [exact Hall|]. intros item' [Hsome Hl]. split; [|exact Hl].
      simpl. apply lookup_insert_is_Some'. right. exact Hsome. }
    exists g'. simpl.
    assert (Hstep : store_array index item g =
                    (Ret tt, with_structs g (<[item.1 := d']> (grp_structs g)))).
    { unfold store_array, mbind, St_bind, get, lift, put, lookup_struct.
      rewrite Hd, update_prop_dset_py_index, Hd'. reflexivity. }
    rewrite (St_bind_intro _ _ _ _ _ Hstep). exact Hg'.
Qed.

Lemma to_hdf5_returns (pdb : PDBContainer) (index : IndexLike)
    (update_scale : bool) (g : Group) :
  strictly_ascending (positions index) = true ->
  length (pdb_scale pdb) = length (positions index) ->
  Forall (fun item : string * list Row =>
            is_Some (grp_structs g !! item.1) /\
            length item.2 = length (positions index)) (pdb_arrays pdb) ->
  exists g', to_hdf5 pdb index update_scale g = (Ret tt, g').
Proof.
  intros Hasc Hscale Hall. unfold to_hdf5. destruct update_scale.
  - destruct (write_index_returns (grp_index g) (pdb_scale pdb) index
                Hasc Hscale) as [scale' Hscale'].
    destruct (store_arrays_returns index (pdb_arrays pdb)
                (with_index g scale') Hasc Hall) as [g' Hg'].
    exists g'.
    assert (Hstep : (get ≫= fun group : Group =>
                     lift (update_prop_dset None (grp_index group)
                             (pdb_scale pdb) (py_index index))
                     ≫= fun scale => put (with_index group scale)) g
                    = (Ret tt, with_index g scale')).
    { unfold mbind, St_bind, get, lift, put.
      rewrite update_prop_dset_py_index, Hscale'. reflexivity. }
    rewrite (St_bind_intro _ _ _ _ _ Hstep). exact Hg'.
  - destruct (store_arrays_returns index (pdb_arrays pdb) g Hasc Hall) as [g' Hg'].
    exists g'. rewrite (St_bind_intro _ _ g g tt); [exact Hg'|reflexivity].
Qed.

Section WithMolecules.

Variable Mol : Type.
Variable keys : Keys.
Variable to_rows : Mol -> Exc (string -> Row).
Variable _update_hdf5_settings : DataFrame Mol -> string -> St File unit.
Variable levels_of_column : DataFrame Mol -> Exc (list string).

Local Abbreviation from_df :=
  (from_df Mol keys to_rows _update_hdf5_settings levels_of_column).
Local Abbreviation _write_hdf5 := (_write_hdf5 Mol keys to_rows).
Local Abbreviation update_hdf5 := (update_hdf5 Mol keys to_rows).
Local Abbreviation _update_properties :=
  (_update_properties Mol keys levels_of_column).

Implicit Types (df : DataFrame Mol) (st : Store Mol).

Lemma on_df_Ret (f : DataFrame Mol -> Exc (DataFrame Mol)) st st' (u : unit) :
  on_df Mol f st = (Ret u, st') ->
  exists df', f (st_df st) = Ret df' /\
              st' = {| st_df := df'; st_grp := st_grp st |}.
Proof.
  unfold on_df. destruct (f (st_df st)) as [df'|e]; [|discriminate].
  intros H. injection H as _ <-. exists df'. split; reflexivity.
Qed.

Lemma on_group_Ret {A : Type} (m : St Group A) st st' (a : A) :
  on_group Mol m st = (Ret a, st') ->
  exists g', m (st_grp st) = (Ret a, g') /\
             st' = {| st_df := st_df st; st_grp := g' |}.
Proof.
  unfold on_group. destruct (m (st_grp st)) as [r g'].
  intros H. injection H as -> <-. exists g'. split; reflexivity.
Qed.

Lemma find_column_fmap (n : string) (col' : Column) (data : list Column) :
  forall col, find_column n data = Ret col -> col_name col' = n ->
  find_column n ((fun c => if decide (col_name c = n) then col' else c) <$> data)
  = Ret col'.
Proof.
  induction data as [|c data IH]; intros col H Hn; [discriminate|].
  simpl in *. destruct (decide (col_name c = n)) as [Hc|Hc].
  - rewrite decide_True by exact Hn. reflexivity.
  - rewrite decide_False by exact Hc. apply (IH col H Hn).
Qed.

Lemma find_column_fmap_other (n m : string) (col' : Column) (data : list Column) :
  m <> n ->
  find_column m ((fun c => if decide (col_name c = n) then col' else c) <$> data)
  = find_column m data \/ col_name col' = m.
Proof.
  intros Hne. induction data as [|c data IH]; [left; reflexivity|].
  simpl. destruct (decide (col_name c = n)) as [Hc|Hc].
  - destruct (decide (col_name col' = m)) as [Hm|Hm]; [right; exact Hm|].
    rewrite decide_False by congruence. exact IH.
  - destruct (decide (col_name c = m)); [left; reflexivity|exact IH].
Qed.

Lemma find_column_name (n : string) (data : list Column) (col : Column) :
  find_column n data = Ret col -> col_name col = n /\ col ∈ data.
Proof.
  induction data as [|c data IH]; [discriminate|]. simpl.
  destruct (decide (col_name c = n)) as [Hc|Hc].
  - intros [= <-]. split; [exact Hc|]. apply elem_of_cons. left. reflexivity.
  - intros H. destruct (IH H) as [H1 H2]. split; [exact H1|].
    apply elem_of_cons. right. exact H2.
Qed.

Lemma find_column_fmap_some (n m : string) (col' : Column) (data : list Column) :
  col_name col' = n ->
  (exists c, find_column m data = Ret c) ->
  exists c', find_column m
               ((fun c => if decide (col_name c = n) then col' else c) <$> data)
             = Ret c'.
Proof.
  intros Hname. induction data as [|c0 data IH]; intros [c Hc]; [discriminate|].
  simpl in *. destruct (decide (col_name c0 = n)) as [H0|H0].
  - destruct (decide (col_name col' = m)) as [Hm|Hm]; [eexists; reflexivity|].
    rewrite decide_False in Hc by congruence. apply IH. exists c. exact Hc.
  - destruct (decide (col_name c0 = m)); [eexists; reflexivity|].
    apply IH. exists c. exact Hc.
Qed.

(** [df.loc[index, n] = values] changes the cells of column [n] at the rows
    of the index and nothing else. *)
Lemma set_cells_spec df df' (n : string) (index : list nat) (values : list Row) :
  set_cells Mol df n index values = Ret df' ->
  exists col, column Mol df n = Ret col /\
    column Mol df' n =
      Ret {| col_name := col_name col; col_sub := col_sub col;
             col_dtype := col_dtype col;
             col_cells := write_rows index values (col_cells col) |} /\
    (forall m, m <> n -> column Mol df' m = column Mol df m) /\
    df_mol df' = df_mol df /\ df_index df' = df_index df.
Proof.
  unfold set_cells. intros H. apply Exc_bind_Ret in H as (col & Hcol & H).
  injection H as <-. exists col. split; [exact Hcol|].
  destruct (find_column_name _ _ _ Hcol) as [Hname _].
  unfold column in *. simpl. split.
  - apply (find_column_fmap n _ _ col Hcol). exact Hname.
  - split; [|split; reflexivity]. intros m Hm.
    destruct (find_column_fmap_other n m
                {| col_name := col_name col; col_sub := col_sub col;
                   col_dtype := col_dtype col;
                   col_cells := write_rows index values (col_cells col) |}
                (df_data df) Hm) as [Heq|Hbad]; [exact Heq|].
    simpl in Hbad. congruence.
Qed.

(** Reading back the rows of an index right after writing them. *)
Lemma select_rows_written (index : list nat) : forall (values cells : list Row),
  NoDup index -> length values = length index ->
  Forall (fun i => (i < length cells)%nat) index ->
  select (SelRows index) (write_rows index values cells) = values.
Proof.
  induction index as [|i index IH]; intros values cells Hnd Hlen Hin.
  - destruct values; [reflexivity|discriminate].
  - destruct values as [|x values]; [discriminate|].
    apply NoDup_cons in Hnd as [Hfresh Hnd].
    apply Forall_cons in Hin as [Hi Hin].
    simpl in Hlen. injection Hlen as Hlen.
    cbn [select write_rows omap list_omap].
    rewrite write_rows_other by exact Hfresh.
    rewrite list_lookup_insert_eq by exact Hi. f_equal.
    apply (IH values (<[i := x]> cells) Hnd Hlen).
    eapply Forall_impl; [exact Hin|]. intros j Hj. rewrite length_insert. exact Hj.
Qed.

Lemma length_select_rows {A : Type} (index : list nat) (cells : list A) :
  Forall (fun i => (i < length cells)%nat) index ->
  length (select (SelRows index) cells) = length index.
Proof.
  induction index as [|i index IH]; intros Hin; [reflexivity|].
  apply Forall_cons in Hin as [Hi Hin]. cbn [select omap list_omap].
  destruct (lookup_lt_is_Some_2 cells i Hi) as [x Hx]. rewrite Hx.
  simpl. f_equal. apply IH, Hin.
Qed.

Lemma from_molecules_spec (mol_series : list Mol) (scale : list Row)
    (pdb : PDBContainer) :
  from_molecules Mol keys to_rows mol_series scale = Ret pdb ->
  pdb_scale pdb = scale /\ (pdb_arrays pdb).*1 = DSET_NAMES keys.
Proof.
  unfold from_molecules. intros H. apply Exc_bind_Ret in H as (rows & _ & H).
  injection H as <-. simpl. split; [reflexivity|].
  rewrite <- list_fmap_compose. apply list_fmap_id.
Qed.

Lemma from_molecules_returns (mol_series : list Mol) (scale : list Row) :
  Forall (fun mol => exists rows, to_rows mol = Ret rows) mol_series ->
  exists pdb, from_molecules Mol keys to_rows mol_series scale = Ret pdb /\
    pdb_scale pdb = scale /\
    Forall (fun item : string * list Row =>
              item.1 ∈ DSET_NAMES keys /\ length item.2 = length mol_series)
           (pdb_arrays pdb).
Proof.
  intros Hall. destruct (map_exc_returns to_rows mol_series Hall) as [rows Hrows].
  eexists. unfold from_molecules. rewrite Hrows. simpl.
  split; [reflexivity|]. split; [reflexivity|]. simpl.
  apply Forall_fmap, Forall_forall. intros name Hname. simpl.
  split; [exact Hname|]. rewrite length_fmap. apply (length_map_exc _ _ _ Hrows).
Qed.

(** Take apart the steps that work on the batch or on the group. *)
Ltac store_inv H :=
  st_inv H;
  repeat match goal with
  | Hs : on_df _ _ _ = (Ret _, _) |- _ =>
      let df' := fresh "df'" in let E := fresh "Hdf" in
      apply on_df_Ret in Hs as (df' & E & ->)
  | Hs : on_group _ _ _ = (Ret _, _) |- _ =>
      let g' := fresh "g'" in let E := fresh "Hgrp" in
      apply on_group_Ret in Hs as (g' & E & ->)
  end.

(** The steps of a call of [_write_hdf5] that returned. *)
Lemma write_hdf5_Ret (index : list nat) (opt : bool) st st' :
  _write_hdf5 index opt st = (Ret tt, st') ->
  exists atoms df1 pdb g2 msg,
    grp_structs (st_grp st) !! "atoms" = Some atoms /\
    set_cells Mol (st_df st) (HDF5_INDEX keys) index
      (Scalar ∘ VInt <$> (Z.of_nat <$>
         seq (length (dset_rows atoms))
             (length (select (SelRows index) (df_mol (st_df st)))))) = Ret df1 /\
    from_molecules Mol keys to_rows
      (select (SelRows index) (df_mol (st_df st)))
      (select (SelRows index) (df_index (st_df st))) = Ret pdb /\
    to_hdf5 pdb
      (IdxSlice (length (dset_rows atoms))
         (length (dset_rows atoms) +
          length (select (SelRows index) (df_mol (st_df st)))))
      (negb opt) (st_grp st) = (Ret tt, g2) /\
    struct_message keys g2 false = Ret msg /\
    st_grp st' =
      with_logger g2
        (update_hdf5_log (grp_logger g2)
           (Z.of_nat <$> seq (length (dset_rows atoms))
              (length (select (SelRows index) (df_mol (st_df st)))))
           msg) /\
    (if opt
     then set_cells Mol df1 (OPT keys) index
            (replicate (length index) (Scalar (VBool true))) = Ret (st_df st')
     else st_df st' = df1).
Proof.
  intros H. unfold Orchestrator._write_hdf5 in H. store_inv H.
  cbn [st_df st_grp] in *. st_inv Hgrp.
  unfold lookup_struct in Hval.
  destruct (grp_structs (st_grp st) !! "atoms") as [atoms|] eqn:Hatoms;
    [|discriminate].
  injection Hval as <-. destruct a2.
  replace (length (dset_rows atoms) +
           length (select (SelRows index) (df_mol (st_df st))) -
           length (dset_rows atoms))%nat
    with (length (select (SelRows index) (df_mol (st_df st)))) in * by lia.
  exists atoms, df', a1, g'0, a3.
  repeat (split; [first [reflexivity|assumption]|]).
  destruct opt.
  - store_inv H. cbn [st_df st_grp] in *. split; [reflexivity|exact Hdf0].
  - st_inv H. split; reflexivity.
Qed.

(** What a call of [_write_hdf5] that returned has done to the position
    column, to [atoms] and to the index scale. *)
Lemma write_hdf5_positions (index : list nat) (opt : bool) st st'
    (atoms : Dataset) :
  OPT keys <> HDF5_INDEX keys ->
  "atoms" ∈ DSET_NAMES keys ->
  wf_frame Mol (st_df st) ->
  NoDup index ->
  Forall (fun i => (i < length (df_index (st_df st)))%nat) index ->
  grp_structs (st_grp st) !! "atoms" = Some atoms ->
  _write_hdf5 index opt st = (Ret tt, st') ->
  let L := length (dset_rows atoms) in
  let n := length index in
  (exists col, column Mol (st_df st') (HDF5_INDEX keys) = Ret col /\
     select (SelRows index) (col_cells col) =
     (fun p => Scalar (VInt (Z.of_nat p))) <$> seq L n) /\
  (exists atoms', grp_structs (st_grp st') !! "atoms" = Some atoms' /\
     length (dset_rows atoms') = (L + n)%nat) /\
  length (dset_rows (grp_index (st_grp st'))) =
    (if opt then length (dset_rows (grp_index (st_grp st)))
     else Nat.max (length (dset_rows (grp_index (st_grp st))))
                  (match n with O => O | S _ => (L + n)%nat end)).
Proof.
  intros Hkeys Hatoms [Hmol Hcols] Hnd Hrows Hlook H L n.
  destruct (write_hdf5_Ret _ _ _ _ H)
    as (atoms0 & df1 & pdb & g2 & msg & Hlook0 & Hset & Hpdb & Hto & _ & Hgrp & Hdf).
  assert (atoms0 = atoms) by congruence. subst atoms0.
  assert (Hn : length (select (SelRows index) (df_mol (st_df st))) = n).
  { apply length_select_rows. rewrite Hmol. exact Hrows. }
  rewrite Hn in *. fold L in Hset, Hto, Hgrp.
  destruct (set_cells_spec _ _ _ _ _ Hset)
    as (col & Hcol & Hcol1 & Hother & _ & _).
  destruct (to_hdf5_spec _ _ _ _ _ Hto) as (_ & _ & _ & Hscale & Hstructs).
  destruct (from_molecules_spec _ _ _ Hpdb) as [_ Hnames].
  assert (Hneed : needed_length (positions (IdxSlice L (L + n)))
                  = match n with O => O | S _ => (L + n)%nat end).
  { simpl. replace (L + n - L)%nat with n by lia. apply needed_length_seq. }
  split; [|split].
  - assert (Hcol' : column Mol (st_df st') (HDF5_INDEX keys) =
                    Ret {| col_name := col_name col; col_sub := col_sub col;
                           col_dtype := col_dtype col;
                           col_cells := write_rows index
                             (Scalar ∘ VInt <$> (Z.of_nat <$> seq L n))
                             (col_cells col) |}).
    { destruct opt.
      - destruct (set_cells_spec _ _ _ _ _ Hdf) as (_ & _ & _ & Hother' & _).
        rewrite Hother' by (intros Heq; apply Hkeys; symmetry; exact Heq).
        exact Hcol1.
      - rewrite Hdf. exact Hcol1. }
    eexists. split; [exact Hcol'|]. cbn [col_cells].
    rewrite select_rows_written.
    + rewrite <- list_fmap_compose. reflexivity.
    + exact Hnd.
    + rewrite !length_fmap, length_seq. reflexivity.
    + destruct (find_column_name _ _ _ Hcol) as [_ Hin].
      rewrite Forall_forall in Hcols. rewrite (Hcols col Hin). exact Hrows.
  - destruct (Hstructs "atoms" atoms Hlook) as (atoms' & Hlook' & _ & Hlen').
    exists atoms'. rewrite Hgrp. simpl. split; [exact Hlook'|].
    rewrite Hlen', Hnames, bool_decide_eq_true_2 by exact Hatoms.
    transitivity (Nat.max L (match n with O => O | S _ => (L + n)%nat end));
      [f_equal; exact Hneed|destruct n; lia].
  - rewrite Hgrp. simpl. rewrite Hscale. destruct opt; simpl; [reflexivity|].
    f_equal. exact Hneed.
Qed.

(** [_write_hdf5] returns when the batch has its position column (and its
    [opt] column, for optimized structures), the molecules of the rows can
    be serialized, and the group has every structural dataset. *)
Lemma write_hdf5_returns (index : list nat) (opt : bool) st :
  wf_frame Mol (st_df st) ->
  Forall (fun i => (i < length (df_index (st_df st)))%nat) index ->
  is_Some (grp_structs (st_grp st) !! "atoms") ->
  Forall (fun name => is_Some (grp_structs (st_grp st) !! name)) (DSET_NAMES keys) ->
  (exists col, column Mol (st_df st) (HDF5_INDEX keys) = Ret col) ->
  (opt = true -> exists col, column Mol (st_df st) (OPT keys) = Ret col) ->
  Forall (fun mol => exists rows, to_rows mol = Ret rows)
         (select (SelRows index) (df_mol (st_df st))) ->
  exists st', _write_hdf5 index opt st = (Ret tt, st').
Proof.
  intros [Hmol Hcols] Hrows [atoms Hatoms] Hnames [col Hcol] Hopt Hser.
  set (L := length (dset_rows atoms)).
  set (mols := select (SelRows index) (df_mol (st_df st))) in *.
  assert (Hn : length mols = length index).
  { apply length_select_rows. rewrite Hmol. exact Hrows. }
  destruct (from_molecules_returns mols (select (SelRows index) (df_index (st_df st)))
              Hser) as (pdb & Hpdb & Hscale & Harrays).
  assert (Hpos : positions (IdxSlice L (L + length mols)) = seq L (length mols)).
  { simpl. f_equal. lia. }
  destruct (to_hdf5_returns pdb (IdxSlice L (L + length mols)) (negb opt) (st_grp st))
    as [g2 Hg2].
  { rewrite Hpos. apply strictly_ascending_seq. }
  { rewrite Hpos, Hscale, length_seq, Hn. apply length_select_rows. exact Hrows. }
  { eapply Forall_impl; [exact Harrays|]. intros item [Hin Hlen]. split.
    - rewrite Forall_forall in Hnames. apply Hnames, Hin.
    - rewrite Hpos, length_seq. exact Hlen. }
  destruct (to_hdf5_spec _ _ _ _ _ Hg2) as (_ & _ & _ & _ & Hstructs).
  destruct (map_exc_returns (lookup_struct g2) (DSET_NAMES keys)) as [dsets Hdsets].
  { eapply Forall_impl; [exact Hnames|]. intros name [d Hd].
    destruct (Hstructs name d Hd) as (d' & Hd' & _).
    exists d'. unfold lookup_struct. rewrite Hd'. reflexivity. }
  unfold Orchestrator._write_hdf5, mbind at 1, St_bind at 1, get at 1.
  cbn iota beta.
  unfold mbind at 1, St_bind at 1, lift at 1, lookup_struct at 1.
  rewrite Hatoms. cbn iota beta. fold L. fold mols.
  replace (L + length mols - L)%nat with (length mols) by lia.
  unfold mbind at 1, St_bind at 1, on_df at 1, set_cells at 1.
  rewrite Hcol. cbn [mbind Exc_bind]. cbn iota beta.
  unfold mbind at 1, St_bind at 1, lift at 1. rewrite Hpdb. cbn iota beta.
  unfold mbind at 1, St_bind at 1, on_group at 1. cbn [st_grp st_df].
  rewrite Hg2. cbn iota beta.
  unfold mbind at 1, St_bind at 1, get at 1. cbn iota beta.
  unfold mbind at 1, St_bind at 1, lift at 1, struct_message at 1. cbn [st_grp st_df].
  rewrite Hdsets. cbn [mbind Exc_bind]. cbn iota beta.
  unfold mbind at 1, St_bind at 1, on_group at 1. cbn [st_grp st_df].
  unfold mbind at 1, St_bind at 1, get at 1, put at 1. cbn iota beta.
  destruct opt.
  - unfold on_df, set_cells. cbn [st_grp st_df]. unfold column in *. cbn [df_data].
    destruct (find_column_fmap_some (HDF5_INDEX keys) (OPT keys)
                {| col_name := col_name col; col_sub := col_sub col;
                   col_dtype := col_dtype col;
                   col_cells := write_rows index
                     (Scalar ∘ VInt <$> (Z.of_nat <$> seq L (length mols)))
                     (col_cells col) |} (df_data (st_df st)))
      as [colo Hcolo].
    { simpl. apply (find_column_name _ _ _ Hcol). }
    { apply Hopt. reflexivity. }
    cbn [df_data with_data]. rewrite Hcolo. cbn [mbind Exc_bind].
    eexists. reflexivity.
  - eexists. reflexivity.
Qed.

(** C1, as the code has it. A call of [_write_hdf5] for [n] rows of the
    batch, on a group whose [atoms] dataset holds [L] records, returns with
    the positions [L, L + 1, ..., L + n - 1] recorded in that order in the
    position column of those rows, and with [L + n] records in [atoms], so
    that no later call hands a position out again. The positions start at
    the length of [atoms], whatever the length of the index scale. The
    index scale is extended to cover them, which makes it
    [max(len(scale), L + n)] long, except in a call for optimized
    structures ([opt]), which writes with [update_scale=False] and leaves
    the scale as long as it was. *)
Theorem write_hdf5_allocates (index : list nat) (opt : bool) st
    (atoms : Dataset) :
  OPT keys <> HDF5_INDEX keys ->
  "atoms" ∈ DSET_NAMES keys ->
  wf_frame Mol (st_df st) ->
  NoDup index ->
  Forall (fun i => (i < length (df_index (st_df st)))%nat) index ->
  Forall (fun name => is_Some (grp_structs (st_grp st) !! name)) (DSET_NAMES keys) ->
  (exists col, column Mol (st_df st) (HDF5_INDEX keys) = Ret col) ->
  (opt = true -> exists col, column Mol (st_df st) (OPT keys) = Ret col) ->
  Forall (fun mol => exists rows, to_rows mol = Ret rows)
         (select (SelRows index) (df_mol (st_df st))) ->
  grp_structs (st_grp st) !! "atoms" = Some atoms ->
  let L := length (dset_rows atoms) in
  let n := length index in
  exists st', _write_hdf5 index opt st = (Ret tt, st') /\
    (exists col, column Mol (st_df st') (HDF5_INDEX keys) = Ret col /\
       select (SelRows index) (col_cells col) =
       (fun p => Scalar (VInt (Z.of_nat p))) <$> seq L n) /\
    (exists atoms', grp_structs (st_grp st') !! "atoms" = Some atoms' /\
       length (dset_rows atoms') = (L + n)%nat) /\
    length (dset_rows (grp_index (st_grp st'))) =
      (if opt then length (dset_rows (grp_index (st_grp st)))
       else Nat.max (length (dset_rows (grp_index (st_grp st))))
                    (match n with O => O | S _ => (L + n)%nat end)).
Proof.
  intros Hkeys Hatoms Hwf Hnd Hrows Hnames Hcol Hopt Hser Hlook L n.
  destruct (write_hdf5_returns index opt st Hwf Hrows) as [st' Hret];
    try assumption.
  { exists atoms. exact Hlook. }
  exists st'. split; [exact Hret|].
  exact (write_hdf5_positions index opt st st' atoms Hkeys Hatoms Hwf Hnd Hrows
           Hlook Hret).
Qed.


Lemma set_cells_columns df df' (n : string) (index : list nat)
    (values : list Row) :
  set_cells Mol df n index values = Ret df' -> df_columns df' = df_columns df.
Proof.
  unfold set_cells. intros H. apply Exc_bind_Ret in H as (col & _ & H).
  injection H as <-. reflexivity.
Qed.

(** The structural write leaves the column labels of the batch alone. *)
Lemma write_hdf5_columns (index : list nat) (opt : bool) st st' :
  _write_hdf5 index opt st = (Ret tt, st') ->
  df_columns (st_df st') = df_columns (st_df st).
Proof.
  intros H.
  destruct (write_hdf5_Ret _ _ _ _ H)
    as (atoms & df1 & pdb & g2 & msg & _ & Hset & _ & _ & _ & _ & Hdf).
  apply set_cells_columns in Hset. destruct opt.
  - apply set_cells_columns in Hdf. congruence.
  - congruence.
Qed.

(** ** The property loop *)

(** The first statement of [_update_properties] decides whether the loop
    is reached. *)
Lemma update_properties_unfold (df_bool : MaskFrame) (columns : ColumnIndex)
    (overwrite : bool) st :
  _update_properties df_bool columns overwrite st =
  match levels_0 Mol levels_of_column (st_df st) with
  | Ret labels =>
      for_each (update_property Mol keys df_bool columns overwrite)
        (filter (fun k => k ∉ PORPERTY_BLACKLIST keys) labels) st
  | Raise e => (Raise e, st)
  end.
Proof.
  unfold Orchestrator._update_properties, mbind, St_bind, get, lift.
  destruct (levels_0 Mol levels_of_column (st_df st)); reflexivity.
Qed.

Lemma levels_0_raises df :
  holds_name (df_columns df) "levels" = false ->
  levels_0 Mol levels_of_column df = Raise (AttributeError "DataFrame" "levels").
Proof. intros H. unfold levels_0. rewrite H. reflexivity. Qed.

(** C4, as the code has it. The per-property dispatch is not reached: for
    a batch without a column labelled [levels], [_update_properties]
    raises [AttributeError] at its first statement, for every mask, with
    [overwrite] or without it. The batch and the group are as they were:
    no property dataset is looked up, created or written, be the mask bit
    of a row set or not, and no entry goes to the change log. *)
Theorem update_properties_raises (df_bool : MaskFrame) (columns : ColumnIndex)
    (overwrite : bool) st :
  holds_name (df_columns (st_df st)) "levels" = false ->
  _update_properties df_bool columns overwrite st =
  (Raise (AttributeError "DataFrame" "levels"), st).
Proof.
  intros H. rewrite update_properties_unfold, (levels_0_raises _ H).
  reflexivity.
Qed.

(** ** [from_df] after its opens *)


(** When the structural update returns, the block ends in the
    [AttributeError] of the property loop, with the batch and the group as
    the structural update left them. *)
Lemma update_body_after_update (df_bool : MaskFrame) (columns : ColumnIndex)
    (overwrite : bool) (status : option string) st st1 :
  update_hdf5 df_bool overwrite status st = (Ret tt, st1) ->
  holds_name (df_columns (st_df st1)) "levels" = false ->
  (update_hdf5 df_bool overwrite status;;
   _update_properties df_bool columns overwrite) st =
  (Raise (AttributeError "DataFrame" "levels"), st1).
Proof.
  intros Hup Hno. unfold mbind at 1, St_bind at 1. rewrite Hup.
  rewrite update_properties_unfold, (levels_0_raises _ Hno). reflexivity.
Qed.



(** C9. When the labels that [from_df] checks, those of [columns] if given
    and of the frame otherwise, are not a 2-level MultiIndex, the call
    raises [ValueError] before the probe or any other open of the hdf5
    file: the file, with every dataset, index scale and log of it, and the
    batch are as they were. *)
Theorem from_df_rejects_labels (file_status : nat -> Probe.OpenResult)
    (fuel : nat) (df : DataFrame Mol) (df_bool : option MaskFrame)
    (name : string) (columns : option ColumnIndex) (overwrite : bool)
    (status : option string) (f : File) :
  length (index_levels (default (df_columns df) columns)) <> 2%nat ->
  from_df file_status fuel df df_bool name columns overwrite status f =
  Some (Raise (ValueError "Expected a 2-level MultiIndex"), df, f, []).
Proof.
  intros Hlevels. unfold Orchestrator.from_df.
  apply Nat.eqb_neq in Hlevels. rewrite Hlevels. reflexivity.
Qed.

End WithMolecules.

(** C1, a call for which the claim as stated fails: the structural update
    of the empty group with [status='optimized']. The three new rows get
    the positions 0, 1, 2 and [atoms] grows to three records, but the index
    scale, which held no record, still holds none. *)
Lemma update_hdf5_optimized_keeps_scale :
  let out := Orchestrator.update_hdf5 string cat_keys row_of batch_mask false
               (Some "optimized") before_write in
  out.1 = Ret tt /\
  length (dset_rows (grp_index (st_grp before_write))) = 0%nat /\
  int_column string (st_df out.2) "hdf5 index" = Ret [0; 1; 2] /\
  (fun d => length (dset_rows d)) <$> (grp_structs (st_grp out.2) !! "atoms")
    = Some 3%nat /\
  length (dset_rows (grp_index (st_grp out.2))) = 0%nat /\
  length (dset_rows (grp_index (st_grp out.2))) <> (0 + 3)%nat.
Proof. vm_compute. repeat split; discriminate. Qed.

(** After that update [atoms] holds three records and the index scale
    none. The next write, of one row that is not optimized, hands out the
    position 3, the length of [atoms], and makes the scale four entries
    long. *)
Example write_after_optimized :
  let st := (Orchestrator.update_hdf5 string cat_keys row_of batch_mask false
               (Some "optimized") before_write).2 in
  let out := Orchestrator._write_hdf5 string cat_keys row_of [1]%nat false st in
  out.1 = Ret tt /\
  int_column string (st_df out.2) "hdf5 index" = Ret [0; 3; 2] /\
  length (dset_rows (grp_index (st_grp out.2))) = 4%nat.
Proof. vm_compute. repeat split. Qed.

Lemma write_hdf5_allocates_witness :
  exists st',
    Orchestrator._write_hdf5 string cat_keys row_of [0; 1; 2]%nat false
      before_write = (Ret tt, st') /\
    (exists col,
       column string (st_df st') "hdf5 index" = Ret col /\
       select (SelRows [0; 1; 2]%nat) (col_cells col) =
       [Scalar (VInt 0); Scalar (VInt 1); Scalar (VInt 2)]) /\
    (exists atoms', grp_structs (st_grp st') !! "atoms" = Some atoms' /\
       length (dset_rows atoms') = 3%nat) /\
    length (dset_rows (grp_index (st_grp st'))) = 3%nat.
Proof.
  refine (write_hdf5_allocates string cat_keys row_of [0; 1; 2]%nat false
            before_write
            (empty_dset "/ligand/atoms" DText (Some "/ligand/index"))
            _ _ _ _ _ _ _ _ _ _).
  - discriminate.
  - apply (bool_decide_unpack _). vm_compute. exact I.
  - split; [reflexivity|]. repeat constructor.
  - apply (bool_decide_unpack _). vm_compute. exact I.
  - repeat constructor.
  - repeat constructor; vm_compute; eexists; reflexivity.
  - eexists. reflexivity.
  - discriminate.
  - repeat constructor; eexists; reflexivity.
  - vm_compute. reflexivity.
Defined.

(** The property loop on the batch of three records, after the structural
    write: with the mask of the scenario and without [overwrite]. *)
Lemma update_properties_raises_witness :
  holds_name (df_columns (st_df after_write)) "levels" = false /\
  Orchestrator._update_properties string cat_keys no_levels batch_mask
    (df_columns new_batch) false after_write =
  (Raise (AttributeError "DataFrame" "levels"), after_write).
Proof.
  assert (H : holds_name (df_columns (st_df after_write)) "levels" = false)
    by (vm_compute; reflexivity).
  split; [exact H|].
  exact (update_properties_raises string cat_keys no_levels batch_mask
           (df_columns new_batch) false after_write H).
Defined.

(** The scenario of the specification: the empty group and the batch of
    three new records with the property column [formula], two of whose
    cells are marked. With [overwrite] or without it, [from_df] raises
    after the structural write; the group has no dataset for [formula], so
    that not one cell of the column has been stored; and the change log
    holds the one entry of the structural write, with the indices 0, 1,
    2. *)
Example from_df_scenario (overwrite : bool) :
  exists df' f' g,
    demo_from_df overwrite None =
    Some (Raise (AttributeError "DataFrame" "levels"), df', f',
          [Probe.EvOpen 0; Probe.EvOpen 1]) /\
    f' !! "ligand" = Some g /\
    grp_props g = ∅ /\
    length (dset_rows (grp_index g)) = 3%nat /\
    grp_logger g =
    [ {| log_index := [0; 1; 2];
         log_message := "datasets=['/ligand/atoms', '/ligand/bonds', '/ligand/atom_count', '/ligand/bond_count']; overwrite=False" |} ].
Proof.
  destruct overwrite; vm_compute; do 3 eexists;
    (split; [reflexivity|]); repeat split.
Qed.


Lemma from_df_rejects_labels_witness :
  length (index_levels (default (df_columns new_batch)
                          (Some (FlatIndex ["formula"])))) <> 2%nat /\
  Orchestrator.from_df string cat_keys row_of no_settings no_levels available 10
    new_batch (Some batch_mask) "ligand" (Some (FlatIndex ["formula"]))
    false None hdf5_file =
  Some (Raise (ValueError "Expected a 2-level MultiIndex"), new_batch,
        hdf5_file, []).
Proof.
  assert (H : length (index_levels (default (df_columns new_batch)
                                      (Some (FlatIndex ["formula"])))) <> 2%nat).
  { simpl. discriminate. }
  split; [exact H|].
  exact (from_df_rejects_labels string cat_keys row_of no_settings no_levels
           available 10 new_batch (Some batch_mask) "ligand"
           (Some (FlatIndex ["formula"])) false None hdf5_file H).
Defined.

End OrchestratorFacts.

(** ** The probe always ends *)

Module ProbeBounds.
Import Probe ProbeFacts.

Section WithTimeout.

Variable seconds : Type.
Variable file : nat -> OpenResult.
Variable timeout : seconds.

(** Among the first [m] opens either one succeeds, and there is a first one
    that does, or all fail. *)
Lemma first_open (m : nat) :
  (exists n, (n < m)%nat /\ all_fail file 0 n /\ file n = Opened) \/
  all_fail file 0 m.
Proof.
  induction m as [|m [(n & Hn & Hfail & Hok)|Hfail]].
  - right. intros j Hj. lia.
  - left. exists n. split; [lia|]. split; assumption.
  - destruct (file m) as [|errno] eqn:Hm.
    + left. exists m. split; [lia|]. split; assumption.
    + right. intros j Hj. destruct (decide (j = m)) as [->|Hne].
      * rewrite Hm. discriminate.
      * apply Hfail. lia.
Qed.

(** With a positive integer [max_attempts] and fuel for that many passes
    the probe ends. *)
Lemma hdf5_availability_ends (fuel m : nat) :
  (0 < m)%nat -> (m <= fuel)%nat ->
  exists r events,
    hdf5_availability seconds file timeout fuel (Some (Z.of_nat m)) =
    Some (r, events).
Proof.
  intros Hm Hfuel.
  assert (Hz : le_zero (Fin (Z.of_nat m)) = false).
  { simpl. apply Z.leb_gt. lia. }
  unfold hdf5_availability. simpl counter_of. rewrite Hz.
  destruct (first_open m) as [(n & Hn & Hfail & Hok)|Hfail].
  - rewrite (retry_returns seconds file timeout n fuel _ 0%nat None []);
      [do 2 eexists; reflexivity|exact Hfail|exact Hok|simpl; lia|lia].
  - rewrite (retry_exhausted seconds file timeout m fuel 0%nat None [] Hfail Hfuel).
    do 2 eexists. reflexivity.
Qed.

(** X1. With an integer [max_attempts = m > 0] the probe ends whatever the
    file does, after at most [m] opens: either some open among the first
    [m] succeeds, and it returns at the first one that does, having slept
    after each failed open before it; or all [m] fail, and it raises the
    [OSError] of the last one after [m] opens, warnings and sleeps. *)
Theorem hdf5_availability_terminates (fuel m : nat) :
  (0 < m)%nat -> (m <= fuel)%nat ->
  (exists n, (n < m)%nat /\ all_fail file 0 n /\ file n = Opened /\
     hdf5_availability seconds file timeout fuel (Some (Z.of_nat m)) =
     Some (Ret tt, failed_passes seconds file timeout 0 n ++ [EvOpen n])) \/
  (all_fail file 0 m /\
   hdf5_availability seconds file timeout fuel (Some (Z.of_nat m)) =
   Some (Raise (OSError (errno_of (file (m - 1)%nat))),
         failed_passes seconds file timeout 0 m)).
Proof.
  intros Hm Hfuel.
  assert (Hz : le_zero (Fin (Z.of_nat m)) = false).
  { simpl. apply Z.leb_gt. lia. }
  destruct (first_open m) as [(n & Hn & Hfail & Hok)|Hfail].
  - left. exists n. split; [exact Hn|]. split; [exact Hfail|].
    split; [exact Hok|].
    unfold hdf5_availability. simpl counter_of. rewrite Hz.
    rewrite (retry_returns seconds file timeout n fuel _ 0%nat None []);
      [reflexivity|exact Hfail|exact Hok|simpl; lia|lia].
  - right. split; [exact Hfail|].
    unfold hdf5_availability. simpl counter_of. rewrite Hz.
    rewrite (retry_exhausted seconds file timeout m fuel 0%nat None [] Hfail Hfuel).
    destruct m as [|m']; [lia|].
    replace (S m' - 1)%nat with m' by lia. reflexivity.
Qed.

End WithTimeout.

Lemma hdf5_availability_terminates_witness :
  (exists n, (n < 3)%nat /\ all_fail busy_twice 0 n /\ busy_twice n = Opened /\
     hdf5_availability nat busy_twice 5%nat 3 (Some 3) =
     Some (Ret tt, failed_passes nat busy_twice 5%nat 0 n ++ [EvOpen n])) \/
  (all_fail busy_twice 0 3 /\
   hdf5_availability nat busy_twice 5%nat 3 (Some 3) =
   Some (Raise (OSError (errno_of (busy_twice (3 - 1)%nat))),
         failed_passes nat busy_twice 5%nat 0 3)).
Proof.
  apply (hdf5_availability_terminates nat busy_twice 5%nat 3 3); lia.
Defined.

End ProbeBounds.

(** ** Integer-like indices as slices *)

Module SlicingFacts.
Import Slicing.

Lemma getitem_Ret {A : Type} (l : list A) (i : Z) (x : A) :
  getitem l i = Ret x ->
  exists k, k = (if i <? 0 then i + Z.of_nat (length l) else i) /\
            0 <= k < Z.of_nat (length l) /\ l !! Z.to_nat k = Some x.
Proof.
  intros H. eexists. split; [reflexivity|].
  unfold getitem in H.
  set (n := Z.of_nat (length l)) in *.
  assert (Hn : n = Z.of_nat (length l)) by reflexivity.
  set (k := if i <? 0 then i + n else i) in *.
  destruct ((k <? 0) || (n <=? k)) eqn:Hout; [discriminate|].
  apply orb_false_iff in Hout as [Hlo Hhi].
  apply Z.ltb_ge in Hlo. apply Z.leb_gt in Hhi.
  split; [lia|]. destruct (l !! Z.to_nat k); [congruence|discriminate].
Qed.

Lemma take_1_drop {A : Type} (l : list A) (k : nat) (x : A) :
  l !! k = Some x -> take 1 (drop k l) = [x].
Proof.
  intros H. rewrite <- (take_drop_middle l k x H) at 1.
  rewrite drop_app_length'; [reflexivity|].
  rewrite length_take. apply lookup_lt_Some in H. lia.
Qed.

(** X2. For an index that is zero or negative and in range, slicing a
    sequence with [int_to_slice(i, len(sequence))] gives the one-element
    sequence that holds [sequence[i]]. *)
Theorem int_to_slice_nonpositive {A : Type} (l : list A) (i : Z) (x : A) :
  i <= 0 -> getitem l i = Ret x ->
  getslice l (int_to_slice i (Z.of_nat (length l))) = [x].
Proof.
  intros Hi Hx. apply getitem_Ret in Hx as (k & Hkdef & Hk & Hx).
  unfold int_to_slice. replace (0 <? i) with false by (symmetry; apply Z.ltb_ge; lia).
  set (n := Z.of_nat (length l)) in *.
  assert (Hn : n = Z.of_nat (length l)) by reflexivity.
  destruct (i <? 0) eqn:Hneg; subst k.
  - apply Z.ltb_lt in Hneg.
    destruct (i =? -1) eqn:Hlast.
    + apply Z.eqb_eq in Hlast. subst i.
      unfold getslice, clip. simpl. fold n.
      replace (-1 <? 0) with true by reflexivity.
      replace (Z.max (-1 + n) 0) with (-1 + n) by lia.
      replace (Z.to_nat (n - (-1 + n))) with 1%nat by lia.
      apply take_1_drop, Hx.
    + apply Z.eqb_neq in Hlast.
      unfold getslice, clip. simpl. fold n.
      replace (i <? 0) with true by (symmetry; apply Z.ltb_lt; lia).
      replace (i + 1 <? 0) with true by (symmetry; apply Z.ltb_lt; lia).
      replace (Z.max (i + n) 0) with (i + n) by lia.
      replace (Z.max (i + 1 + n) 0) with (i + 1 + n) by lia.
      replace (Z.to_nat (i + 1 + n - (i + n))) with 1%nat by lia.
      apply take_1_drop, Hx.
  - apply Z.ltb_ge in Hneg. assert (i = 0) by lia. subst i.
    change (0 =? -1) with false. cbv iota.
    unfold getslice, clip. cbn [slice_start slice_stop from_option]. fold n.
    replace (0 <? 0) with false by reflexivity.
    replace (0 + 1 <? 0) with false by reflexivity.
    replace (Z.min (0 + 1) n) with 1 by lia.
    replace (Z.min 0 n) with 0 by lia.
    apply (take_1_drop l 0 x), Hx.
Qed.

Lemma int_to_slice_nonpositive_witness :
  getslice [10; 20; 30] (int_to_slice (-2) 3) = [20].
Proof.
  apply (int_to_slice_nonpositive [10; 20; 30] (-2) 20); [lia|reflexivity].
Defined.

(** X3. For a positive index inside the sequence, the slice of
    [int_to_slice] runs from the start of the sequence up to and including
    position [i]: it selects the first [i + 1] elements, more than one, the
    last of which is [sequence[i]]. *)
Theorem int_to_slice_positive {A : Type} (l : list A) (i : Z) (x : A) :
  0 < i -> getitem l i = Ret x ->
  getslice l (int_to_slice i (Z.of_nat (length l))) = take (Z.to_nat (i + 1)) l /\
  length (getslice l (int_to_slice i (Z.of_nat (length l)))) = Z.to_nat (i + 1) /\
  last (getslice l (int_to_slice i (Z.of_nat (length l)))) = Some x.
Proof.
  intros Hi Hx. apply getitem_Ret in Hx as (k & Hkdef & Hk & Hx).
  replace (i <? 0) with false in Hkdef by (symmetry; apply Z.ltb_ge; lia).
  subst k. set (n := Z.of_nat (length l)) in *.
  assert (Hn : n = Z.of_nat (length l)) by reflexivity.
  assert (Hs : getslice l (int_to_slice i n) = take (Z.to_nat (i + 1)) l).
  { unfold int_to_slice.
    replace (0 <? i) with true by (symmetry; apply Z.ltb_lt; lia).
    replace (i =? n) with false by (symmetry; apply Z.eqb_neq; lia).
    unfold getslice, clip. simpl. fold n.
    replace (i + 1 <? 0) with false by (symmetry; apply Z.ltb_ge; lia).
    rewrite Z.sub_0_r. change (Z.to_nat 0) with 0%nat. rewrite drop_0.
    rewrite Z.min_l by lia. reflexivity. }
  rewrite Hs. split; [reflexivity|]. split.
  - rewrite length_take. lia.
  - rewrite last_lookup, length_take.
    replace (Init.Nat.pred (Z.to_nat (i + 1) `min` length l)) with (Z.to_nat i) by lia.
    rewrite lookup_take_lt by lia. exact Hx.
Qed.

Lemma int_to_slice_positive_witness :
  getslice [10; 20; 30; 40] (int_to_slice 2 4) = [10; 20; 30] /\
  length (getslice [10; 20; 30; 40] (int_to_slice 2 4)) = 3%nat /\
  last (getslice [10; 20; 30; 40] (int_to_slice 2 4)) = Some 30.
Proof.
  apply (int_to_slice_positive [10; 20; 30; 40] 2 30); [lia|reflexivity].
Defined.

(** X4. For the index equal to the length of a sequence that is not empty,
    where [sequence[i]] itself raises [IndexError], the slice of
    [int_to_slice] selects the last element. *)
Theorem int_to_slice_at_length {A : Type} (l : list A) (x : A) :
  getitem l (-1) = Ret x ->
  getitem l (Z.of_nat (length l)) = Raise (IndexError "index out of range") /\
  getslice l (int_to_slice (Z.of_nat (length l)) (Z.of_nat (length l))) = [x].
Proof.
  intros Hx. apply getitem_Ret in Hx as (k & Hkdef & Hk & Hx).
  simpl in Hkdef. subst k. set (n := Z.of_nat (length l)) in *.
  assert (Hn : n = Z.of_nat (length l)) by reflexivity.
  split.
  - unfold getitem. fold n.
    assert (Hlt : (n <? 0) = false) by (apply Z.ltb_ge; lia).
    rewrite Hlt. cbv iota. rewrite Hlt, Z.leb_refl. reflexivity.
  - unfold int_to_slice.
    replace (0 <? n) with true by (symmetry; apply Z.ltb_lt; lia).
    rewrite Z.eqb_refl. unfold getslice, clip. simpl. fold n.
    replace (n - 1 <? 0) with false by (symmetry; apply Z.ltb_ge; lia).
    rewrite Z.min_l by lia.
    replace (Z.to_nat (n - (n - 1))) with 1%nat by lia.
    apply take_1_drop. replace (n - 1) with (-1 + n) by lia. exact Hx.
Qed.

Lemma int_to_slice_at_length_witness :
  getitem [10; 20; 30] 3 = Raise (IndexError "index out of range") /\
  getslice [10; 20; 30] (int_to_slice 3 3) = [30].
Proof.
  apply (int_to_slice_at_length [10; 20; 30] 30). reflexivity.
Defined.

End SlicingFacts.

(** ** What an append leaves alone, and what it leaves behind when it fails *)

Module PdbAppendFacts.
Import PdbShape PdbShapeFacts.

Section WithCell.

Variable V : Type.
Variable fillvalue : V.

Local Abbreviation Array := (Array V).
Local Abbreviation on_dataset := (on_dataset V).
Local Abbreviation for_items := (for_items V).
Local Abbreviation reshape_one := (reshape_one V fillvalue).
Local Abbreviation append_one := (append_one V).
Local Abbreviation appended_shape := (appended_shape V).
Local Abbreviation update_pdb_shape := (update_pdb_shape V fillvalue).
Local Abbreviation append_pdb_values := (append_pdb_values V fillvalue).
Local Abbreviation fits := (fits V).

Implicit Types (group : gmap string Array) (items pdb pre post : list (string * Array)).
Implicit Types (body : string * Array -> gmap string Array ->
                       Exc unit * gmap string Array).

(** A loop over two lists of items runs the second one on what the first
    one leaves, unless the first one raises. *)
Lemma for_items_app body pre post : forall group,
  for_items body (pre ++ post) group =
  match for_items body pre group with
  | (Ret _, group') => for_items body post group'
  | (Raise e, group') => (Raise e, group')
  end.
Proof.
  induction pre as [|item pre IH]; intros group; [reflexivity|].
  simpl. destruct (body item group) as [[[]|e] group']; [apply IH|reflexivity].
Qed.

Lemma fits_app group pre post :
  fits group (pre ++ post) -> fits group pre /\ fits group post.
Proof. unfold PdbShape.fits. apply Forall_app. Qed.

(** X5. Neither [update_pdb_shape] nor [append_pdb_values] touches a dataset
    of the group that the container does not name, whether the call returns
    or raises. *)
Theorem append_pdb_values_frame group pdb (name : string) :
  name ∉ pdb.*1 ->
  (update_pdb_shape group pdb).2 !! name = group !! name /\
  (append_pdb_values group pdb).2 !! name = group !! name.
Proof.
  intros Hnot.
  assert (Hshape : (update_pdb_shape group pdb).2 !! name = group !! name).
  { apply for_items_other, Hnot. }
  split; [exact Hshape|].
  unfold PdbShape.append_pdb_values.
  destruct (PdbShape.update_pdb_shape V fillvalue group pdb) as [[[]|e] g1];
    simpl in *; [|exact Hshape].
  rewrite for_items_other by exact Hnot. exact Hshape.
Qed.

(** The cells that the first loop adds to a dataset hold the fill value. *)
Lemma reshape_one_fill (d ar : Array) (r c : nat) :
  ndim d = ndim ar -> wf_array d ->
  (len d <= r < len d + len ar)%nat ->
  (forall w, shape (reshape_one d ar).2 !! 1%nat = Some w -> (c < w)%nat) ->
  (ndim d = 1%nat -> c = 0%nat) ->
  cell (reshape_one d ar).2 r c = Some fillvalue.
Proof.
  intros Hrank Hwf Hr Hc Hc1.
  destruct d as [vals|w rows], ar as [new|j new]; try discriminate Hrank;
    simpl in *.
  - rewrite (Hc1 eq_refl). case_decide; [|congruence].
    rewrite lookup_resize_new; [reflexivity|lia|lia].
  - specialize (Hc (Nat.max w j) eq_refl).
    rewrite lookup_resize_new; [|rewrite length_fmap; lia|lia]. simpl.
    apply lookup_replicate_2. exact Hc.
Qed.

(** X6. When the group lacks the dataset of one array of the container, the
    append raises [KeyError] for that name and is not undone: every dataset
    named before it in the container has already been grown by the rows of
    its array, which hold the fill value instead of the content of the
    array, above what was stored before. *)
Theorem append_pdb_values_missing_name group pre post (name : string)
    (ar : Array) :
  NoDup (pre ++ (name, ar) :: post).*1 -> fits group pre ->
  group !! name = None ->
  let out := append_pdb_values group (pre ++ (name, ar) :: post) in
  out.1 = Raise (KeyError name) /\
  forall n a d, (n, a) ∈ pre -> group !! n = Some d ->
    exists d', out.2 !! n = Some d' /\
      shape d' = appended_shape d a /\
      (forall r c v, cell d r c = Some v -> cell d' r c = Some v) /\
      (forall r c, (len d <= r < len d + len a)%nat ->
                   (forall w, shape d' !! 1%nat = Some w -> (c < w)%nat) ->
                   (ndim d = 1%nat -> c = 0%nat) ->
                   cell d' r c = Some fillvalue).
Proof.
  intros Hnd Hfits Hnone out.
  rewrite fmap_app, fmap_cons in Hnd. simpl in Hnd.
  apply NoDup_app in Hnd as (Hndpre & Hdisj & Hndpost).
  assert (Hfresh : name ∉ pre.*1).
  { intros Hin. apply (Hdisj name Hin). apply list_elem_of_here. }
  destruct (update_pdb_shape_spec V fillvalue group pre Hndpre Hfits) as [Hret Hg1].
  assert (Hout : out = (Raise (KeyError name), (update_pdb_shape group pre).2)).
  { subst out. unfold PdbShape.append_pdb_values, PdbShape.update_pdb_shape.
    rewrite for_items_app.
    pose proof (for_items_other V (PdbShape.reshape_one V fillvalue) pre group
                  name Hfresh) as Hsame.
    unfold PdbShape.update_pdb_shape in Hret.
    destruct (PdbShape.for_items V (PdbShape.on_dataset V (PdbShape.reshape_one V fillvalue))
                pre group) as [[[]|e] g1]; simpl in Hret, Hsame; [|discriminate].
    simpl. unfold PdbShape.on_dataset at 1. simpl.
    rewrite Hsame, Hnone. reflexivity. }
  rewrite Hout. simpl. split; [reflexivity|].
  intros n a d Hin Hd.
  unfold PdbShape.fits in Hfits. rewrite Forall_forall in Hfits.
  destruct (Hfits (n, a) Hin) as (d0 & Hd0 & Hrank & Hwf & _).
  simpl in Hd0, Hrank. assert (d0 = d) by congruence. subst d0.
  destruct (reshape_one_spec V fillvalue d a Hrank Hwf)
    as (d' & Heq & Hshape & _ & _ & Hkeep).
  exists d'. rewrite (Hg1 n a d Hin Hd), Heq. simpl.
  split; [reflexivity|]. split; [exact Hshape|]. split; [exact Hkeep|].
  intros r c Hr Hc Hc1.
  pose proof (reshape_one_fill d a r c Hrank Hwf Hr) as Hfill.
  rewrite Heq in Hfill. simpl in Hfill. apply Hfill; assumption.
Qed.

(** The second loop returns on the datasets that the first loop has grown
    for arrays that are not empty. *)
Lemma append_loop_returns group g1 pre :
  NoDup pre.*1 -> fits group pre ->
  (forall name ar d, (name, ar) ∈ pre -> group !! name = Some d ->
     g1 !! name = Some (reshape_one d ar).2) ->
  Forall (fun item : string * Array => (0 < len item.2)%nat) pre ->
  (for_items (on_dataset append_one) pre g1).1 = Ret tt.
Proof.
  intros Hnd Hfits Hg1 Hpos.
  apply for_items_returns; [exact Hnd|].
  unfold PdbShape.fits in Hfits. rewrite Forall_forall in Hfits, Hpos |- *.
  intros item Hitem.
  destruct (Hfits item Hitem) as (d & Hd & Hrank & Hwf & Hwfa).
  destruct (reshape_one_spec V fillvalue d item.2 Hrank Hwf)
    as (d1 & Hd1 & Hshape & Hwf1 & Hrank1 & _).
  destruct (appended_shape_len V d item.2 d1 Hrank Hshape) as [Hlen Hwide].
  exists d1. split.
  - destruct item as [n a]. simpl in *. rewrite (Hg1 n a d Hitem Hd), Hd1. reflexivity.
  - destruct (append_one_spec V d1 item.2 (len d) Hrank1 Hwf1 Hwfa Hlen Hwide)
      as (_ & _ & _ & Hret).
    apply Hret, Hpos, Hitem.
Qed.

(** [dataset[-0:] = ar] selects the whole dataset, to which an array with
    no row cannot be broadcast: the pass raises and leaves the dataset as
    it is. *)
Lemma append_one_empty (d1 ar : Array) :
  ndim d1 = ndim ar -> len ar = 0%nat -> (0 < len d1)%nat ->
  (forall w j, shape d1 !! 1%nat = Some w -> shape ar !! 1%nat = Some j ->
               (0 < j <= w)%nat) ->
  append_one d1 ar = (Raise (TypeError "Can't broadcast"), d1).
Proof.
  intros Hrank Hlen Hpos Hwide.
  destruct d1 as [vals|w rows], ar as [new|j new]; try discriminate Hrank;
    simpl in Hlen, Hpos.
  - unfold PdbShape.append_one, tail_start. rewrite Hlen.
    repeat case_decide; first [reflexivity | exfalso; lia].
  - specialize (Hwide w j eq_refl eq_refl).
    unfold PdbShape.append_one, tail_start. rewrite Hlen.
    rewrite Nat.min_l by lia.
    repeat case_decide; first [reflexivity | exfalso; nia].
Qed.

Lemma cell_row (d : Array) (r c : nat) (v : V) :
  cell d r c = Some v -> (r < len d)%nat.
Proof.
  destruct d as [vals|w rows]; simpl; intros Hc.
  - case_decide; [|discriminate]. apply lookup_lt_Some in Hc. exact Hc.
  - destruct (rows !! r) eqn:Hrow; [|discriminate].
    apply lookup_lt_Some in Hrow. exact Hrow.
Qed.

(** Both loops on one dataset: the shape is the appended one, the cells
    stored before stay, and the rows of the array stand behind them. *)
Lemma appended_one (d a : Array) :
  ndim d = ndim a -> wf_array d -> wf_array a ->
  let d' := (append_one (reshape_one d a).2 a).2 in
  shape d' = appended_shape d a /\
  (forall r c v, cell d r c = Some v -> cell d' r c = Some v) /\
  (forall r c v, cell a r c = Some v -> cell d' (len d + r)%nat c = Some v).
Proof.
  intros Hrank Hwf Hwfa d'. subst d'.
  destruct (reshape_one_spec V fillvalue d a Hrank Hwf)
    as (d1 & Hd1 & Hshape1 & Hwf1 & Hrank1 & Hkeep1).
  destruct (appended_shape_len V d a d1 Hrank Hshape1) as [Hlen1 Hwide1].
  rewrite Hd1. simpl.
  destruct (append_one_spec V d1 a (len d) Hrank1 Hwf1 Hwfa Hlen1 Hwide1)
    as (Hshape2 & Hkeep2 & Hstored2 & _).
  split; [congruence|]. split; [|exact Hstored2].
  intros r c v Hc. rewrite Hkeep2; [apply Hkeep1, Hc|apply (cell_row d r c v Hc)].
Qed.

(** X7. Appending a container in which an array has no row, while its
    dataset in the group has rows (and, for rank 2, the array has columns),
    raises [TypeError]: the selection [-0:] is the whole dataset, not its
    empty tail. The arrays before it in the container, when none is empty,
    have been appended by then: their datasets have the appended shape,
    with the rows of the arrays behind what was stored. The dataset of
    the empty array has been reshaped, which leaves its cells where they
    were. *)
Theorem append_pdb_values_empty_array group pre post (name : string)
    (ar d : Array) :
  NoDup (pre ++ (name, ar) :: post).*1 ->
  fits group (pre ++ (name, ar) :: post) ->
  Forall (fun item : string * Array => (0 < len item.2)%nat) pre ->
  group !! name = Some d -> (0 < len d)%nat -> len ar = 0%nat ->
  (forall j, shape ar !! 1%nat = Some j -> (0 < j)%nat) ->
  let out := append_pdb_values group (pre ++ (name, ar) :: post) in
  out.1 = Raise (TypeError "Can't broadcast") /\
  (forall n a dn, (n, a) ∈ pre -> group !! n = Some dn ->
     exists d', out.2 !! n = Some d' /\
       shape d' = appended_shape dn a /\
       (forall r c v, cell dn r c = Some v -> cell d' r c = Some v) /\
       (forall r c v, cell a r c = Some v ->
                      cell d' (len dn + r)%nat c = Some v)) /\
  exists d', out.2 !! name = Some d' /\
    shape d' = appended_shape d ar /\
    (forall r c v, cell d r c = Some v -> cell d' r c = Some v).
Proof.
  intros Hnd Hfits Hpos Hd Hlen Hempty Hcols out.
  set (pdb := pre ++ (name, ar) :: post) in *.
  destruct (update_pdb_shape_spec V fillvalue group pdb Hnd Hfits) as [Hret Hg1].
  assert (Hin : (name, ar) ∈ pdb).
  { apply elem_of_app. right. apply list_elem_of_here. }
  assert (Hnd' := Hnd). subst pdb.
  rewrite fmap_app, fmap_cons in Hnd'. simpl in Hnd'.
  apply NoDup_app in Hnd' as (Hndpre & Hdisj & _).
  assert (Hfresh : name ∉ pre.*1).
  { intros Hin'. apply (Hdisj name Hin'). apply list_elem_of_here. }
  destruct (fits_app _ _ _ Hfits) as [Hfitspre Hfitsrest].
  apply Forall_cons in Hfitsrest as [(d0 & Hd0 & Hrank & Hwf & Hwfa) _].
  simpl in Hd0, Hrank, Hwfa. assert (d0 = d) by congruence. subst d0.
  destruct (reshape_one_spec V fillvalue d ar Hrank Hwf)
    as (d1 & Hd1 & Hshape & Hwf1 & Hrank1 & Hkeep).
  destruct (appended_shape_len V d ar d1 Hrank Hshape) as [Hlen1 Hwide].
  assert (Hraise : append_one d1 ar = (Raise (TypeError "Can't broadcast"), d1)).
  { apply append_one_empty; [exact Hrank1|exact Hempty|lia|].
    intros w j Hw Hj. split; [apply Hcols, Hj|apply (Hwide w j Hw Hj)]. }
  destruct (PdbShape.update_pdb_shape V fillvalue group
              (pre ++ (name, ar) :: post)) as [[[]|e] g1] eqn:Hups;
    simpl in Hret, Hg1; [|discriminate].
  assert (Hg1pre : forall n a dn, (n, a) ∈ pre -> group !! n = Some dn ->
                     g1 !! n = Some (reshape_one dn a).2).
  { intros n a dn Hna Hdn. apply (Hg1 n a dn); [|exact Hdn].
    apply elem_of_app. left. exact Hna. }
  pose proof (append_loop_returns group g1 pre Hndpre Hfitspre Hg1pre Hpos)
    as Hloop.
  pose proof (for_items_other V (PdbShape.append_one V) pre g1 name Hfresh) as Hsame.
  destruct (PdbShape.for_items V (PdbShape.on_dataset V (PdbShape.append_one V)) pre g1)
    as [[[]|e] g2] eqn:Hpre; simpl in Hloop, Hsame; [|discriminate].
  assert (Hout : out = (Raise (TypeError "Can't broadcast"), <[name := d1]> g2)).
  { subst out. unfold PdbShape.append_pdb_values. rewrite Hups.
    rewrite for_items_app, Hpre. simpl. unfold PdbShape.on_dataset at 1. simpl.
    rewrite Hsame, (Hg1 name ar d Hin Hd), Hd1. simpl. rewrite Hraise.
    reflexivity. }
  rewrite Hout. simpl.
  split; [reflexivity|]. split.
  - intros n a dn Hna Hdn.
    assert (Hne : n <> name).
    { intros ->. apply Hfresh. apply (list_elem_of_fmap_2 fst) in Hna. exact Hna. }
    rewrite lookup_insert_ne by congruence.
    unfold PdbShape.fits in Hfitspre. rewrite Forall_forall in Hfitspre.
    destruct (Hfitspre (n, a) Hna) as (dn0 & Hdn0 & Hrankn & Hwfn & Hwfan).
    simpl in Hdn0, Hrankn, Hwfan. assert (dn0 = dn) by congruence. subst dn0.
    destruct (for_items_member V (PdbShape.append_one V) pre g1 n a
                (reshape_one dn a).2 Hndpre Hna (Hg1pre n a dn Hna Hdn))
      as [Hdone|[_ [e He]]].
    + rewrite Hpre in Hdone. simpl in Hdone.
      exists (append_one (reshape_one dn a).2 a).2. split; [exact Hdone|].
      apply (appended_one dn a Hrankn Hwfn Hwfan).
    + rewrite Hpre in He. discriminate He.
  - exists d1. split; [apply lookup_insert_eq|]. split; [exact Hshape|exact Hkeep].
Qed.

End WithCell.

Lemma append_pdb_values_frame_witness :
  (PdbShape.update_pdb_shape nat 0%nat demo_group
     [("atoms", Ar2 3 [[7; 8; 9]]%nat)]).2 !! "atom_count" =
  demo_group !! "atom_count" /\
  (PdbShape.append_pdb_values nat 0%nat demo_group
     [("atoms", Ar2 3 [[7; 8; 9]]%nat)]).2 !! "atom_count" =
  demo_group !! "atom_count".
Proof.
  apply (append_pdb_values_frame nat 0%nat demo_group
           [("atoms", Ar2 3 [[7; 8; 9]]%nat)] "atom_count").
  apply (bool_decide_unpack _). vm_compute. exact I.
Defined.

Lemma append_pdb_values_missing_name_witness :
  let out := PdbShape.append_pdb_values nat 0%nat demo_group
               ([("atoms", Ar2 3 [[7; 8; 9]]%nat)] ++
                ("bonds", Ar1 [1]%nat) :: [("atom_count", Ar1 [3]%nat)]) in
  out.1 = Raise (KeyError "bonds") /\
  forall n a d, (n, a) ∈ [("atoms", Ar2 3 [[7; 8; 9]]%nat)] ->
    demo_group !! n = Some d ->
    exists d', out.2 !! n = Some d' /\
      shape d' = PdbShape.appended_shape nat d a /\
      (forall r c v, cell d r c = Some v -> cell d' r c = Some v) /\
      (forall r c, (len d <= r < len d + len a)%nat ->
                   (forall w, shape d' !! 1%nat = Some w -> (c < w)%nat) ->
                   (ndim d = 1%nat -> c = 0%nat) ->
                   cell d' r c = Some 0%nat).
Proof.
  apply (append_pdb_values_missing_name nat 0%nat demo_group
           [("atoms", Ar2 3 [[7; 8; 9]]%nat)] [("atom_count", Ar1 [3]%nat)]
           "bonds" (Ar1 [1]%nat)).
  - apply (bool_decide_unpack _). vm_compute. exact I.
  - repeat constructor.
    exists (Ar2 2 [[1; 2]; [3; 4]]%nat). repeat split; repeat constructor.
  - reflexivity.
Defined.

Lemma append_pdb_values_empty_array_witness :
  let out := PdbShape.append_pdb_values nat 0%nat demo_group
               ([("atoms", Ar2 3 [[7; 8; 9]]%nat)] ++
                ("atom_count", Ar1 []) :: []) in
  out.1 = Raise (TypeError "Can't broadcast") /\
  out.2 !! "atoms" = Some (Ar2 3 [[1; 2; 0]; [3; 4; 0]; [7; 8; 9]]%nat) /\
  out.2 !! "atom_count" = Some (Ar1 [2; 2]%nat).
Proof.
  destruct (append_pdb_values_empty_array nat 0%nat demo_group
              [("atoms", Ar2 3 [[7; 8; 9]]%nat)] [] "atom_count" (Ar1 [])
              (Ar1 [2; 2]%nat)) as (Hraise & _ & _).
  - apply (bool_decide_unpack _). vm_compute. exact I.
  - repeat constructor.
    + exists (Ar2 2 [[1; 2]; [3; 4]]%nat). repeat split; repeat constructor.
    + exists (Ar1 [2; 2]%nat). repeat split; repeat constructor.
  - repeat constructor.
  - reflexivity.
  - simpl. lia.
  - reflexivity.
  - intros j Hj. discriminate Hj.
  - split; [exact Hraise|]. split; vm_compute; reflexivity.
Defined.

End PdbAppendFacts.

(** ** What the document mirror does for every batch *)

Module MongoMirrorFacts.
Import Mongo MongoFacts.

Section WithDocuments.

Variable Key : Type.
Context `{EqDecision Key}.
Variable Body : Type.

Local Abbreviation Doc := (Doc Key Body).
Local Abbreviation Collection := (Collection Key Body).

Implicit Types (c : Collection) (rows : list Doc) (item : Doc).

(** The ordered bulk write inserts the rows up to the first one whose key
    the collection holds by then, and stops there. *)
Lemma bulk_insert_prefix rows : forall c,
  exists k : nat,
    (bulk_insert Key Body c rows).2 = c ++ take k rows /\
    (((bulk_insert Key Body c rows).1 = Ret tt /\ k = length rows) \/
     ((bulk_insert Key Body c rows).1 = Raise DuplicateKeyError /\
      exists item, rows !! k = Some item /\ item.1 ∈ (c ++ take k rows).*1)).
Proof.
  induction rows as [|item rows IH]; intros c.
  - exists 0%nat. simpl. rewrite app_nil_r. split; [reflexivity|].
    left. split; reflexivity.
  - simpl. unfold insert_one. destruct (has_key Key Body c item.1) eqn:Hhas.
    + exists 0%nat. simpl. rewrite app_nil_r. split; [reflexivity|].
      right. split; [reflexivity|]. exists item. split; [reflexivity|].
      apply bool_decide_eq_true in Hhas. exact Hhas.
    + destruct (IH (c ++ [item])) as (k & Hk & Hcase).
      exists (S k). simpl. rewrite Hk, <- app_assoc. split; [reflexivity|].
      destruct Hcase as [[Hret ->]|[Hraise (dup & Hdup & Hin)]].
      * left. split; [exact Hret|reflexivity].
      * right. split; [exact Hraise|]. exists dup. split; [exact Hdup|].
        rewrite <- app_assoc in Hin. exact Hin.
Qed.

(** X8. The [overwrite] flag has no effect on what [update_mongodb] does to
    the collection or on what it returns: the loop that would look at it
    is not reached, and would run over the generator that [insert_many]
    has used up. *)
Theorem update_mongodb_ignores_overwrite c rows :
  update_mongodb Key Body c rows true = update_mongodb Key Body c rows false.
Proof.
  unfold update_mongodb.
  pose proof (insert_many_not_duplicate Key Body c
                (df_to_mongo_dict Key Body rows)) as Hnot.
  destruct (insert_many Key Body c (df_to_mongo_dict Key Body rows))
    as [[[[]|e] c'] dict_gen']; [reflexivity|].
  destruct e; try reflexivity. destruct Hnot. reflexivity.
Qed.

(** A batch that is not empty: the rows up to the first duplicate key go
    behind what the collection held; the call returns when there is no
    duplicate, and raises [BulkWriteError] when there is one. *)
Lemma update_mongodb_appends_prefix_aux c rows (overwrite : bool) :
  rows <> [] ->
  exists k : nat,
    (k <= length rows)%nat /\
    update_mongodb Key Body c rows overwrite =
    (if (k <? length rows)%nat then Raise BulkWriteError else Ret tt,
     c ++ take k rows) /\
    ((k < length rows)%nat ->
     exists item, rows !! k = Some item /\ item.1 ∈ (c ++ take k rows).*1).
Proof.
  intros Hne.
  destruct (bulk_insert_prefix rows c) as (k & Hk & Hcase).
  exists k.
  destruct Hcase as [[Hret ->]|[Hraise Hdup]].
  - split; [lia|]. rewrite Nat.ltb_irrefl. split; [|lia].
    unfold update_mongodb, insert_many, df_to_mongo_dict.
    destruct rows as [|item rows]; [congruence|].
    destruct (bulk_insert Key Body c (item :: rows)) as [r c'].
    simpl in Hk, Hret. subst r c'. reflexivity.
  - assert (Hlt : (k < length rows)%nat).
    { destruct Hdup as (item & Hitem & _).
      apply lookup_lt_Some in Hitem. exact Hitem. }
    split; [lia|]. apply Nat.ltb_lt in Hlt as Hltb. rewrite Hltb.
    split; [|intros _; exact Hdup].
    rewrite (update_mongodb_after_duplicate Key Body c rows overwrite _ Hraise).
    rewrite Hk. reflexivity.
Qed.


(** X10. When no key of the batch is in the collection and no two rows of
    the batch share a key, every row is inserted, in the order of the
    batch. *)
Theorem update_mongodb_inserts_all c rows (overwrite : bool) :
  rows <> [] -> NoDup rows.*1 -> (forall k, k ∈ rows.*1 -> k ∉ c.*1) ->
  update_mongodb Key Body c rows overwrite = (Ret tt, c ++ rows).
Proof.
  intros Hne Hnd Hfresh.
  destruct (update_mongodb_appends_prefix_aux c rows overwrite Hne)
    as (k & Hle & Heq & Hdup).
  rewrite Heq. destruct (decide (k < length rows)%nat) as [Hlt|Hge].
  - exfalso. destruct (Hdup Hlt) as (item & Hitem & Hin).
    rewrite fmap_app in Hin. apply elem_of_app in Hin as [Hin|Hin].
    + apply (Hfresh item.1); [|exact Hin].
      apply list_elem_of_fmap_2, (list_elem_of_lookup_2 _ k), Hitem.
    + rewrite <- (take_drop k rows) in Hnd. rewrite fmap_app in Hnd.
      apply NoDup_app in Hnd as (_ & Hdisj & _).
      apply (Hdisj item.1 Hin).
      apply list_elem_of_fmap_2, (list_elem_of_lookup_2 _ 0).
      rewrite lookup_drop, Nat.add_0_r. exact Hitem.
  - assert (Hgeb : (k <? length rows)%nat = false) by (apply Nat.ltb_ge; lia).
    rewrite Hgeb, take_ge by lia. reflexivity.
Qed.

End WithDocuments.

Lemma update_mongodb_inserts_all_witness :
  Mongo.update_mongodb string Z stored [("CC[O-]", 20); ("CCC[O-]", 30)] false =
  (Ret tt, stored ++ [("CC[O-]", 20); ("CCC[O-]", 30)]).
Proof.
  apply (update_mongodb_inserts_all string Z stored
           [("CC[O-]", 20); ("CCC[O-]", 30)] false).
  - discriminate.
  - apply (bool_decide_unpack _). vm_compute. exact I.
  - intros k Hk. apply (bool_decide_unpack _).
    apply elem_of_cons in Hk as [->|Hk]; [vm_compute; exact I|].
    apply elem_of_cons in Hk as [->|Hk]; [vm_compute; exact I|].
    inversion Hk.
Defined.

End MongoMirrorFacts.

(** ** The structural update and the property loop, beyond the claims *)

Module UpdateFacts.
Import PropDset PropDsetFacts Orchestrator OrchestratorFacts.

Lemma by_mask_all_false {A : Type} (n : nat) : forall cells : list A,
  by_mask (replicate n false) cells = [].
Proof.
  induction n as [|n IH]; intros [|x cells]; simpl; try reflexivity. apply IH.
Qed.

Lemma any_false_iff (values : list Z) :
  any values = false <-> Forall (fun z => z = 0) values.
Proof.
  unfold any. induction values as [|z values IH]; simpl.
  - split; [constructor|reflexivity].
  - rewrite orb_false_iff, IH, Forall_cons, negb_false_iff, Z.eqb_eq. reflexivity.
Qed.

Section WithMolecules.

Variable Mol : Type.
Variable keys : Keys.
Variable to_rows : Mol -> Exc (string -> Row).
Variable _update_hdf5_settings : DataFrame Mol -> string -> St File unit.
Variable levels_of_column : DataFrame Mol -> Exc (list string).

Local Abbreviation update_hdf5 := (update_hdf5 Mol keys to_rows).
Local Abbreviation _write_hdf5 := (_write_hdf5 Mol keys to_rows).
Local Abbreviation _overwrite_hdf5 := (_overwrite_hdf5 Mol keys to_rows).

Implicit Types (df : DataFrame Mol) (st : Store Mol).

(** Take apart the steps that work on the batch or on the group. *)
Ltac store_steps H :=
  st_inv H;
  repeat match goal with
  | Hs : on_df _ _ _ = (Ret _, _) |- _ =>
      let df' := fresh "df'" in let E := fresh "Hdf" in
      apply on_df_Ret in Hs as (df' & E & ->)
  | Hs : on_group _ _ _ = (Ret _, _) |- _ =>
      let g' := fresh "g'" in let E := fresh "Hgrp" in
      apply on_group_Ret in Hs as (g' & E & ->)
  end.

(** The mask that [from_df] builds when [df_bool] is [None] has every bit
    set. *)
Lemma mask_column_all_true df (n : string) (bits : list bool) :
  mask_column (all_true Mol df) n = Ret bits ->
  bits = replicate (length (df_index df)) true.
Proof.
  unfold all_true. induction (first_level (df_columns df)) as [|k l IH]; simpl.
  - discriminate.
  - case_decide; [|exact IH]. intros Hret. injection Hret as <-. reflexivity.
Qed.

(** X11. With the mask that [from_df] builds for [df_bool=None], in which
    every cell is authoritative, [overwrite] has no effect on the structural
    update: no row is "old", so that [_overwrite_hdf5] is never called and
    no stored structure is overwritten. *)
Theorem update_hdf5_all_true_ignores_overwrite df (status : option string) st :
  update_hdf5 (all_true Mol df) true status st =
  update_hdf5 (all_true Mol df) false status st.
Proof.
  unfold Orchestrator.update_hdf5, mbind, St_bind, lift, get.
  destruct (mask_column (all_true Mol df)
              (if bool_decide (status = Some "optimized")
               then HDF5_INDEX keys else OPT keys)) as [bits|e] eqn:Hbits;
    [|reflexivity].
  apply mask_column_all_true in Hbits. subst bits.
  destruct (int_column Mol (st_df st) (HDF5_INDEX keys)) as [positions|e];
    [|reflexivity].
  cbv beta iota zeta.
  assert (Hold : any (select (SelMask (invert (replicate (length (df_index df)) true)))
                        positions) = false).
  { unfold invert. rewrite fmap_replicate. simpl.
    rewrite by_mask_all_false. reflexivity. }
  rewrite Hold, andb_false_r. reflexivity.
Qed.

(** X12. [update_hdf5] writes new rows only when [new.any()] holds: when the
    rows that the mask picks all have the position 0 stored (or the mask
    picks no row), and [overwrite] is not set, the call returns and leaves
    both the batch and the group as they were. *)
Theorem update_hdf5_nothing_new (df_bool : MaskFrame) (status : option string)
    st (bits : list bool) (positions : list Z) :
  mask_column df_bool (if bool_decide (status = Some "optimized")
                       then HDF5_INDEX keys else OPT keys) = Ret bits ->
  int_column Mol (st_df st) (HDF5_INDEX keys) = Ret positions ->
  Forall (fun z => z = 0) (select (SelMask bits) positions) ->
  update_hdf5 df_bool false status st = (Ret tt, st).
Proof.
  intros Hbits Hpos Hzero. apply any_false_iff in Hzero.
  unfold Orchestrator.update_hdf5.
  unfold mbind at 1, St_bind at 1, lift at 1. rewrite Hbits. cbv beta iota.
  unfold mbind at 1, St_bind at 1, get at 1. cbv beta iota.
  unfold mbind at 1, St_bind at 1, lift at 1. rewrite Hpos. cbv beta iota zeta.
  rewrite Hzero. reflexivity.
Qed.


(** The steps of a call of [_overwrite_hdf5] that returned. *)
Lemma overwrite_hdf5_Ret (index : list nat) (hdf5_index : list Z) (opt : bool)
    st st' :
  _overwrite_hdf5 index hdf5_index opt st = (Ret tt, st') ->
  exists pdb rows g2 msg,
    from_molecules Mol keys to_rows
      (select (SelRows index) (df_mol (st_df st)))
      (select (SelRows index) (df_index (st_df st))) = Ret pdb /\
    map_exc as_position hdf5_index = Ret rows /\
    to_hdf5 pdb (IdxSeq rows) true (st_grp st) = (Ret tt, g2) /\
    struct_message keys g2 true = Ret msg /\
    st_grp st' =
      with_logger g2 (update_hdf5_log (grp_logger g2) hdf5_index msg) /\
    (if opt
     then set_cells Mol (st_df st) (OPT keys) index
            (replicate (length index) (Scalar (VBool true))) = Ret (st_df st')
     else st_df st' = st_df st).
Proof.
  intros H. unfold Orchestrator._overwrite_hdf5 in H. store_steps H.
  cbn [st_df st_grp] in *. st_inv Hgrp. destruct a1.
  exists a, a0, g'0, a2.
  repeat (split; [first [reflexivity|assumption]|]).
  destruct opt.
  - store_steps H. cbn [st_df st_grp] in *. split; [reflexivity|exact Hdf].
  - st_inv H. split; reflexivity.
Qed.



(** X26. A call of [_write_hdf5] for optimized structures that returns has
    set the [opt] cell of every row it wrote to [True] and left the [opt]
    cells of the other rows alone; a call that is not for optimized
    structures leaves the [opt] column as it was. *)
Theorem write_hdf5_marks_optimized (index : list nat) (opt : bool) st st' :
  OPT keys <> HDF5_INDEX keys ->
  wf_frame Mol (st_df st) -> NoDup index ->
  Forall (fun i => (i < length (df_index (st_df st)))%nat) index ->
  _write_hdf5 index opt st = (Ret tt, st') ->
  if opt then
    exists col0 col,
      column Mol (st_df st) (OPT keys) = Ret col0 /\
      column Mol (st_df st') (OPT keys) = Ret col /\
      select (SelRows index) (col_cells col) =
        replicate (length index) (Scalar (VBool true)) /\
      forall r, r ∉ index -> col_cells col !! r = col_cells col0 !! r
  else column Mol (st_df st') (OPT keys) = column Mol (st_df st) (OPT keys).
Proof.
  intros Hkeys [Hmol Hcols] Hnd Hrows H.
  destruct (write_hdf5_Ret _ _ _ _ _ _ _ H)
    as (atoms & df1 & pdb & g2 & msg & _ & Hset & _ & _ & _ & _ & Hdf).
  destruct (set_cells_spec _ _ _ _ _ _ Hset)
    as (colp & _ & _ & Hother & _ & _).
  destruct opt.
  - destruct (set_cells_spec _ _ _ _ _ _ Hdf)
      as (col1 & Hcol1 & Hcol' & _ & _ & _).
    rewrite (Hother (OPT keys) Hkeys) in Hcol1.
    eexists col1, _. split; [exact Hcol1|]. split; [exact Hcol'|].
    cbn [col_cells]. split.
    + apply select_rows_written; [exact Hnd|apply length_replicate|].
      destruct (find_column_name _ _ _ Hcol1) as [_ Hin].
      rewrite Forall_forall in Hcols. rewrite (Hcols col1 Hin). exact Hrows.
    + intros r Hr. apply write_rows_other, Hr.
  - rewrite Hdf. apply Hother, Hkeys.
Qed.

(** ** The job settings *)

Lemma settings_labels_all (columns : ColumnIndex) :
  Forall (fun l => l = "settings") (settings_labels columns).
Proof.
  destruct columns as [labels|n tuples]; simpl; [constructor|].
  induction tuples as [|t tuples IH]; simpl; [constructor|].
  destruct t as [|i t]; [exact IH|].
  case_decide; [|exact IH]. constructor; [congruence|exact IH].
Qed.

Lemma remove_dups_all_eq (x : string) (l : list string) :
  Forall (fun y => y = x) l ->
  remove_dups l = match l with [] => [] | _ => [x] end.
Proof.
  induction l as [|y l IH]; intros Hall; [reflexivity|].
  apply Forall_cons in Hall as [-> Hall]. simpl.
  rewrite (IH Hall). destruct l as [|z l].
  - case_decide as Hin; [inversion Hin|reflexivity].
  - apply Forall_cons in Hall as [-> _].
    case_decide as Hin; [reflexivity|]. exfalso. apply Hin, list_elem_of_here.
Qed.

(** X14. However many columns of the batch carry the first-level label
    ['settings'], [_update_job_settings] as [from_df] calls it makes one
    pass: [_update_hdf5_settings] is called once for the name ['settings']
    and the column is deleted from the batch once. Without such a column
    it does nothing. *)
Theorem update_job_settings_once (columns : ColumnIndex)
    (w : DataFrame Mol * File) :
  _update_job_settings Mol _update_hdf5_settings (settings_labels columns) w =
  match settings_labels columns with
  | [] => (Ret tt, w)
  | _ :: _ =>
      match _update_hdf5_settings w.1 "settings" w.2 with
      | (Raise e, f') => (Raise e, (w.1, f'))
      | (Ret _, f') =>
          match del_column Mol w.1 "settings" with
          | Ret df' => (Ret tt, (df', f'))
          | Raise e => (Raise e, (w.1, f'))
          end
      end
  end.
Proof.
  unfold Orchestrator._update_job_settings.
  rewrite (remove_dups_all_eq "settings" _ (settings_labels_all columns)).
  destruct (settings_labels columns) as [|l ls]; [reflexivity|].
  simpl. unfold mbind, St_bind, update_job_setting.
  destruct (_update_hdf5_settings w.1 "settings" w.2) as [[[]|e] f'];
    [|reflexivity].
  destruct (del_column Mol w.1 "settings"); reflexivity.
Qed.


(** ** [from_df] as a whole *)

Local Abbreviation _update_properties :=
  (_update_properties Mol keys levels_of_column).
Local Abbreviation from_df :=
  (from_df Mol keys to_rows _update_hdf5_settings levels_of_column).

(** X17. When the ten opens of the probe that [from_df] runs first all
    fail, [from_df] raises the [OSError] of the tenth, after ten opens,
    warnings and sleeps of 5 seconds, and has touched neither the batch nor
    the file. *)
Theorem from_df_probe_exhausted (file_status : nat -> Probe.OpenResult)
    (fuel : nat) (df : DataFrame Mol) (df_bool : option MaskFrame)
    (name : string) (columns : option ColumnIndex) (overwrite : bool)
    (status : option string) (f : File) :
  length (index_levels (default (df_columns df) columns)) = 2%nat ->
  Probe.all_fail file_status 0 10 -> (10 <= fuel)%nat ->
  from_df file_status fuel df df_bool name columns overwrite status f =
  Some (Raise (OSError (Probe.errno_of (file_status 9%nat))), df, f,
        Probe.failed_passes Z file_status 5 0 10).
Proof.
  intros Hlevels Hfail Hfuel. unfold Orchestrator.from_df.
  rewrite Hlevels. simpl negb. cbv iota.
  unfold Probe.hdf5_availability. simpl Probe.counter_of.
  change (Probe.le_zero (Probe.Fin 10)) with false. cbv iota.
  change (Probe.Fin 10) with (Probe.Fin (Z.of_nat 10)).
  rewrite (ProbeFacts.retry_exhausted Z file_status 5 10 fuel 0%nat None []
             Hfail Hfuel).
  reflexivity.
Qed.

(** X18. When the file can be opened but has no group of the given name,
    [from_df] raises [KeyError] for the name after the open of the probe
    and its own, and has touched neither the batch nor the file. *)
Theorem from_df_missing_group (file_status : nat -> Probe.OpenResult)
    (fuel : nat) (df : DataFrame Mol) (df_bool : option MaskFrame)
    (name : string) (columns : option ColumnIndex) (overwrite : bool)
    (status : option string) (f : File) :
  length (index_levels (default (df_columns df) columns)) = 2%nat ->
  file_status 0%nat = Probe.Opened -> file_status 1%nat = Probe.Opened ->
  (0 < fuel)%nat -> f !! name = None ->
  from_df file_status fuel df df_bool name columns overwrite status f =
  Some (Raise (KeyError name), df, f, [Probe.EvOpen 0; Probe.EvOpen 1]).
Proof.
  intros Hlevels H0 H1 Hfuel Hnone. unfold Orchestrator.from_df.
  rewrite Hlevels. simpl negb. cbv iota.
  unfold Probe.hdf5_availability. simpl Probe.counter_of.
  change (Probe.le_zero (Probe.Fin 10)) with false. cbv iota.
  destruct fuel as [|fuel]; [lia|].
  cbn [Probe.retry]. change (Probe.truthy (Probe.Fin 10)) with true. cbv iota.
  rewrite H0. simpl count_opens. rewrite H1.
  unfold mbind at 1, St_bind at 1, on_file_group at 1. simpl.
  rewrite Hnone. reflexivity.
Qed.

Lemma overwrite_hdf5_columns (index : list nat) (hdf5_index : list Z)
    (opt : bool) st st' :
  _overwrite_hdf5 index hdf5_index opt st = (Ret tt, st') ->
  df_columns (st_df st') = df_columns (st_df st).
Proof.
  intros H.
  destruct (overwrite_hdf5_Ret _ _ _ _ _ H)
    as (pdb & rows & g2 & msg & _ & _ & _ & _ & _ & Hdf).
  destruct opt.
  - apply set_cells_columns in Hdf. exact Hdf.
  - congruence.
Qed.

(** The structural update leaves the column labels of the batch alone. *)
Lemma update_hdf5_columns (df_bool : MaskFrame) (overwrite : bool)
    (status : option string) st st' :
  update_hdf5 df_bool overwrite status st = (Ret tt, st') ->
  df_columns (st_df st') = df_columns (st_df st).
Proof.
  intros H. unfold Orchestrator.update_hdf5 in H.
  apply St_bind_Ret in H as (bits & s0 & Hbits & H).
  apply lift_Ret in Hbits as [_ ->].
  apply St_bind_Ret in H as (s1 & s2 & Hget & H).
  apply get_Ret in Hget as [-> ->].
  apply St_bind_Ret in H as (positions & s3 & Hpos & H).
  apply lift_Ret in Hpos as [_ ->].
  cbv zeta in H.
  apply St_bind_Ret in H as (u & s4 & Hnew & Hold). destruct u.
  assert (Hs4 : df_columns (st_df s4) = df_columns (st_df st)).
  { destruct (any (select (SelMask bits) positions)).
    - apply write_hdf5_columns in Hnew. exact Hnew.
    - apply mret_Ret in Hnew as [_ ->]. reflexivity. }
  destruct (overwrite && any (select (SelMask (invert bits)) positions)).
  - apply overwrite_hdf5_columns in Hold. congruence.
  - apply mret_Ret in Hold as [_ ->]. exact Hs4.
Qed.

(** ** What a call leaves of the property datasets, however it ends *)

(** A relation between the states before and after that every step keeps
    is kept by their sequence and by a loop. *)
Lemma bind_keeps {S A B : Type} (P : S -> S -> Prop)
    (m : St S A) (k : A -> St S B) :
  (forall s1 s2 s3, P s1 s2 -> P s2 s3 -> P s1 s3) ->
  (forall s r s', m s = (r, s') -> P s s') ->
  (forall a s r s', k a s = (r, s') -> P s s') ->
  forall s r s', (m ≫= k) s = (r, s') -> P s s'.
Proof.
  intros Htrans Hm Hk s r s' H. unfold mbind, St_bind in H.
  destruct (m s) as [[a|e] s1] eqn:Hms.
  - apply (Htrans s s1 s'); [apply (Hm _ _ _ Hms)|apply (Hk _ _ _ _ H)].
  - injection H as _ <-. apply (Hm _ _ _ Hms).
Qed.

Lemma for_each_keeps {S A : Type} (P : S -> S -> Prop)
    (body : A -> St S unit) (l : list A) :
  (forall s, P s s) ->
  (forall s1 s2 s3, P s1 s2 -> P s2 s3 -> P s1 s3) ->
  (forall x s r s', body x s = (r, s') -> P s s') ->
  forall s r s', for_each body l s = (r, s') -> P s s'.
Proof.
  intros Hrefl Htrans Hbody. induction l as [|x l IH]; intros s r s' H.
  - injection H as _ <-. apply Hrefl.
  - simpl in H. revert s r s' H. apply bind_keeps; [exact Htrans| |].
    + apply Hbody.
    + intros _. exact IH.
Qed.

Lemma store_array_props (index : IndexLike) (item : string * list Row)
    (g : Group) (r : Exc unit) (g' : Group) :
  store_array index item g = (r, g') -> grp_props g' = grp_props g.
Proof.
  unfold store_array, mbind, St_bind, get, lift, put.
  destruct (lookup_struct g item.1) as [d|e]; [|intros [= _ <-]; reflexivity].
  destruct (update_prop_dset _ d item.2 (py_index index)) as [d'|e];
    intros [= _ <-]; reflexivity.
Qed.

(** [to_hdf5] leaves the property datasets alone, whether it returns or
    raises. *)
Lemma to_hdf5_props (pdb : PDBContainer) (index : IndexLike)
    (update_scale : bool) (g : Group) (r : Exc unit) (g' : Group) :
  to_hdf5 pdb index update_scale g = (r, g') -> grp_props g' = grp_props g.
Proof.
  unfold to_hdf5. revert g r g'.
  apply (bind_keeps (fun g g' => grp_props g' = grp_props g)).
  - intros g1 g2 g3 H12 H23. congruence.
  - intros g r g'. destruct update_scale.
    + unfold mbind, St_bind, get, lift, put.
      destruct (update_prop_dset _ _ _ _); intros [= _ <-]; reflexivity.
    + intros [= _ <-]. reflexivity.
  - intros _. apply for_each_keeps.
    + reflexivity.
    + intros g1 g2 g3 H12 H23. congruence.
    + intros item g r g'. apply store_array_props.
Qed.

Lemma on_df_props (h : DataFrame Mol -> Exc (DataFrame Mol)) st
    (r : Exc unit) st' :
  on_df Mol h st = (r, st') -> st_grp st' = st_grp st.
Proof.
  unfold on_df. destruct (h (st_df st)); intros [= _ <-]; reflexivity.
Qed.

Lemma on_group_props {A : Type} (m : St Group A) st (r : Exc A) st' :
  (forall g r g', m g = (r, g') -> grp_props g' = grp_props g) ->
  on_group Mol m st = (r, st') ->
  grp_props (st_grp st') = grp_props (st_grp st).
Proof.
  intros Hm. unfold on_group. destruct (m (st_grp st)) as [r0 g'] eqn:Hg.
  intros [= _ <-]. apply (Hm _ _ _ Hg).
Qed.

Lemma log_props (index : list Z) (message : string) (g : Group)
    (r : Exc unit) (g' : Group) :
  (get ≫= fun group : Group =>
   put (with_logger group (update_hdf5_log (grp_logger group) index message))) g
  = (r, g') ->
  grp_props g' = grp_props g.
Proof. intros [= _ <-]. reflexivity. Qed.

(** Take a sequence of steps on the store apart, step by step. *)
Ltac keeps_props :=
  repeat first
    [ apply bind_keeps;
      [ intros ? ? ? ? ?; congruence | | intros ? ]
    | intros ? ? ? [= _ <-]; reflexivity ].

Lemma set_opt_props (opt : bool) (index : list nat) st (r : Exc unit) st' :
  (if opt then
     on_df Mol (fun df => set_cells Mol df (OPT keys) index
                            (replicate (length index) (Scalar (VBool true))))
   else mret tt) st = (r, st') ->
  grp_props (st_grp st') = grp_props (st_grp st).
Proof.
  destruct opt.
  - intros H. apply on_df_props in H. rewrite H. reflexivity.
  - intros [= _ <-]. reflexivity.
Qed.

Lemma write_hdf5_props (index : list nat) (opt : bool) st (r : Exc unit) st' :
  _write_hdf5 index opt st = (r, st') ->
  grp_props (st_grp st') = grp_props (st_grp st).
Proof.
  revert st r st'. unfold Orchestrator._write_hdf5.
  apply bind_keeps; [intros ? ? ? ? ?; congruence| |intros st0].
  { intros ? ? ? [= _ <-]. reflexivity. }
  apply bind_keeps; [intros ? ? ? ? ?; congruence| |intros atoms].
  { intros ? ? ? [= _ <-]. reflexivity. }
  apply bind_keeps; [intros ? ? ? ? ?; congruence| |intros _].
  { intros st r st' H. apply on_df_props in H. rewrite H. reflexivity. }
  apply bind_keeps; [intros ? ? ? ? ?; congruence| |intros pdb].
  { intros ? ? ? [= _ <-]. reflexivity. }
  apply bind_keeps; [intros ? ? ? ? ?; congruence| |intros _].
  { intros st r st'. apply on_group_props. apply to_hdf5_props. }
  apply bind_keeps; [intros ? ? ? ? ?; congruence| |intros st1].
  { intros ? ? ? [= _ <-]. reflexivity. }
  apply bind_keeps; [intros ? ? ? ? ?; congruence| |intros message].
  { intros ? ? ? [= _ <-]. reflexivity. }
  apply bind_keeps; [intros ? ? ? ? ?; congruence| |intros _].
  { intros st r st'. apply on_group_props. apply log_props. }
  intros st r st'. apply set_opt_props.
Qed.

Lemma overwrite_hdf5_props (index : list nat) (hdf5_index : list Z)
    (opt : bool) st (r : Exc unit) st' :
  _overwrite_hdf5 index hdf5_index opt st = (r, st') ->
  grp_props (st_grp st') = grp_props (st_grp st).
Proof.
  revert st r st'. unfold Orchestrator._overwrite_hdf5.
  apply bind_keeps; [intros ? ? ? ? ?; congruence| |intros st0].
  { intros ? ? ? [= _ <-]. reflexivity. }
  apply bind_keeps; [intros ? ? ? ? ?; congruence| |intros pdb].
  { intros ? ? ? [= _ <-]. reflexivity. }
  apply bind_keeps; [intros ? ? ? ? ?; congruence| |intros rows].
  { intros ? ? ? [= _ <-]. reflexivity. }
  apply bind_keeps; [intros ? ? ? ? ?; congruence| |intros _].
  { intros st r st'. apply on_group_props. apply to_hdf5_props. }
  apply bind_keeps; [intros ? ? ? ? ?; congruence| |intros st1].
  { intros ? ? ? [= _ <-]. reflexivity. }
  apply bind_keeps; [intros ? ? ? ? ?; congruence| |intros message].
  { intros ? ? ? [= _ <-]. reflexivity. }
  apply bind_keeps; [intros ? ? ? ? ?; congruence| |intros _].
  { intros st r st'. apply on_group_props. apply log_props. }
  intros st r st'. apply set_opt_props.
Qed.

(** The structural update leaves the property datasets alone, whether it
    returns or raises. *)
Lemma update_hdf5_props (df_bool : MaskFrame) (overwrite : bool)
    (status : option string) st (r : Exc unit) st' :
  update_hdf5 df_bool overwrite status st = (r, st') ->
  grp_props (st_grp st') = grp_props (st_grp st).
Proof.
  revert st r st'. unfold Orchestrator.update_hdf5.
  apply bind_keeps; [intros ? ? ? ? ?; congruence| |intros bits].
  { intros ? ? ? [= _ <-]. reflexivity. }
  apply bind_keeps; [intros ? ? ? ? ?; congruence| |intros st0].
  { intros ? ? ? [= _ <-]. reflexivity. }
  apply bind_keeps; [intros ? ? ? ? ?; congruence| |intros positions].
  { intros ? ? ? [= _ <-]. reflexivity. }
  cbv zeta.
  apply bind_keeps; [intros ? ? ? ? ?; congruence| |intros _].
  { intros st r st'. destruct (any _).
    - apply write_hdf5_props.
    - intros [= _ <-]. reflexivity. }
  intros st r st'. destruct (overwrite && any _).
  - apply overwrite_hdf5_props.
  - intros [= _ <-]. reflexivity.
Qed.

(** The structural update and the property loop after it: for a batch
    without a column labelled [levels] the two never return, and leave the
    property datasets as they were. *)
Lemma update_then_properties (df_bool : MaskFrame) (columns : ColumnIndex)
    (overwrite : bool) (status : option string) st :
  holds_name (df_columns (st_df st)) "levels" = false ->
  exists e st',
    (update_hdf5 df_bool overwrite status;;
     _update_properties df_bool columns overwrite) st = (Raise e, st') /\
    grp_props (st_grp st') = grp_props (st_grp st).
Proof.
  intros Hno.
  destruct (update_hdf5 df_bool overwrite status st) as [[[]|e] st1] eqn:Hup.
  - exists (AttributeError "DataFrame" "levels"), st1. split.
    + apply (update_body_after_update Mol keys to_rows levels_of_column
               df_bool columns overwrite status st st1 Hup).
      rewrite (update_hdf5_columns _ _ _ _ _ Hup). exact Hno.
    + apply (update_hdf5_props _ _ _ _ _ _ Hup).
  - exists e, st1. split.
    + unfold mbind at 1, St_bind at 1. rewrite Hup. reflexivity.
    + apply (update_hdf5_props _ _ _ _ _ _ Hup).
Qed.

(** The [with] block of [from_df] for a batch without a column labelled
    [levels]: it is left with an exception before the job settings are
    looked at, and every group of the file has the property datasets it
    had. *)
Lemma from_df_block (df : DataFrame Mol) (df_bool : MaskFrame)
    (name : string) (columns : ColumnIndex) (overwrite : bool)
    (status : option string) (f : File)
    (settings : DataFrame Mol -> string -> St File unit) :
  holds_name (df_columns df) "levels" = false ->
  exists e df' f',
    (on_file_group Mol name
       (update_hdf5 df_bool overwrite status;;
        _update_properties df_bool columns overwrite);;
     _update_job_settings Mol settings (settings_labels columns)) (df, f)
    = (Raise e, (df', f')) /\
    (forall settings' : DataFrame Mol -> string -> St File unit,
       (on_file_group Mol name
          (update_hdf5 df_bool overwrite status;;
           _update_properties df_bool columns overwrite);;
        _update_job_settings Mol settings' (settings_labels columns)) (df, f)
       = (Raise e, (df', f'))) /\
    forall name', grp_props <$> (f' !! name') = grp_props <$> (f !! name').
Proof.
  intros Hno. unfold mbind at 1 3, St_bind at 1 3, on_file_group. cbn [fst snd].
  destruct (f !! name) as [grp|] eqn:Hgrp.
  - destruct (update_then_properties df_bool columns overwrite status
                {| st_df := df; st_grp := grp |} Hno) as (e & st' & Hraise & Hprops).
    rewrite Hraise. exists e, (st_df st'), (<[name := st_grp st']> f).
    split; [reflexivity|]. split; [reflexivity|]. intros name'.
    unfold File in *.
    destruct (decide (name' = name)) as [->|Hne].
    + rewrite lookup_insert_eq, Hgrp. simpl. f_equal. exact Hprops.
    + rewrite lookup_insert_ne by congruence. reflexivity.
  - exists (KeyError name), df, f. repeat split.
Qed.

(** [from_df] for a batch without a column labelled [levels], when the
    probe has the passes it needs. *)
Lemma from_df_outcome (file_status : nat -> Probe.OpenResult)
    (fuel : nat) (df : DataFrame Mol) (df_bool : option MaskFrame)
    (name : string) (columns : option ColumnIndex) (overwrite : bool)
    (status : option string) (f : File) :
  (10 <= fuel)%nat ->
  holds_name (df_columns df) "levels" = false ->
  exists e df' f' events,
    from_df file_status fuel df df_bool name columns overwrite status f =
    Some (Raise e, df', f', events) /\
    forall name', grp_props <$> (f' !! name') = grp_props <$> (f !! name').
Proof.
  intros Hfuel Hno. unfold Orchestrator.from_df.
  destruct (negb (length (index_levels (default (df_columns df) columns)) =? 2)%nat).
  { do 4 eexists. split; reflexivity. }
  assert (Hprobe : exists r events,
            Probe.hdf5_availability Z file_status 5 fuel (Some 10) = Some (r, events)).
  { change 10 with (Z.of_nat 10).
    apply (ProbeBounds.hdf5_availability_ends Z file_status 5 fuel 10);
      [lia|exact Hfuel]. }
  destruct Hprobe as (r & events & ->).
  destruct r as [[]|e]; [|do 4 eexists; split; reflexivity].
  destruct (file_status (count_opens events)) as [|errno];
    [|do 4 eexists; split; reflexivity].
  destruct (from_df_block df (default (all_true Mol df) df_bool) name
              (default (df_columns df) columns) overwrite status f
              _update_hdf5_settings Hno) as (e & df' & f' & Hblock & _ & Hprops).
  rewrite Hblock. exists e, df', f', (events ++ [Probe.EvOpen (count_opens events)]).
  split; [reflexivity|exact Hprops].
Qed.

(** X19. [from_df] does not return: a call for a batch without a column
    labelled [levels] ends in an exception, whatever the batch, the mask,
    the name, [columns], [overwrite], [status] and the file are, and
    however the opens of the file end. *)
Theorem from_df_never_returns (file_status : nat -> Probe.OpenResult)
    (fuel : nat) (df : DataFrame Mol) (df_bool : option MaskFrame)
    (name : string) (columns : option ColumnIndex) (overwrite : bool)
    (status : option string) (f : File) :
  (10 <= fuel)%nat ->
  holds_name (df_columns df) "levels" = false ->
  exists e df' f' events,
    from_df file_status fuel df df_bool name columns overwrite status f =
    Some (Raise e, df', f', events).
Proof.
  intros Hfuel Hno.
  destruct (from_df_outcome file_status fuel df df_bool name columns overwrite
              status f Hfuel Hno) as (e & df' & f' & events & Heq & _).
  exists e, df', f', events. exact Heq.
Qed.

(** X16. [from_df] stores no property: after a call for a batch without a
    column labelled [levels], every group of the file has the property
    datasets it had before, with the rows they had, and no group has a
    new one. *)
Theorem from_df_keeps_properties (file_status : nat -> Probe.OpenResult)
    (fuel : nat) (df : DataFrame Mol) (df_bool : option MaskFrame)
    (name : string) (columns : option ColumnIndex) (overwrite : bool)
    (status : option string) (f : File) :
  (10 <= fuel)%nat ->
  holds_name (df_columns df) "levels" = false ->
  exists r df' f' events,
    from_df file_status fuel df df_bool name columns overwrite status f =
    Some (r, df', f', events) /\
    forall name', grp_props <$> (f' !! name') = grp_props <$> (f !! name').
Proof.
  intros Hfuel Hno.
  destruct (from_df_outcome file_status fuel df df_bool name columns overwrite
              status f Hfuel Hno) as (e & df' & f' & events & Heq & Hprops).
  exists (Raise e), df', f', events. split; [exact Heq|exact Hprops].
Qed.

(** X15. [from_df] does not reach the job settings: for a batch without a
    column labelled [levels], what the call does and how it ends is the
    same whatever [_update_hdf5_settings] does. *)
Theorem from_df_skips_settings (file_status : nat -> Probe.OpenResult)
    (fuel : nat) (df : DataFrame Mol) (df_bool : option MaskFrame)
    (name : string) (columns : option ColumnIndex) (overwrite : bool)
    (status : option string) (f : File)
    (settings : DataFrame Mol -> string -> St File unit) :
  holds_name (df_columns df) "levels" = false ->
  Orchestrator.from_df Mol keys to_rows settings levels_of_column
    file_status fuel df df_bool name columns overwrite status f =
  from_df file_status fuel df df_bool name columns overwrite status f.
Proof.
  intros Hno. unfold Orchestrator.from_df.
  destruct (negb (length (index_levels (default (df_columns df) columns)) =? 2)%nat);
    [reflexivity|].
  destruct (Probe.hdf5_availability Z file_status 5 fuel (Some 10))
    as [[[[]|e] events]|]; try reflexivity.
  destruct (file_status (count_opens events)) as [|errno]; [|reflexivity].
  destruct (from_df_block df (default (all_true Mol df) df_bool) name
              (default (df_columns df) columns) overwrite status f
              settings Hno) as (e & df' & f' & Hblock & Hany & _).
  rewrite Hblock, (Hany _update_hdf5_settings). reflexivity.
Qed.

End WithMolecules.

Import Scenarios.

(** A settings step that fails. *)
Lemma from_df_skips_settings_witness :
  Orchestrator.from_df string cat_keys row_of
    (fun _ _ => lift (Raise (KeyError "settings"))) no_levels
    available 10 new_batch (Some batch_mask) "ligand" None false None hdf5_file =
  Orchestrator.from_df string cat_keys row_of no_settings no_levels
    available 10 new_batch (Some batch_mask) "ligand" None false None hdf5_file.
Proof.
  apply (from_df_skips_settings string cat_keys row_of no_settings no_levels
           available 10 new_batch (Some batch_mask) "ligand" None false None
           hdf5_file (fun _ _ => lift (Raise (KeyError "settings")))).
  reflexivity.
Defined.

Lemma from_df_never_returns_witness :
  exists e df' f' events,
    Orchestrator.from_df string cat_keys row_of no_settings no_levels
      available 10 new_batch (Some batch_mask) "ligand" None true
      (Some "optimized") hdf5_file = Some (Raise e, df', f', events).
Proof.
  apply (from_df_never_returns string cat_keys row_of no_settings no_levels
           available 10 new_batch (Some batch_mask) "ligand" None true
           (Some "optimized") hdf5_file).
  - lia.
  - reflexivity.
Defined.

Lemma from_df_keeps_properties_witness :
  exists r df' f' events,
    Orchestrator.from_df string cat_keys row_of no_settings no_levels
      available 10 new_batch (Some batch_mask) "ligand" None true None
      hdf5_file = Some (r, df', f', events) /\
    forall name', grp_props <$> (f' !! name') = grp_props <$> (hdf5_file !! name').
Proof.
  apply (from_df_keeps_properties string cat_keys row_of no_settings no_levels
           available 10 new_batch (Some batch_mask) "ligand" None true None
           hdf5_file).
  - lia.
  - reflexivity.
Defined.

Lemma update_hdf5_nothing_new_witness :
  Orchestrator.update_hdf5 string cat_keys row_of nothing_marked false None
    before_write = (Ret tt, before_write).
Proof.
  apply (update_hdf5_nothing_new string cat_keys row_of nothing_marked None
           before_write [false; false; false] [-1; -1; -1]).
  - reflexivity.
  - reflexivity.
  - constructor.
Defined.


Lemma write_hdf5_marks_optimized_witness :
  exists col0 col,
    column string (st_df before_write) "opt" = Ret col0 /\
    column string (st_df after_optimized) "opt" = Ret col /\
    select (SelRows [0; 2]%nat) (col_cells col) =
      replicate 2 (Scalar (VBool true)) /\
    forall r, r ∉ [0; 2]%nat -> col_cells col !! r = col_cells col0 !! r.
Proof.
  apply (write_hdf5_marks_optimized string cat_keys row_of [0; 2]%nat true
           before_write after_optimized).
  - discriminate.
  - split; [reflexivity|]. repeat constructor.
  - apply (bool_decide_unpack _). vm_compute. exact I.
  - repeat constructor.
  - vm_compute. reflexivity.
Defined.

Lemma from_df_probe_exhausted_witness :
  Orchestrator.from_df string cat_keys row_of no_settings no_levels
    Probe.always_busy 10
    new_batch (Some batch_mask) "ligand" None false None hdf5_file =
  Some (Raise (OSError 11), new_batch, hdf5_file,
        Probe.failed_passes Z Probe.always_busy 5 0 10).
Proof.
  apply (from_df_probe_exhausted string cat_keys row_of no_settings no_levels
           Probe.always_busy 10 new_batch (Some batch_mask) "ligand" None
           false None hdf5_file).
  - reflexivity.
  - intros j _. discriminate.
  - lia.
Defined.

Lemma from_df_missing_group_witness :
  Orchestrator.from_df string cat_keys row_of no_settings no_levels available 10
    new_batch (Some batch_mask) "qd" None false None hdf5_file =
  Some (Raise (KeyError "qd"), new_batch, hdf5_file,
        [Probe.EvOpen 0; Probe.EvOpen 1]).
Proof.
  apply (from_df_missing_group string cat_keys row_of no_settings no_levels
           available 10 new_batch (Some batch_mask) "qd" None false None hdf5_file).
  - reflexivity.
  - reflexivity.
  - reflexivity.
  - lia.
  - reflexivity.
Defined.

End UpdateFacts.

(** ** The whole of [update_mongodb] *)

Module MirrorFacts.
Import Mongo Mirror.

Section WithDocuments.

Variable Key : Type.
Context `{EqDecision Key}.
Variable Body : Type.
Variable Config : Type.

Local Abbreviation update_mongodb := (Mirror.update_mongodb Key Body Config).
Local Abbreviation CatDatabase := (CatDatabase Key Body).
Local Abbreviation Frame := (Frame Key Body).

(** X20. [update_mongodb] called with the name of a database, as with its
    default argument ['ligand'], never reaches a collection: for every name
    the call raises and leaves both collections as they were.
    [ValueError] when no MongoDB is configured; otherwise [AttributeError]
    for ['ligand'] and ['qd'] (the class has no [csv_lig]) and
    [UnboundLocalError] for any other name. *)
Theorem update_mongodb_by_name_raises (mongodb : option Config)
    (database : string) (overwrite : bool) (mongo_db : CatDatabase) :
  update_mongodb mongodb (ByName database) overwrite mongo_db =
  (Raises (match mongodb with
           | None => Builtin (ValueError "Database.Mongodb is None")
           | Some _ =>
               if bool_decide (database = "ligand" \/ database = "qd")
               then Builtin (AttributeError "Database" "csv_lig")
               else Builtin (UnboundLocalError "manager")
           end), mongo_db).
Proof.
  unfold Mirror.update_mongodb. destruct mongodb as [config|]; [|reflexivity].
  repeat case_decide; case_bool_decide; try reflexivity; exfalso; tauto.
Qed.

(** X21. Called with a mapping whose first dataframe passes the check of
    [df_to_mongo_dict], [update_mongodb] sends the rows of that dataframe,
    and of no other item, to one collection: to [ligand_database] when the
    key of the item is ['ligand'], and to [qd_database] for every other key,
    whatever it is. The call ends as the write to that collection ends and
    leaves it as that write leaves it; the other collection is as it
    was. *)
Theorem update_mongodb_routes (config : Config) (database : string)
    (db : Frame) (rest : list (string * Frame))
    (overwrite : bool) (mongo_db : CatDatabase) :
  index_is_multi Key Body db && columns_is_multi Key Body db = true ->
  update_mongodb (Some config) (ByMapping ((database, db) :: rest)) overwrite
    mongo_db =
  if decide (database = "ligand") then
    let r := Mongo.update_mongodb Key Body (ligand_database mongo_db)
               (frame_rows Key Body db) overwrite in
    (of_exc r.1, {| ligand_database := r.2;
                    qd_database := qd_database mongo_db |})
  else
    let r := Mongo.update_mongodb Key Body (qd_database mongo_db)
               (frame_rows Key Body db) overwrite in
    (of_exc r.1, {| ligand_database := ligand_database mongo_db;
                    qd_database := r.2 |}).
Proof.
  intros Hmulti. unfold Mirror.update_mongodb, check_frame. rewrite Hmulti.
  simpl negb. cbv iota.
  case_decide; destruct (Mongo.update_mongodb _ _ _ _ _); reflexivity.
Qed.

(** X22. A mapping whose first dataframe has an index or columns that are
    not a [MultiIndex] makes [update_mongodb] raise the [TypeError] of
    [df_to_mongo_dict] before any document is sent: both collections are
    as they were. *)
Theorem update_mongodb_rejects_flat_frame (config : Config) (database : string)
    (db : Frame) (rest : list (string * Frame))
    (overwrite : bool) (mongo_db : CatDatabase) :
  index_is_multi Key Body db && columns_is_multi Key Body db = false ->
  update_mongodb (Some config) (ByMapping ((database, db) :: rest)) overwrite
    mongo_db =
  (Raises (Builtin (TypeError
     "DataFrame.index and DataFrame.columns should be instances of pandas.MultiIndex")),
   mongo_db).
Proof.
  intros Hflat.
  unfold Mirror.update_mongodb, check_frame. rewrite Hflat. reflexivity.
Qed.

End WithDocuments.

Lemma update_mongodb_routes_witness :
  Mirror.update_mongodb string Z unit (Some tt)
    (ByMapping [("qd_new", mkFrame true true batch);
                ("ligand", mkFrame true true batch)]) true
    (mkCatDatabase stored []) =
  (Returns tt, mkCatDatabase stored batch).
Proof.
  etransitivity.
  - apply (update_mongodb_routes string Z unit tt "qd_new"
             (mkFrame true true batch) [("ligand", mkFrame true true batch)]
             true (mkCatDatabase stored [])).
    reflexivity.
  - reflexivity.
Defined.

Lemma update_mongodb_rejects_flat_frame_witness :
  Mirror.update_mongodb string Z unit (Some tt)
    (ByMapping [("ligand", mkFrame true false batch)]) true
    (mkCatDatabase stored []) =
  (Raises (Builtin (TypeError
     "DataFrame.index and DataFrame.columns should be instances of pandas.MultiIndex")),
   mkCatDatabase stored []).
Proof.
  apply (update_mongodb_rejects_flat_frame string Z unit tt "ligand"
           (mkFrame true false batch) [] true (mkCatDatabase stored [])).
  reflexivity.
Defined.

End MirrorFacts.

(** ** Reading back *)

Module ReadBackFacts.
Import Orchestrator ReadBack.

(** X23. [to_df] returns for no input: whatever index or dataframe, group
    name, property names and [read_mol] it is given, and whatever the file
    holds, the call raises: the [OSError] of the open when the file cannot
    be opened, [KeyError] for the name when the file has no such group, and
    [NameError] for the undefined [prop_names] in every other case, that
    is, as soon as the file opens and has the group. *)
Theorem to_df_never_returns (Arg Frames : Type)
    (open_result : Probe.OpenResult) (f : File) (arg : Arg) (name : string)
    (args : list string) (read_mol : bool) :
  to_df Arg Frames open_result f arg name args read_mol =
  Raises (match open_result with
          | Probe.Unavailable errno => Builtin (OSError errno)
          | Probe.Opened =>
              if bool_decide (is_Some (f !! name))
              then NameError "prop_names"
              else Builtin (KeyError name)
          end).
Proof.
  unfold to_df. destruct open_result as [|errno]; [|reflexivity].
  destruct (f !! name) as [grp|] eqn:Hgrp.
  - rewrite bool_decide_eq_true_2 by (eexists; reflexivity). reflexivity.
  - rewrite bool_decide_eq_false_2 by (intros [grp Hsome]; discriminate).
    reflexivity.
Qed.

End ReadBackFacts.

(** ** Arrays of .pdb lines *)

Module PdbArrayFacts.
Import PdbArray.

Lemma map_out_returns {A B : Type} (f : A -> Outcome B) (l : list A) :
  Forall (fun x => exists y, f x = Returns y) l ->
  exists ys, map_out f l = Returns ys.
Proof.
  induction l as [|x l IH]; intros H; [exists []; reflexivity|].
  apply Forall_cons in H as [[y Hy] Hl]. destruct (IH Hl) as [ys Hys].
  exists (y :: ys). simpl. rewrite Hy, Hys. reflexivity.
Qed.

Lemma map_out_Returns {A B : Type} (f : A -> Outcome B) (l : list A) :
  forall ys, map_out f l = Returns ys ->
  length ys = length l /\
  forall i x, l !! i = Some x -> exists y, ys !! i = Some y /\ f x = Returns y.
Proof.
  induction l as [|x l IH]; intros ys H; simpl in H.
  - injection H as <-. split; [reflexivity|]. intros i x Hi. discriminate.
  - destruct (f x) as [y|e] eqn:Hy; [|discriminate].
    destruct (map_out f l) as [ys'|e]; [|discriminate].
    injection H as <-. destruct (IH ys' eq_refl) as [Hlen Hlook].
    split; [simpl; rewrite Hlen; reflexivity|].
    intros [|i] x' Hi; simpl in Hi.
    + injection Hi as <-. exists y. split; [reflexivity|exact Hy].
    + apply (Hlook i x' Hi).
Qed.

(** The result of a map is fixed by what the function returns on the
    items. *)
Lemma map_out_ext {A B : Type} (f : A -> Outcome B) (g : A -> B) (l : list A) :
  Forall (fun x => f x = Returns (g x)) l -> map_out f l = Returns (g <$> l).
Proof.
  induction l as [|x l IH]; intros H; [reflexivity|].
  apply Forall_cons in H as [Hx Hl]. simpl. rewrite Hx, (IH Hl). reflexivity.
Qed.

(** Writing a list over the start of a row of equal elements. *)
Lemma list_inserts_0_replicate {A : Type} (l : list A) (n : nat) (x : A) :
  (length l <= n)%nat ->
  list_inserts 0 l (replicate n x) = l ++ replicate (n - length l) x.
Proof.
  intros Hlen. apply list_eq. intros j.
  destruct (decide (j < length l)%nat) as [Hj|Hj].
  - rewrite list_lookup_inserts by (rewrite ?length_replicate; lia).
    rewrite lookup_app_l by exact Hj. f_equal. lia.
  - rewrite list_lookup_inserts_ge by lia.
    rewrite lookup_app_r by lia.
    destruct (decide (j < n)%nat) as [Hn|Hn].
    + rewrite !lookup_replicate_2 by lia. reflexivity.
    + rewrite !(proj1 (lookup_replicate_None _ _ _)); [reflexivity|lia|lia].
Qed.

Lemma filter_nonempty_replicate (n : nat) :
  filter (fun item : string => item <> EmptyString) (replicate n EmptyString) = [].
Proof.
  induction n as [|n IH]; [reflexivity|]. simpl. rewrite filter_cons.
  case_decide; [contradiction|exact IH].
Qed.

Lemma filter_nonempty_all (l : list string) :
  Forall (fun item => item <> EmptyString) l ->
  filter (fun item : string => item <> EmptyString) l = l.
Proof.
  induction l as [|x l IH]; intros H; [reflexivity|].
  apply Forall_cons in H as [Hx Hl]. rewrite filter_cons.
  case_decide; [|contradiction]. rewrite (IH Hl). reflexivity.
Qed.

Section WithMolecules.

Variable Mol : Type.
Variable RdMol : Type.
Variable pdb_lines : Mol -> list string.
Variable to_S80 : string -> Outcome string.
Variable decode : string -> Outcome string.
Variable MolFromPDBBlock : string -> RdMol.
Variable from_rdmol : RdMol -> Mol.

Local Abbreviation as_pdb_array := (as_pdb_array Mol pdb_lines to_S80).
Local Abbreviation pdb_str := (pdb_str decode).
Local Abbreviation from_pdb_array :=
  (from_pdb_array Mol RdMol decode MolFromPDBBlock from_rdmol).
Local Abbreviation fill_row := (fill_row to_S80).

Local Abbreviation width_of := (width_of Mol pdb_lines).

Lemma as_pdb_array_unfold (mol : Mol) (mol_list : list Mol) (min_size : Z)
    (warn : bool) :
  (as_pdb_array (mol :: mol_list) min_size warn).2 =
  map_out (fill_row (width_of (mol :: mol_list) min_size))
    (pdb_lines <$> (mol :: mol_list)).
Proof.
  unfold PdbArray.as_pdb_array, PdbArray.width_of. cbn [fmap list_fmap snd].
  change (?f <$> ?l) with (list_fmap _ _ f l).
  cbn [list_fmap fst snd]. rewrite <- !list_fmap_compose. reflexivity.
Qed.


Lemma length_fill_row (width : nat) (item row : list string) :
  fill_row width item = Returns row -> length row = width.
Proof.
  unfold PdbArray.fill_row. destruct (map_out to_S80 item) as [stored|e];
    [|discriminate].
  intros H. injection H as <-. rewrite length_inserts. apply length_replicate.
Qed.

Lemma width_of_ge (mol_list : list Mol) (min_size : Z) (mol : Mol) :
  mol ∈ mol_list ->
  (length (pdb_lines mol) <= width_of mol_list min_size)%nat /\
  min_size <= Z.of_nat (width_of mol_list min_size).
Proof.
  intros Hin. unfold PdbArray.width_of.
  assert (length (pdb_lines mol) <=
          max_list ((fun mol => length (pdb_lines mol)) <$> mol_list))%nat.
  { apply max_list_elem_of_le.
    apply (list_elem_of_fmap_2 (fun mol => length (pdb_lines mol)) _ _ Hin). }
  lia.
Qed.

(** X24. [as_pdb_array] raises [ValueError] for an empty collection of
    molecules. For any other collection whose lines can all be stored it
    returns an array with one row per molecule, in order, every row
    [max(min_size, longest molecule)] elements wide: the row of a molecule
    holds its stored lines followed by empty elements. *)
Theorem as_pdb_array_shape (mol_list : list Mol) (min_size : Z) (warn : bool) :
  (forall mol line, mol ∈ mol_list -> line ∈ pdb_lines mol ->
     exists stored, to_S80 line = Returns stored) ->
  match mol_list with
  | [] =>
      (as_pdb_array mol_list min_size warn).2 =
      Raises (Builtin (ValueError "not enough values to unpack (expected 2, got 0)"))
  | _ :: _ =>
      exists array,
        (as_pdb_array mol_list min_size warn).2 = Returns array /\
        length array = length mol_list /\
        Forall (fun row => length row = width_of mol_list min_size) array /\
        min_size <= Z.of_nat (width_of mol_list min_size) /\
        forall i mol, mol_list !! i = Some mol ->
          exists stored,
            map_out to_S80 (pdb_lines mol) = Returns stored /\
            length stored = length (pdb_lines mol) /\
            (length stored <= width_of mol_list min_size)%nat /\
            array !! i =
              Some (stored ++ replicate (width_of mol_list min_size - length stored)
                                EmptyString)
  end.
Proof.
  intros Hstore. destruct mol_list as [|mol0 mol_list]; [reflexivity|].
  set (mols := mol0 :: mol_list) in *.
  assert (Hrows : exists array,
            map_out (fill_row (width_of mols min_size)) (pdb_lines <$> mols)
            = Returns array).
  { apply map_out_returns. apply Forall_fmap, Forall_forall. intros mol Hmol.
    destruct (map_out_returns to_S80 (pdb_lines mol)) as [stored Hstored].
    { apply Forall_forall. intros line Hline. apply (Hstore mol line Hmol Hline). }
    simpl. unfold PdbArray.fill_row. rewrite Hstored. eexists. reflexivity. }
  destruct Hrows as [array Harray]. exists array.
  subst mols. rewrite as_pdb_array_unfold.
  split; [exact Harray|].
  destruct (map_out_Returns _ _ _ Harray) as [Hlen Hlook].
  rewrite length_fmap in Hlen. split; [exact Hlen|]. split.
  { apply Forall_forall. intros row Hrow.
    apply list_elem_of_lookup_1 in Hrow as [i Hi].
    assert (Hlt : (i < length (pdb_lines <$> mol0 :: mol_list))%nat).
    { rewrite length_fmap, <- Hlen. apply (lookup_lt_Some _ _ _ Hi). }
    apply lookup_lt_is_Some_2 in Hlt as [item Hitem].
    destruct (Hlook i item Hitem) as (row' & Hrow' & Hfill).
    assert (row' = row) by congruence. subst row'.
    apply (length_fill_row _ _ _ Hfill). }
  split.
  { apply (width_of_ge (mol0 :: mol_list) min_size mol0), list_elem_of_here. }
  intros i mol Hmol.
  assert (Hitem : (pdb_lines <$> mol0 :: mol_list) !! i = Some (pdb_lines mol)).
  { rewrite list_lookup_fmap, Hmol. reflexivity. }
  destruct (Hlook i _ Hitem) as (row & Hrow & Hfill).
  unfold PdbArray.fill_row in Hfill.
  destruct (map_out to_S80 (pdb_lines mol)) as [stored|e] eqn:Hstored;
    [|discriminate].
  injection Hfill as <-.
  destruct (map_out_Returns _ _ _ Hstored) as [Hlens _].
  destruct (width_of_ge (mol0 :: mol_list) min_size mol
              (list_elem_of_lookup_2 _ _ _ Hmol)) as [Hw _].
  exists stored. split; [reflexivity|]. split; [exact Hlens|].
  split; [lia|]. rewrite Hrow. f_equal.
  apply list_inserts_0_replicate. lia.
Qed.

(** X25. Reading back what [as_pdb_array] stored: for a molecule whose
    lines are stored as non-empty elements that decode to the lines, the
    text that [from_pdb_array] builds from the row of the molecule and
    hands to RDKit is the lines of the molecule, each followed by a line
    feed. The empty elements that pad the row leave no trace, and the
    molecule returned is the one RDKit reads from that text. *)
Theorem pdb_array_round_trip (mol_list : list Mol) (min_size : Z)
    (warn : bool) (array : list (list string)) (i : nat) (mol : Mol)
    (row : list string) (rdmol warn' : bool) :
  (as_pdb_array mol_list min_size warn).2 = Returns array ->
  mol_list !! i = Some mol -> array !! i = Some row ->
  (forall line, line ∈ pdb_lines mol ->
     exists stored, to_S80 line = Returns stored /\ stored <> EmptyString /\
                    decode stored = Returns line) ->
  let text := String.concat EmptyString
                ((fun line => line +:+ newline) <$> pdb_lines mol) in
  pdb_str row = Returns text /\
  (from_pdb_array row rdmol warn').2 =
  Returns (if negb rdmol then inr (from_rdmol (MolFromPDBBlock text))
           else inl (MolFromPDBBlock text)).
Proof.
  intros Harray Hmol Hrow Hlines text.
  destruct mol_list as [|mol0 mol_list]; [discriminate Hmol|].
  rewrite as_pdb_array_unfold in Harray.
  destruct (map_out_Returns _ _ _ Harray) as [_ Hlook].
  assert (Hitem : (pdb_lines <$> mol0 :: mol_list) !! i = Some (pdb_lines mol)).
  { rewrite list_lookup_fmap, Hmol. reflexivity. }
  destruct (Hlook i _ Hitem) as (row' & Hrow' & Hfill).
  assert (row' = row) by congruence. subst row'.
  unfold PdbArray.fill_row in Hfill.
  destruct (map_out to_S80 (pdb_lines mol)) as [stored|e] eqn:Hstored;
    [|discriminate].
  injection Hfill as <-.
  destruct (map_out_Returns _ _ _ Hstored) as [Hlens Hstoredl].
  destruct (width_of_ge (mol0 :: mol_list) min_size mol
              (list_elem_of_lookup_2 _ _ _ Hmol)) as [Hw _].
  assert (Hnonempty : Forall (fun item => item <> EmptyString) stored).
  { apply Forall_forall. intros b Hb.
    apply list_elem_of_lookup_1 in Hb as [j Hj].
    assert (Hlt : (j < length (pdb_lines mol))%nat).
    { rewrite <- Hlens. apply (lookup_lt_Some _ _ _ Hj). }
    apply lookup_lt_is_Some_2 in Hlt as [line Hline].
    destruct (Hstoredl j line Hline) as (b' & Hb' & Hto).
    destruct (Hlines line (list_elem_of_lookup_2 _ _ _ Hline))
      as (b'' & Hto' & Hne & _).
    congruence. }
  assert (Hdecode : map_out decode stored = Returns (pdb_lines mol)).
  { clear Hrow Hlook Harray Hitem Hrow' Hw Hnonempty.
    revert stored Hstored Hlens Hstoredl.
    induction (pdb_lines mol) as [|line lines IH]; intros stored Hstored Hlens Hl.
    - destruct stored; [reflexivity|discriminate Hlens].
    - simpl in Hstored.
      destruct (to_S80 line) as [b|e] eqn:Hb; [|discriminate].
      destruct (map_out to_S80 lines) as [bs|e] eqn:Hbs; [|discriminate].
      injection Hstored as <-.
      destruct (Hlines line (list_elem_of_here _ _)) as (b' & Hto & _ & Hdec).
      assert (b' = b) by congruence. subst b'.
      simpl. rewrite Hdec.
      rewrite (IH (fun l Hl' => Hlines l (list_elem_of_further _ _ _ Hl')) bs eq_refl).
      + reflexivity.
      + simpl in Hlens. lia.
      + destruct (map_out_Returns _ _ _ Hbs) as [_ Hbl]. exact Hbl. }
  assert (Hstr : pdb_str (list_inserts 0 stored
                            (replicate (width_of (mol0 :: mol_list) min_size)
                               EmptyString)) = Returns text).
  { unfold PdbArray.pdb_str.
    rewrite list_inserts_0_replicate by lia.
    rewrite filter_app, filter_nonempty_replicate, app_nil_r.
    rewrite (filter_nonempty_all _ Hnonempty), Hdecode. reflexivity. }
  split; [exact Hstr|].
  unfold PdbArray.from_pdb_array. rewrite Hstr. reflexivity.
Qed.

End WithMolecules.

Lemma as_pdb_array_shape_witness :
  exists array,
    (PdbArray.as_pdb_array (list string) lines_of keep_80 [water; helium] 0 true).2
      = Returns array /\
    length array = 2%nat /\
    Forall (fun row => length row =
                       width_of (list string) lines_of [water; helium] 0) array /\
    0 <= Z.of_nat (width_of (list string) lines_of [water; helium] 0) /\
    forall i mol, [water; helium] !! i = Some mol ->
      exists stored,
        map_out keep_80 (lines_of mol) = Returns stored /\
        length stored = length (lines_of mol) /\
        (length stored <= width_of (list string) lines_of [water; helium] 0)%nat /\
        array !! i =
          Some (stored ++
                replicate (width_of (list string) lines_of [water; helium] 0
                           - length stored) EmptyString).
Proof.
  apply (as_pdb_array_shape (list string) lines_of keep_80 [water; helium] 0 true).
  intros mol line _ _. eexists. reflexivity.
Defined.

Lemma pdb_array_round_trip_witness :
  let text := String.concat EmptyString
                ((fun line => line +:+ newline) <$> lines_of helium) in
  PdbArray.pdb_str read_bytes ["HETATM He"; "END"; ""; ""] = Returns text /\
  (PdbArray.from_pdb_array (list string) string read_bytes read_block mol_of
     ["HETATM He"; "END"; ""; ""] false true).2 =
  Returns (inr (mol_of (read_block text))).
Proof.
  apply (pdb_array_round_trip (list string) string lines_of keep_80 read_bytes
           read_block mol_of [water; helium] 0 true
           [["HETATM O"; "HETATM H"; "HETATM H"; "END"];
            ["HETATM He"; "END"; ""; ""]]
           1 helium ["HETATM He"; "END"; ""; ""] false true).
  - vm_compute. reflexivity.
  - reflexivity.
  - reflexivity.
  - intros line Hline.
    apply elem_of_cons in Hline as [->|Hline].
    { eexists. split; [reflexivity|]. split; [discriminate|reflexivity]. }
    apply elem_of_cons in Hline as [->|Hline].
    { eexists. split; [reflexivity|]. split; [discriminate|reflexivity]. }
    inversion Hline.
Defined.

End PdbArrayFacts.

(** ** Writing at given positions *)

Module PdbValuesFacts.
Import PdbShape PdbShapeFacts PdbAppendFacts PdbValues.

Section WithCell.

Variable V : Type.
Variable Index : Type.
Variable slice_None : Index.
Variable setitem : Array V -> Index -> Array V -> Exc (Array V).
Variable setitem_cols : Array V -> Index -> nat -> Array V -> Exc (Array V).

Local Abbreviation update_one := (update_one V Index setitem setitem_cols).
Local Abbreviation update_pdb_values :=
  (update_pdb_values V Index slice_None setitem setitem_cols).

Implicit Types (group : gmap string (Array V)) (pre post : list (string * Array V)).

(** X27. [update_pdb_values] is not undone when it fails: when the group
    lacks the dataset of one array of the container, the call raises
    [KeyError] for that name, the datasets named before it hold what their
    writes (all of which returned) have made of them, and the datasets
    that the container names later or not at all are as they were. *)
Theorem update_pdb_values_missing_name group pre post (name : string)
    (ar : Array V) (idx : option Index) :
  NoDup (pre ++ (name, ar) :: post).*1 ->
  Forall (fun item : string * Array V =>
            exists d, group !! item.1 = Some d /\
                      (update_one (default slice_None idx) d item.2).1 = Ret tt)
         pre ->
  group !! name = None ->
  let out := update_pdb_values group (pre ++ (name, ar) :: post) idx in
  out.1 = Raise (KeyError name) /\
  (forall n a d, (n, a) ∈ pre -> group !! n = Some d ->
     out.2 !! n = Some (update_one (default slice_None idx) d a).2) /\
  (forall n, n ∉ pre.*1 -> out.2 !! n = group !! n).
Proof.
  intros Hnd Hpre Hnone out.
  rewrite fmap_app, fmap_cons in Hnd. simpl in Hnd.
  apply NoDup_app in Hnd as (Hndpre & Hdisj & _).
  assert (Hfresh : name ∉ pre.*1).
  { intros Hin. apply (Hdisj name Hin). apply list_elem_of_here. }
  set (body := update_one (default slice_None idx)) in *.
  pose proof (for_items_returns V body pre group Hndpre Hpre) as Hret.
  pose proof (for_items_other V body pre group name Hfresh) as Hsame.
  assert (Hout : out = (Raise (KeyError name),
                        (for_items V (on_dataset V body) pre group).2)).
  { subst out. unfold PdbValues.update_pdb_values. fold body.
    rewrite for_items_app.
    destruct (for_items V (on_dataset V body) pre group) as [[[]|e] g1];
      simpl in Hret, Hsame; [|discriminate].
    simpl. unfold on_dataset at 1. simpl. rewrite Hsame, Hnone. reflexivity. }
  rewrite Hout. simpl. split; [reflexivity|]. split.
  - intros n a d Hin Hd.
    destruct (for_items_member V body pre group n a d Hndpre Hin Hd)
      as [Hdone|[_ [e He]]]; [exact Hdone|congruence].
  - intros n Hn. apply for_items_other, Hn.
Qed.

End WithCell.

Lemma update_pdb_values_missing_name_witness :
  let out := PdbValues.update_pdb_values nat unit tt replace_all replace_all_cols
               demo_group
               ([("atoms", Ar2 3 [[7; 8; 9]]%nat)] ++
                ("bonds", Ar1 [1]%nat) :: [("atom_count", Ar1 [3]%nat)]) None in
  out.1 = Raise (KeyError "bonds") /\
  (forall n a d, (n, a) ∈ [("atoms", Ar2 3 [[7; 8; 9]]%nat)] ->
     demo_group !! n = Some d ->
     out.2 !! n =
     Some (PdbValues.update_one nat unit replace_all replace_all_cols tt d a).2) /\
  (forall n, n ∉ [("atoms", Ar2 3 [[7; 8; 9]]%nat)].*1 ->
     out.2 !! n = demo_group !! n).
Proof.
  apply (update_pdb_values_missing_name nat unit tt replace_all replace_all_cols
           demo_group [("atoms", Ar2 3 [[7; 8; 9]]%nat)]
           [("atom_count", Ar1 [3]%nat)] "bonds" (Ar1 [1]%nat) None).
  - apply (bool_decide_unpack _). vm_compute. exact I.
  - repeat constructor. exists (Ar2 2 [[1; 2]; [3; 4]]%nat).
    split; reflexivity.
  - reflexivity.
Defined.

End PdbValuesFacts.
